(* ===================================================================== *)
(*  Russian News Summarizer API (src/api/main.py): shallow embedding      *)
(*  of the FastAPI service and verification of its serving contract.      *)
(* ===================================================================== *)

From Stdlib Require Import ZArith List String Ascii Lia Bool.
From Stdlib Require Import Floats.SpecFloat.
From stdpp Require Import base option list gmap pretty.

Local Open Scope Z_scope.

(* --------------------------------------------------------------------- *)
(*  Python values used by the service                                     *)
(* --------------------------------------------------------------------- *)

(** A Python [str] is a sequence of Unicode code points; [len] counts code
    points.  The literals of the source are written as UTF-8 text and
    decoded. *)
Module PyStr.

Definition codepoint := N.
Definition t := list codepoint.

Definition len (s : t) : Z := Z.of_nat (length s).

Definition cont (b : N) : N := N.land b 63.

(** UTF-8 decoder for the literals of this file (1 to 4 byte forms; a
    byte that opens no well-formed sequence is kept as it is). *)
Fixpoint decode (bs : list N) : t :=
  match bs with
  | [] => []
  | b0 :: r0 =>
    if (b0 <? 128)%N then b0 :: decode r0
    else if (b0 <? 224)%N then
      match r0 with
      | b1 :: r1 => (N.land b0 31 * 64 + cont b1)%N :: decode r1
      | [] => [b0]
      end
    else if (b0 <? 240)%N then
      match r0 with
      | b1 :: b2 :: r2 =>
          (N.land b0 15 * 4096 + cont b1 * 64 + cont b2)%N :: decode r2
      | _ => b0 :: decode r0
      end
    else
      match r0 with
      | b1 :: b2 :: b3 :: r3 =>
          (N.land b0 7 * 262144 + cont b1 * 4096 + cont b2 * 64 + cont b3)%N
            :: decode r3
      | _ => b0 :: decode r0
      end
  end.

Definition lit (s : string) : t :=
  decode (List.map N_of_ascii (list_ascii_of_string s)).

(** [str(n)] for a non-negative integer below 10^[w], zero padded to
    [w] digits (the [%02d]-style fields of [strftime]). *)
Fixpoint digits (w : nat) (n : Z) : t :=
  match w with
  | O => []
  | S w' => digits w' (n / 10) ++ [Z.to_N (48 + n mod 10)]
  end.

End PyStr.

Abbreviation pystr := PyStr.t.

(** Python [float]: IEEE 754 binary64, through the Standard Library's
    specification of floating-point arithmetic. *)
Module PyFloat.

Definition prec : Z := 53.
Definition emax : Z := 1024.

Definition t := spec_float.

(** Exact integer as a (not necessarily canonical) operand. *)
Definition exact (z : Z) : t :=
  match z with
  | Z0 => S754_zero false
  | Zpos p => S754_finite false p 0
  | Zneg p => S754_finite true p 0
  end.

(** [float(z)], correctly rounded. *)
Definition of_int (z : Z) : t := binary_normalize prec emax z 0 false.

Definition sub (x y : t) : t := SFsub prec emax x y.
Definition leb (x y : t) : bool := SFleb x y.

(** The correctly rounded quotient of two integers, [b <> 0]. *)
Definition quot (a b : Z) : t := SFdiv prec emax (exact a) (exact b).

(** Round half to even of the rational [n / d], [d > 0]. *)
Definition round_half_even (n d : Z) : Z :=
  let q := n / d in
  let r := n mod d in
  match 2 * r ?= d with
  | Lt => q
  | Gt => q + 1
  | Eq => if Z.even q then q else q + 1
  end.

(** [round(x, ndigits)] for [0 <= ndigits]: the exact binary value of [x]
    is rounded half-even to [ndigits] decimals, and the decimal result is
    converted back to the nearest double.  Zeros, infinities and NaN are
    returned unchanged. *)
Definition round (x : t) (ndigits : Z) : t :=
  match x with
  | S754_finite s m e =>
    let p10 := 10 ^ ndigits in
    let r :=
      if 0 <=? e then Z.pos m * 2 ^ e * p10
      else round_half_even (Z.pos m * p10) (2 ^ (- e)) in
    match r with
    | Z0 => S754_zero s
    | _ => SFdiv prec emax (exact (if s then - r else r)) (exact p10)
    end
  | _ => x
  end.

(** Decimal literal [n / 10^k] of the nearest double, for statements. *)
Definition dec (n : Z) (k : Z) : t := quot n (10 ^ k).

End PyFloat.

Abbreviation pyfloat := PyFloat.t.

(* --------------------------------------------------------------------- *)
(*  Exceptions, results and the black-box pipeline                        *)
(* --------------------------------------------------------------------- *)

(** Outcome of a Python computation: a value, or a raised exception. *)
Inductive result (E A : Type) : Type :=
| Ok (a : A)
| Raise (e : E).
Arguments Ok {E A} a.
Arguments Raise {E A} e.

(** An instance of [Exception] caught by [except Exception as e] is used
    only through [str(e)]. *)
Abbreviation PyExc := pystr (only parsing).

(** [fastapi.HTTPException(status_code, detail)]. *)
Record HTTPException := {
  status_code : Z;
  detail : pystr
}.

(** The object returned by [transformers.pipeline("summarization", ...)]:
    an opaque callable.  Its answer may depend on hidden mutable state
    (generator state, caches), which it may also update; it returns a list
    of dicts or raises. *)
Record Pipeline := {
  pipeline_call :
    nat -> pystr -> Z -> Z -> bool ->
    result PyExc (list (gmap pystr pystr)) * nat
}.

(** [datetime.datetime], naive local time. *)
Record datetime := {
  year : Z; month : Z; day : Z;
  hour : Z; minute : Z; second : Z; microsecond : Z
}.

Definition date_part (d : datetime) : pystr :=
  PyStr.digits 4 (year d) ++ PyStr.lit "-" ++ PyStr.digits 2 (month d)
    ++ PyStr.lit "-" ++ PyStr.digits 2 (day d).

Definition time_part (d : datetime) : pystr :=
  PyStr.digits 2 (hour d) ++ PyStr.lit ":" ++ PyStr.digits 2 (minute d)
    ++ PyStr.lit ":" ++ PyStr.digits 2 (second d).

(** [d.strftime("%Y-%m-%d %H:%M:%S")]. *)
Definition strftime_Ymd_HMS (d : datetime) : pystr :=
  date_part d ++ PyStr.lit " " ++ time_part d.

(** [d.isoformat()]: the fraction is printed only when it is not zero. *)
Definition isoformat (d : datetime) : pystr :=
  date_part d ++ PyStr.lit "T" ++ time_part d
    ++ (if microsecond d =? 0 then []
        else PyStr.lit "." ++ PyStr.digits 6 (microsecond d)).

(* --------------------------------------------------------------------- *)
(*  The process state and its environment                                 *)
(* --------------------------------------------------------------------- *)

(** Observable effects, in the order they happen. *)
Inductive Event :=
| EvPrint (line : pystr)
| EvInvoke (text : pystr) (max_length min_length : Z) (do_sample : bool).

(** What the process reads from outside: the n-th reading of the clocks,
    the accelerator probe and the model loader. *)
Record Env := {
  time_time : nat -> pyfloat;
  datetime_now : nat -> datetime;
  torch_cuda_is_available : bool;
  transformers_pipeline :
    pystr -> pystr -> Z -> pystr -> result PyExc Pipeline
}.

(** The mutable state: the module global [summarizer], the hidden state of
    the loaded model, the number of clock readings taken so far, and the
    trace of effects. *)
Record World := {
  summarizer : option Pipeline;
  hidden : nat;
  ticks : nat;
  events : list Event
}.

(** State and exception monad of the handlers. *)
Definition M (E A : Type) : Type := World -> result E A * World.

#[global] Instance M_ret {E} : MRet (M E) :=
  fun A (a : A) w => (Ok a, w).

#[global] Instance M_bind {E} : MBind (M E) :=
  fun A B (k : A -> M E B) (m : M E A) w =>
    match m w with
    | (Ok a, w') => k a w'
    | (Raise e, w') => (Raise e, w')
    end.

Definition raise {E A} (e : E) : M E A := fun w => (Raise e, w).

(** [try: body  except Exception as e: handler(e)]. *)
Definition try_except {E A} (body : M PyExc A) (handler : PyExc -> M E A)
  : M E A :=
  fun w =>
    match body w with
    | (Ok a, w') => (Ok a, w')
    | (Raise e, w') => handler e w'
    end.


(* --------------------------------------------------------------------- *)
(*  Primitive operations                                                  *)
(* --------------------------------------------------------------------- *)

(** Reading the module global. *)
Definition get_summarizer {E} : M E (option Pipeline) :=
  fun w => (Ok (summarizer w), w).

(** [global summarizer; summarizer = p]. *)
Definition set_summarizer {E} (p : Pipeline) : M E unit :=
  fun w =>
    (Ok tt, {| summarizer := Some p; hidden := hidden w;
               ticks := ticks w; events := events w |}).

Definition print {E} (line : pystr) : M E unit :=
  fun w =>
    (Ok tt, {| summarizer := summarizer w; hidden := hidden w;
               ticks := ticks w; events := events w ++ [EvPrint line] |}).

(** Calling the pipeline object: the call is recorded, the hidden state
    is whatever the model leaves. *)
Definition invoke (p : Pipeline) (text : pystr)
    (max_length min_length : Z) (do_sample : bool)
  : M PyExc (list (gmap pystr pystr)) :=
  fun w =>
    let '(r, h) :=
      pipeline_call p (hidden w) text max_length min_length do_sample in
    (r, {| summarizer := summarizer w; hidden := h; ticks := ticks w;
           events := events w
                       ++ [EvInvoke text max_length min_length do_sample] |}).

(** [f(text, max_length = .., min_length = .., do_sample = ..)] where [f]
    is the value of the global: [None] is not callable. *)
Definition call (f : option Pipeline) (text : pystr)
    (max_length min_length : Z) (do_sample : bool)
  : M PyExc (list (gmap pystr pystr)) :=
  match f with
  | Some p => invoke p text max_length min_length do_sample
  | None => fun w => (Raise (PyStr.lit "'NoneType' object is not callable"), w)
  end.

(** [x // y] where [x] is an [Optional[int]] and [y] a non-zero [int]. *)
Definition floordiv (x : option Z) (y : Z) : result PyExc Z :=
  match x with
  | Some a => Ok (a / y)
  | None =>
      Raise (PyStr.lit
        "unsupported operand type(s) for //: 'NoneType' and 'int'")
  end.

(** [l[i]] on a list. *)
Definition getitem_list {A} (l : list A) (i : nat) : result PyExc A :=
  match l !! i with
  | Some a => Ok a
  | None => Raise (PyStr.lit "list index out of range")
  end.

(** [d[k]] on a dict; [str(KeyError(k))] is the key in quotes (the keys
    used here are plain identifiers). *)
Definition getitem_dict (d : gmap pystr pystr) (k : pystr)
  : result PyExc pystr :=
  match d !! k with
  | Some v => Ok v
  | None => Raise (PyStr.lit "'" ++ k ++ PyStr.lit "'")
  end.

(** [a / b] on two [int]s: the correctly rounded quotient. *)
Definition truediv (a b : Z) : result PyExc pyfloat :=
  if b =? 0 then Raise (PyStr.lit "division by zero")
  else
    match PyFloat.quot a b with
    | S754_infinity _ =>
        Raise (PyStr.lit "integer division result too large for a float")
    | q => Ok q
    end.

Definition lift {E A} (r : result E A) : M E A := fun w => (r, w).

(* --------------------------------------------------------------------- *)
(*  Request and response models                                            *)
(* --------------------------------------------------------------------- *)

(** [class SummarizeRequest(BaseModel)], after validation. *)
Record SummarizeRequest := {
  text : pystr;
  max_length : option Z
}.

(** [class SummarizeResponse(BaseModel)]. *)
Record SummarizeResponse := {
  summary : pystr;
  original_length : Z;
  summary_length : Z;
  compression_ratio : pyfloat;
  processing_time : pyfloat;
  model_used : pystr;
  timestamp : pystr
}.

(** The dict returned by [health_check]. *)
Record HealthBody := {
  health_status : pystr;
  health_model_loaded : bool;
  health_timestamp : pystr
}.

(* --------------------------------------------------------------------- *)
(*  Request validation, responses and the process state                   *)
(* --------------------------------------------------------------------- *)

(** The [max_length] member of a JSON body: missing, [null] or a number. *)
Inductive JsonInt :=
| Absent
| Null
| IntValue (z : Z).

(** A JSON body with members of the right JSON types. *)
Record Body := {
  body_text : option pystr;
  body_max_length : JsonInt
}.

(** [text: str = Field(..., min_length = 50, max_length = 5000)]. *)
Definition validate_text (t : option pystr) : result pystr pystr :=
  match t with
  | None => Raise (PyStr.lit "text")
  | Some s =>
      if (50 <=? PyStr.len s) && (PyStr.len s <=? 5000) then Ok s
      else Raise (PyStr.lit "text")
  end.

(** [max_length: Optional[int] = Field(100, ge = 30, le = 300)]: the
    default is taken as it is, [null] is accepted as [None], a number is
    checked against the bounds. *)
Definition validate_max_length (j : JsonInt) : result pystr (option Z) :=
  match j with
  | Absent => Ok (Some 100)
  | Null => Ok None
  | IntValue z =>
      if (30 <=? z) && (z <=? 300) then Ok (Some z)
      else Raise (PyStr.lit "max_length")
  end.

(** Validation of a body against [SummarizeRequest]; the errors of all
    fields are collected. *)
Definition validate (b : Body) : result (list pystr) SummarizeRequest :=
  match validate_text (body_text b),
        validate_max_length (body_max_length b) with
  | Ok t, Ok m => Ok {| text := t; max_length := m |}
  | Raise e1, Ok _ => Raise [e1]
  | Ok _, Raise e2 => Raise [e2]
  | Raise e1, Raise e2 => Raise [e1; e2]
  end.

Inductive Request :=
| GET_root
| GET_health
| POST_summarize (b : Body).

Inductive ResponseBody :=
| RootBody (d : gmap pystr pystr)
| HealthOf (h : HealthBody)
| SummaryOf (r : SummarizeResponse).

Inductive Response :=
| Resp200 (body : ResponseBody)
| Resp422 (errors : list pystr)
| RespError (status : Z) (detail : pystr).

(** The server process: whether the startup hook has run, and the state. *)
Record Server := {
  started : bool;
  world : World
}.

Inductive Action :=
| Startup
| Call (r : Request).

(** The process as the module is imported: [summarizer = None]. *)
Definition boot (h : nat) : Server :=
  {| started := false;
     world := {| summarizer := None; hidden := h; ticks := O;
                 events := [] |} |}.

(** The engine lifecycle as read off the process state. *)
Inductive EngineState :=
| Loading
| Ready
| Failed.

Definition engine_state (s : Server) : EngineState :=
  match summarizer (world s) with
  | Some _ => Ready
  | None => if started s then Failed else Loading
  end.

Section WithEnv.

Variable env : Env.

Definition tick (w : World) : World :=
  {| summarizer := summarizer w; hidden := hidden w;
     ticks := S (ticks w); events := events w |}.

(** [time.time()]. *)
Definition time_now {E} : M E pyfloat :=
  fun w => (Ok (time_time env (ticks w)), tick w).

(** [datetime.now()]. *)
Definition now {E} : M E datetime :=
  fun w => (Ok (datetime_now env (ticks w)), tick w).

(* --------------------------------------------------------------------- *)
(*  Handlers                                                              *)
(* --------------------------------------------------------------------- *)

(** [startup_event]: loads the model once; on any exception the global
    is left as it was. *)
Definition startup_event : M HTTPException unit :=
  print (PyStr.lit "Начинаем загрузку модели...");;
  try_except
    (let device := if torch_cuda_is_available env then 0 else -1 in
     let device_name :=
       if device =? 0 then PyStr.lit "GPU" else PyStr.lit "CPU" in
     print (PyStr.lit "Используемое устройство: " ++ device_name);;
     p ← lift (transformers_pipeline env
                 (PyStr.lit "summarization")
                 (PyStr.lit "IlyaGusev/rut5_base_sum_gazeta")
                 device
                 (PyStr.lit "pt"));
     set_summarizer p;;
     print (PyStr.lit "Модель успешно загружена"))
    (fun e => print (PyStr.lit "Ошибка при загрузке модели: " ++ e)).

(** [root]. *)
Definition root : M HTTPException (gmap pystr pystr) :=
  mret (<[PyStr.lit "message" := PyStr.lit "Russian News Summarizer API"]>
        (<[PyStr.lit "version" := PyStr.lit "1.0.0"]>
         (<[PyStr.lit "docs" := PyStr.lit "/docs"]>
          (<[PyStr.lit "openapi" := PyStr.lit "/openapi.json"]> ∅)))).

(** [health_check]. *)
Definition health_check : M HTTPException HealthBody :=
  s ← get_summarizer;
  s' ← get_summarizer;
  d ← now;
  mret {| health_status :=
            if bool_decide (is_Some s) then PyStr.lit "healthy"
            else PyStr.lit "unhealthy";
          health_model_loaded := bool_decide (is_Some s');
          health_timestamp := isoformat d |}.

(** [summarize]. *)
Definition summarize (request : SummarizeRequest)
  : M HTTPException SummarizeResponse :=
  s ← get_summarizer;
  match s with
  | None =>
      raise {| status_code := 503;
               detail := PyStr.lit
                 "Модель не загружена. Сервис временно недоступен." |}
  | Some _ =>
      start_time ← time_now;
      try_except
        (callee ← get_summarizer;
         words ← lift (floordiv (max_length request) 3);
         result ← call callee (text request)
                    (Z.min 100 words) 20 false;
         first ← lift (getitem_list result 0);
         summary ← lift (getitem_dict first (PyStr.lit "summary_text"));
         end_time ← time_now;
         let processing_time := PyFloat.sub end_time start_time in
         let original_length := PyStr.len (text request) in
         let summary_length := PyStr.len summary in
         compression_ratio ←
           lift (truediv original_length (Z.max summary_length 1));
         d ← now;
         mret {| summary := summary;
                 original_length := original_length;
                 summary_length := summary_length;
                 compression_ratio := PyFloat.round compression_ratio 2;
                 processing_time := PyFloat.round processing_time 3;
                 model_used := PyStr.lit "rut5_base_sum_gazeta";
                 timestamp := strftime_Ymd_HMS d |})
        (fun e =>
           raise {| status_code := 500;
                    detail := PyStr.lit "Ошибка при обработке текста: "
                                ++ e |})
  end.

(* --------------------------------------------------------------------- *)
(*  The HTTP surface                                                      *)
(* --------------------------------------------------------------------- *)

(** What the framework does with a handler's outcome: a returned value
    is a 200 response, an [HTTPException] a response with its status
    code and detail. *)
Definition serve {A} (wrap : A -> ResponseBody) (h : M HTTPException A)
  : World -> Response * World :=
  fun w =>
    match h w with
    | (Ok a, w') => (Resp200 (wrap a), w')
    | (Raise e, w') => (RespError (status_code e) (detail e), w')
    end.

(** A request: the body of [POST /summarize] is validated against
    [SummarizeRequest] before the handler is entered; a body that fails
    is answered 422 and the handler is not called. *)
Definition handle (r : Request) : World -> Response * World :=
  match r with
  | GET_root => serve RootBody root
  | GET_health => serve HealthOf health_check
  | POST_summarize b =>
      match validate b with
      | Ok request => serve SummaryOf (summarize request)
      | Raise errs => fun w => (Resp422 errs, w)
      end
  end.

(* --------------------------------------------------------------------- *)
(*  The process                                                           *)
(* --------------------------------------------------------------------- *)

(** One step of the process: the startup hook runs once, before it has
    run; requests are answered at any time. *)
Inductive step : Server -> Action -> Server -> Prop :=
| step_startup s :
    started s = false ->
    step s Startup
         {| started := true; world := snd (startup_event (world s)) |}
| step_call s r :
    step s (Call r)
         {| started := started s; world := snd (handle r (world s)) |}.

Inductive steps : Server -> list Action -> Server -> Prop :=
| steps_nil s : steps s [] s
| steps_cons s a s' l s'' :
    step s a s' -> steps s' l s'' -> steps s (a :: l) s''.

Definition reachable (s : Server) : Prop :=
  exists h l, steps (boot h) l s.

End WithEnv.

(* ===================================================================== *)
(*  Properties                                                            *)
(* ===================================================================== *)

(** The generation ceiling computed from a character budget. *)
Definition generation_ceiling (m : Z) : Z := Z.min 100 (m / 3).

(** A pipeline is deterministic when, with sampling disabled, its answer
    does not depend on its hidden state. *)
Definition deterministic (p : Pipeline) : Prop :=
  forall h1 h2 t mx mn,
    fst (pipeline_call p h1 t mx mn false)
    = fst (pipeline_call p h2 t mx mn false).

(** The summary text of an outcome. *)
Definition summary_of (r : result HTTPException SummarizeResponse)
  : result HTTPException pystr :=
  match r with
  | Ok resp => Ok (summary resp)
  | Raise e => Raise e
  end.

(** The answers to a sequence of requests. *)
Fixpoint answers (env : Env) (rs : list Request) (w : World)
  : list Response :=
  match rs with
  | [] => []
  | r :: rs' =>
      fst (handle env r w) :: answers env rs' (snd (handle env r w))
  end.

(** Two states that differ at most in the trace of effects. *)
Definition same_store (w1 w2 : World) : Prop :=
  summarizer w1 = summarizer w2 /\ hidden w1 = hidden w2
  /\ ticks w1 = ticks w2.

Definition unavailable : HTTPException :=
  {| status_code := 503;
     detail := PyStr.lit "Модель не загружена. Сервис временно недоступен." |}.

Definition processing_error (cause : pystr) : HTTPException :=
  {| status_code := 500;
     detail := PyStr.lit "Ошибка при обработке текста: " ++ cause |}.

(** The state after [summarize] has taken one clock reading and invoked
    the model once. *)
Definition invoked (w : World) (h : nat) (t : pystr) (m : Z) : World :=
  {| summarizer := summarizer w; hidden := h; ticks := S (ticks w);
     events := events w ++ [EvInvoke t (generation_ceiling m) 20 false] |}.

(** The metrics of a response, as [summarize] computes them from the text,
    the summary and the two clock readings. *)
Definition metrics_of (t s : pystr) (t0 t1 : pyfloat)
  (resp : SummarizeResponse) : Prop :=
  summary resp = s
  /\ original_length resp = PyStr.len t
  /\ summary_length resp = PyStr.len s
  /\ compression_ratio resp
     = PyFloat.round (PyFloat.quot (PyStr.len t) (Z.max (PyStr.len s) 1)) 2
  /\ processing_time resp = PyFloat.round (PyFloat.sub t1 t0) 3.

(** The outcome of the load attempted by [startup_event]. *)
Definition load_outcome (env : Env) : result PyExc Pipeline :=
  transformers_pipeline env
    (PyStr.lit "summarization")
    (PyStr.lit "IlyaGusev/rut5_base_sum_gazeta")
    (if torch_cuda_is_available env then 0 else -1)
    (PyStr.lit "pt").

(** An invocation of the model within the bounds that validation and
    [summarize] enforce; a printed line is not constrained. *)
Definition bounded_invocation (e : Event) : Prop :=
  match e with
  | EvPrint _ => True
  | EvInvoke t mx mn ds =>
      50 <= PyStr.len t <= 5000 /\ 10 <= mx <= 100 /\ mn = 20 /\ ds = false
  end.

(** The number of invocations of the model in a trace. *)
Fixpoint invocations (l : list Event) : nat :=
  match l with
  | [] => O
  | EvInvoke _ _ _ _ :: r => S (invocations r)
  | EvPrint _ :: r => invocations r
  end.

(** The lines printed in a trace, in order. *)
Fixpoint printed (l : list Event) : list pystr :=
  match l with
  | [] => []
  | EvPrint line :: r => line :: printed r
  | EvInvoke _ _ _ _ :: r => printed r
  end.

(** The number of [POST /summarize] requests among the actions. *)
Fixpoint posts (l : list Action) : nat :=
  match l with
  | [] => O
  | Call (POST_summarize _) :: r => S (posts r)
  | _ :: r => posts r
  end.

(** What holds of the process at any time: before the startup hook has
    run, no model is loaded and nothing has happened; every invocation in
    the trace is bounded. *)
Definition process_invariant (s : Server) : Prop :=
  (started s = false ->
   summarizer (world s) = None /\ events (world s) = [])
  /\ Forall bounded_invocation (events (world s)).

(** The three lines that [startup_event] prints, given the last one. *)
Definition startup_lines (env : Env) (last : pystr) : list pystr :=
  [PyStr.lit "Начинаем загрузку модели...";
   PyStr.lit "Используемое устройство: "
     ++ (if torch_cuda_is_available env
         then PyStr.lit "GPU" else PyStr.lit "CPU");
   last].

(** What the console holds: nothing before the startup hook has run, and
    afterwards the three startup lines, the last one telling the outcome of
    the load. *)
Definition console_invariant (env : Env) (s : Server) : Prop :=
  (started s = false ->
   summarizer (world s) = None /\ events (world s) = [])
  /\ (started s = true ->
      exists last,
        printed (events (world s)) = startup_lines env last
        /\ match load_outcome env with
           | Ok p =>
               summarizer (world s) = Some p
               /\ last = PyStr.lit "Модель успешно загружена"
           | Raise e =>
               summarizer (world s) = None
               /\ last = PyStr.lit "Ошибка при загрузке модели: " ++ e
           end).

(* --------------------------------------------------------------------- *)
(*  Concrete instances                                                    *)
(* --------------------------------------------------------------------- *)

Module Sample.

(** A model that answers with the first [max_length] characters of the
    text; when sampling, the answer also depends on the hidden state. *)
Definition truncating : Pipeline :=
  {| pipeline_call := fun h t mx mn ds =>
       (Ok [ {[ PyStr.lit "summary_text" :=
                  take (Z.to_nat mx) t
                    ++ (if ds then PyStr.digits 3 (Z.of_nat h) else []) ]} ],
        S h) |}.

(** A model that repeats the text twice. *)
Definition doubling : Pipeline :=
  {| pipeline_call := fun h t mx mn ds =>
       (Ok [ {[ PyStr.lit "summary_text" := t ++ t ]} ], S h) |}.

(** A model that answers with the empty string. *)
Definition silent : Pipeline :=
  {| pipeline_call := fun h t mx mn ds =>
       (Ok [ {[ PyStr.lit "summary_text" := [] ]} ], S h) |}.

(** A model that fails on every call. *)
Definition broken : Pipeline :=
  {| pipeline_call := fun h t mx mn ds =>
       (Raise (PyStr.lit "CUDA out of memory"), h) |}.

Definition clock (n : nat) : pyfloat :=
  PyFloat.quot (6800000001 + 6 * Z.of_nat n) 4.

Definition calendar (n : nat) : datetime :=
  {| year := 2024; month := 1; day := 15;
     hour := 12; minute := 30; second := 45 + Z.of_nat n;
     microsecond := 1234 |}.

(** An environment where the model loads. *)
Definition env : Env :=
  {| time_time := clock;
     datetime_now := calendar;
     torch_cuda_is_available := false;
     transformers_pipeline := fun _ _ _ _ => Ok truncating |}.

(** An environment where loading the model fails. *)
Definition env_offline : Env :=
  {| time_time := clock;
     datetime_now := calendar;
     torch_cuda_is_available := false;
     transformers_pipeline := fun _ _ _ _ =>
       Raise (PyStr.lit "Connection error") |}.

Definition loaded (p : Pipeline) : World :=
  {| summarizer := Some p; hidden := 7%nat; ticks := O; events := [] |}.

Definition unloaded : World := world (boot 7).

(** A process whose startup hook has loaded [p]. *)
Definition serving (p : Pipeline) : Server :=
  {| started := true; world := loaded p |}.

(** The example text of the request model, 62 characters. *)
Definition news : pystr :=
  PyStr.lit "Россия запустила новую ракету в космос. Это важное достижение.".

(** A text of 60 characters. *)
Definition news60 : pystr :=
  PyStr.lit "Россия запустила новую ракету в космос. Это важное известие.".

Definition body (t : pystr) (j : JsonInt) : Body :=
  {| body_text := Some t; body_max_length := j |}.

Definition request (t : pystr) (m : Z) : SummarizeRequest :=
  {| text := t; max_length := Some m |}.

(** The process after the startup hook has run in environment [e]. *)
Definition started_up (e : Env) : Server :=
  {| started := true; world := snd (startup_event e (world (boot 7))) |}.

(** The process after startup and one health check. *)
Definition after_health (e : Env) : Server :=
  {| started := started (started_up e);
     world := snd (handle e GET_health (world (started_up e))) |}.

(** The process after a request that the broken model failed on. *)
Definition after_failure : Server :=
  {| started := started (serving broken);
     world := snd (handle env (POST_summarize (body news (IntValue 100)))
                     (world (serving broken))) |}.

End Sample.

(* --------------------------------------------------------------------- *)
(*  Further instances                                                     *)
(* --------------------------------------------------------------------- *)

Module Cases.

(** A model whose result is the empty list. *)
Definition empty_result : Pipeline :=
  {| pipeline_call := fun h t mx mn ds => (Ok [], S h) |}.

(** A model whose result names the summary ["text"]. *)
Definition unlabelled : Pipeline :=
  {| pipeline_call := fun h t mx mn ds =>
       (Ok [ {[ PyStr.lit "text" := take (Z.to_nat mx) t ]} ], S h) |}.

(** A model that returns two candidates, each with a score. *)
Definition two_candidates : Pipeline :=
  {| pipeline_call := fun h t mx mn ds =>
       (Ok [ <[ PyStr.lit "score" := PyStr.lit "0.9" ]>
               {[ PyStr.lit "summary_text" := take (Z.to_nat mx) t ]};
             {[ PyStr.lit "summary_text" := t ]} ],
        S h) |}.

End Cases.

(* --------------------------------------------------------------------- *)
(*  The OpenAPI schema of the application                                  *)
(* --------------------------------------------------------------------- *)

(** JSON-like Python values: [None], [bool], [int], [float], [str], [list]
    and [dict] with string keys. *)
#[warnings="-register-all"]
Inductive Json :=
| JNull
| JBool (b : bool)
| JInt (z : Z)
| JFloat (f : pyfloat)
| JStr (s : pystr)
| JArr (l : list Json)
| JObj (m : gmap pystr Json).

(** [type(v).__name__]. *)
Definition type_name (v : Json) : pystr :=
  match v with
  | JNull => PyStr.lit "NoneType"
  | JBool _ => PyStr.lit "bool"
  | JInt _ => PyStr.lit "int"
  | JFloat _ => PyStr.lit "float"
  | JStr _ => PyStr.lit "str"
  | JArr _ => PyStr.lit "list"
  | JObj _ => PyStr.lit "dict"
  end.

(** Truth value of a dict: it is not empty. *)
Definition dict_truthy (d : gmap pystr Json) : bool :=
  match map_to_list d with
  | [] => false
  | _ :: _ => true
  end.

(** [v[k] = x] for a string key [k]: a dict is updated; a list rejects the
    key; the other values support no item assignment. *)
Definition setitem (v : Json) (k : pystr) (x : Json) : result PyExc Json :=
  match v with
  | JObj m => Ok (JObj (<[k := x]> m))
  | JArr _ =>
      Raise (PyStr.lit "list indices must be integers or slices, not str")
  | _ =>
      Raise (PyStr.lit "'" ++ type_name v
               ++ PyStr.lit "' object does not support item assignment")
  end.

(** [d[k1][k2] = x] on a dict [d]: the inner value is updated in place, so
    [d] sees the update. *)
Definition setitem2 (d : gmap pystr Json) (k1 k2 : pystr) (x : Json)
  : result PyExc (gmap pystr Json) :=
  match d !! k1 with
  | None => Raise (PyStr.lit "'" ++ k1 ++ PyStr.lit "'")
  | Some inner =>
      match setitem inner k2 x with
      | Ok inner' => Ok (<[k1 := inner']> d)
      | Raise e => Raise e
      end
  end.

(** The part of the [FastAPI] object that [custom_openapi] uses: the
    registered routes, the cached schema, and the number of times the
    schema generator has been called. *)
Record App := {
  routes : list pystr;
  openapi_schema : option (gmap pystr Json);
  generated : nat
}.

(** The application as the module creates it. *)
Definition app_title : pystr := PyStr.lit "Russian News Summarizer API".
Definition app_version : pystr := PyStr.lit "1.0.0".
Definition app_description : pystr :=
  PyStr.lit "API для автоматической суммаризации русскоязычных новостей".

Definition contact : Json :=
  JObj (<[PyStr.lit "name" := JStr (PyStr.lit "Поддержка API")]>
        (<[PyStr.lit "email" := JStr (PyStr.lit "support@example.com")]>
         (<[PyStr.lit "url" :=
              JStr (PyStr.lit
                "https://github.com/ваш-username/news-summarizer")]> ∅))).

Definition license : Json :=
  JObj (<[PyStr.lit "name" := JStr (PyStr.lit "MIT License")]>
        (<[PyStr.lit "url" :=
             JStr (PyStr.lit "https://opensource.org/licenses/MIT")]> ∅)).

Section OpenAPI.

(** [fastapi.openapi.utils.get_openapi(title, version, description,
    routes)]: builds the base schema, or raises. *)
Variable get_openapi :
  pystr -> pystr -> pystr -> list pystr -> result PyExc (gmap pystr Json).

(** [custom_openapi]. *)
Definition custom_openapi (app : App)
  : result PyExc (gmap pystr Json) * App :=
  let cached :=
    match openapi_schema app with
    | Some d => if dict_truthy d then Some d else None
    | None => None
    end in
  match cached with
  | Some d => (Ok d, app)
  | None =>
      let app1 := {| routes := routes app;
                     openapi_schema := openapi_schema app;
                     generated := S (generated app) |} in
      match get_openapi app_title app_version app_description (routes app)
      with
      | Raise e => (Raise e, app1)
      | Ok schema0 =>
          match setitem2 schema0 (PyStr.lit "info") (PyStr.lit "contact")
                  contact with
          | Raise e => (Raise e, app1)
          | Ok schema1 =>
              match setitem2 schema1 (PyStr.lit "info")
                      (PyStr.lit "license") license with
              | Raise e => (Raise e, app1)
              | Ok schema2 =>
                  (Ok schema2,
                   {| routes := routes app;
                      openapi_schema := Some schema2;
                      generated := S (generated app) |})
              end
          end
      end
  end.

End OpenAPI.

Module Docs.

(** The ["info"] dict a generator builds from its arguments; it carries a
    contact of its own. *)
Definition info (title version description : pystr) : gmap pystr Json :=
  <[PyStr.lit "title" := JStr title]>
  (<[PyStr.lit "version" := JStr version]>
   (<[PyStr.lit "description" := JStr description]>
    (<[PyStr.lit "contact" := JStr (PyStr.lit "nobody")]> ∅))).

(** A generator: the schema lists the routes under ["paths"]. *)
Definition generator (title version description : pystr)
    (rs : list pystr) : result PyExc (gmap pystr Json) :=
  Ok (<[PyStr.lit "openapi" := JStr (PyStr.lit "3.1.0")]>
      (<[PyStr.lit "info" := JObj (info title version description)]>
       (<[PyStr.lit "paths" := JArr (JStr <$> rs)]> ∅))).

(** A generator whose schema has no ["info"] entry. *)
Definition bare (title version description : pystr)
    (rs : list pystr) : result PyExc (gmap pystr Json) :=
  Ok (<[PyStr.lit "openapi" := JStr (PyStr.lit "3.1.0")]> ∅).

(** A generator that raises. *)
Definition failing (title version description : pystr)
    (rs : list pystr) : result PyExc (gmap pystr Json) :=
  Raise (PyStr.lit "Invalid args for response field").

(** The application before the first request for the schema. *)
Definition fresh : App :=
  {| routes := [PyStr.lit "/"; PyStr.lit "/health"; PyStr.lit "/summarize"];
     openapi_schema := None;
     generated := O |}.

Definition base : gmap pystr Json :=
  <[PyStr.lit "openapi" := JStr (PyStr.lit "3.1.0")]>
  (<[PyStr.lit "info" :=
       JObj (info app_title app_version app_description)]>
   (<[PyStr.lit "paths" := JArr (JStr <$> routes fresh)]> ∅)).

Definition schema : gmap pystr Json :=
  <[PyStr.lit "info" :=
      JObj (<[PyStr.lit "license" := license]>
            (<[PyStr.lit "contact" := contact]>
               (info app_title app_version app_description)))]>
    (<[PyStr.lit "info" :=
         JObj (<[PyStr.lit "contact" := contact]>
                 (info app_title app_version app_description))]>
       base).

Definition served : App :=
  {| routes := routes fresh; openapi_schema := Some schema;
     generated := S (generated fresh) |}.

End Docs.

(* --------------------------------------------------------------------- *)
(*  The Streamlit client (src/streamlit_app.py)                           *)
(* --------------------------------------------------------------------- *)

Module Client.

(** The double-quote character. *)
Definition quote : pystr := [34%N].

(** [str(n)] for an [int]. *)
Definition str_int (z : Z) : pystr :=
  (if z <? 0 then PyStr.lit "-" else [])
    ++ PyStr.lit (pretty (Z.to_N (Z.abs z))).

(** [str(b)] for a [bool]. *)
Definition str_bool (b : bool) : pystr :=
  if b then PyStr.lit "True" else PyStr.lit "False".

(** [format(x, ".<nd>f")]: the exact binary value is rounded half-even to
    [nd] decimals; the sign is printed also when the digits are all
    zero. *)
Definition format_f (x : pyfloat) (nd : nat) : pystr :=
  let sign (s : bool) : pystr := if s then PyStr.lit "-" else [] in
  let fraction (f : Z) : pystr :=
    match nd with
    | O => []
    | S _ => PyStr.lit "." ++ PyStr.digits nd f
    end in
  match x with
  | S754_nan => PyStr.lit "nan"
  | S754_infinity s => sign s ++ PyStr.lit "inf"
  | S754_zero s => sign s ++ PyStr.lit "0" ++ fraction 0
  | S754_finite s m e =>
      let p10 := 10 ^ Z.of_nat nd in
      let r :=
        if 0 <=? e then Z.pos m * 2 ^ e * p10
        else PyFloat.round_half_even (Z.pos m * p10) (2 ^ (- e)) in
      sign s ++ str_int (r / p10) ++ fraction (r mod p10)
  end.

(** The message of the [ZeroDivisionError] of a float division (CPython
    up to 3.13). *)
Definition float_division_by_zero : pystr :=
  PyStr.lit "float division by zero".

(** [a / x] for an [int] [a] that a double holds exactly and a [float]
    [x]. *)
Definition int_truediv_float (a : Z) (x : pyfloat) : result PyExc pyfloat :=
  match x with
  | S754_zero _ => Raise float_division_by_zero
  | _ => Ok (SFdiv PyFloat.prec PyFloat.emax (PyFloat.of_int a) x)
  end.

(** [a - x] for an [int] [a] that a double holds exactly and a [float]
    [x]. *)
Definition int_sub_float (a : Z) (x : pyfloat) : pyfloat :=
  PyFloat.sub (PyFloat.of_int a) x.

(** [s.split(sep)] for a one-character separator: empty pieces are
    kept, and there is always at least one piece. *)
Fixpoint split_on (sep : N) (s : pystr) : list pystr :=
  match s with
  | [] => [[]]
  | c :: r =>
      if (c =? sep)%N then [] :: split_on sep r
      else
        match split_on sep r with
        | piece :: pieces => (c :: piece) :: pieces
        | [] => [[c]]
        end
  end.

(** [l[-1]] on a list of strings that is not empty. *)
Definition last_piece (l : list pystr) : pystr := List.last l [].

(** [c.isspace()]. *)
Definition isspace (c : N) : bool :=
  ((9 <=? c) && (c <=? 13) || (28 <=? c) && (c <=? 32)
   || (c =? 133) || (c =? 160) || (c =? 5760)
   || (8192 <=? c) && (c <=? 8202)
   || (c =? 8232) || (c =? 8233) || (c =? 8239) || (c =? 8287)
   || (c =? 12288))%N.

(** [len(s.split())]: the number of maximal runs of characters that are
    not white space; [inside] tells whether the previous character was in
    such a run. *)
Fixpoint count_words (inside : bool) (s : pystr) : nat :=
  match s with
  | [] => O
  | c :: r =>
      if isspace c then count_words false r
      else if inside then count_words true r
      else S (count_words true r)
  end.

(** [s.count(c)] for a one-character [c]. *)
Definition count_char (c : N) (s : pystr) : nat :=
  length (filter (fun x => x = c) s).

(** Where an element is drawn: the stack of [with] blocks around it. *)
Inductive Container :=
| Sidebar
| Column (count index : nat)
| Expander (label : pystr)
| Spinner (label : pystr).

Inductive MetricValue :=
| MInt (z : Z)
| MStr (s : pystr).

(** The Streamlit calls of the script.  Of a widget the label and the
    arguments that bound its value are kept; the help texts, sizes and
    placeholders are left out. *)
Inductive Element :=
| Markdown (body : pystr)
| Header (s : pystr)
| Subheader (s : pystr)
| TextInput (label value : pystr)
| Slider (label : pystr) (min_value max_value value step : Z)
| Button (label : pystr)
| TextArea (label : pystr)
| Metric (label : pystr) (value : MetricValue)
| Warning (s : pystr)
| Error (s : pystr)
| Success (s : pystr)
| Info (s : pystr)
| Write (s : pystr)
| Code (s : pystr)
| JsonView (r : SummarizeResponse).

(** What a run of the script does, in order: it draws elements and sends
    HTTP requests. *)
Inductive Effect :=
| Show (path : list Container) (e : Element)
| HttpGet (url : pystr) (timeout : Z)
| HttpPost (url : pystr) (payload : Body) (timeout : Z).

(** The effects of a [with c:] block. *)
Definition within (c : Container) (l : list Effect) : list Effect :=
  (fun eff =>
     match eff with
     | Show path e => Show (c :: path) e
     | _ => eff
     end) <$> l.

(** An exception raised by [requests]: whether it is an instance of
    [requests.exceptions.ConnectionError], of
    [requests.exceptions.Timeout], and its [str]. *)
Record RequestError := {
  is_connection_error : bool;
  is_timeout : bool;
  error_str : pystr
}.

(** A [requests.Response]: the status code, the outcome of [.json()] read
    as a value of type [B], and [.text]. *)
Record HttpResponse (B : Type) := {
  http_status : Z;
  http_json : result PyExc B;
  http_text : pystr
}.
Arguments http_status {B} _.
Arguments http_json {B} _.
Arguments http_text {B} _.

(** The body of [GET /health] as the client reads it: only the key
    ["model_loaded"], which may be missing. *)
Record HealthJson := {
  model_loaded : option bool
}.

(** The network as the client sees it. *)
Record Net := {
  requests_get :
    pystr -> Z -> result RequestError (HttpResponse HealthJson);
  requests_post :
    pystr -> Body -> Z -> result RequestError (HttpResponse SummarizeResponse)
}.

(** What the widgets return in one run of the script. *)
Record Inputs := {
  api_url : pystr;
  slider_value : Z;
  check_clicked : bool;
  text_input : pystr;
  summarize_clicked : bool
}.

(** [check_connection]. *)
Definition check_connection (net : Net) (api_url : pystr) : list Effect :=
  HttpGet (api_url ++ PyStr.lit "/health") 5
  :: match requests_get net (api_url ++ PyStr.lit "/health") 5 with
     | Ok response =>
         if http_status response =? 200 then
           match http_json response with
           | Ok data =>
               [Show [] (Success (PyStr.lit "API доступен"));
                Show [] (Info (PyStr.lit "Модель загружена: "
                                 ++ str_bool (default false
                                                (model_loaded data))))]
           | Raise e =>
               [Show [] (Error (PyStr.lit "Ошибка подключения: "
                                  ++ take 100 e))]
           end
         else
           [Show [] (Error (PyStr.lit "API недоступен. Код ошибки: "
                              ++ str_int (http_status response)))]
     | Raise e =>
         if is_connection_error e then
           [Show [] (Error (PyStr.lit
              "Не удалось подключиться к API. Проверьте URL и убедитесь, что сервер запущен."))]
         else
           [Show [] (Error (PyStr.lit "Ошибка подключения: "
                              ++ take 100 (error_str e)))]
     end.

(** The part of [perform_summarization] that draws a 200 answer. *)
Definition show_result (result : SummarizeResponse) : list Effect :=
  [Show [] (Markdown (PyStr.lit "<div class=" ++ quote
                         ++ PyStr.lit "result-box" ++ quote
                         ++ PyStr.lit ">"));
   Show [] (Subheader (PyStr.lit "Результат суммаризации"));
   Show [] (Write (summary result));
   Show [] (Markdown (PyStr.lit "</div>"));
   Show [Column 4 0]
     (Metric (PyStr.lit "Коэффициент сжатия")
        (MStr (format_f (compression_ratio result) 1 ++ PyStr.lit "x")));
   Show [Column 4 1]
     (Metric (PyStr.lit "Время обработки")
        (MStr (format_f (processing_time result) 2 ++ PyStr.lit "с")))]
  ++ match int_truediv_float 100 (compression_ratio result) with
     | Raise e =>
         [Show [] (Error (PyStr.lit "Произошла ошибка: " ++ take 100 e))]
     | Ok q =>
         let compression_percent := int_sub_float 100 q in
         [Show [Column 4 2]
            (Metric (PyStr.lit "Сокращение текста")
               (MStr (format_f compression_percent 0 ++ PyStr.lit "%")));
          Show [Column 4 3]
            (Metric (PyStr.lit "Использованная модель")
               (MStr (take 10 (last_piece (split_on 47 (model_used result))))));
          Show [Expander (PyStr.lit "Детальная информация")]
            (JsonView result)]
     end.

(** [perform_summarization]. *)
Definition perform_summarization (net : Net) (api_url text : pystr)
    (max_length : Z) : list Effect :=
  let payload :=
    {| body_text := Some text; body_max_length := IntValue max_length |} in
  HttpPost (api_url ++ PyStr.lit "/summarize") payload 30
  :: within (Spinner (PyStr.lit "Выполняется суммаризация текста..."))
       match requests_post net (api_url ++ PyStr.lit "/summarize")
               payload 30 with
       | Ok response =>
           if http_status response =? 200 then
             match http_json response with
             | Ok result => show_result result
             | Raise e =>
                 [Show [] (Error (PyStr.lit "Произошла ошибка: "
                                    ++ take 100 e))]
             end
           else if http_status response =? 503 then
             [Show [] (Error (PyStr.lit
                "Модель не загружена. Дождитесь завершения загрузки или проверьте сервер."))]
           else
             [Show [] (Error (PyStr.lit "Ошибка API: "
                                ++ str_int (http_status response)));
              Show [] (Code (take 200 (http_text response)))]
       | Raise e =>
           if is_timeout e then
             [Show [] (Error (PyStr.lit
                "Таймаут запроса. Возможно, модель еще загружается или текст слишком большой."))]
           else
             [Show [] (Error (PyStr.lit "Произошла ошибка: "
                                ++ take 100 (error_str e)))]
       end.

(** [main]. *)
Definition main (net : Net) (i : Inputs) : list Effect :=
  [Show [] (Markdown (PyStr.lit "<h1 class = " ++ quote
                        ++ PyStr.lit "main-header" ++ quote
                        ++ PyStr.lit "> Russian News Summarizer</h1>"))]
  ++ within Sidebar
       ([Show [] (Header (PyStr.lit "Настройки"));
         Show [] (TextInput (PyStr.lit "URL API сервера")
                    (PyStr.lit "http://localhost:8000"));
         Show [] (Slider (PyStr.lit "Длина суммаризации (символов)")
                    50 300 120 10);
         Show [] (Button (PyStr.lit "Проверить подключение"))]
        ++ (if check_clicked i then check_connection net (api_url i)
            else []))
  ++ [Show [] (Subheader (PyStr.lit "Введите текст для суммаризации"));
      Show [] (TextArea (PyStr.lit "Текст новости"))]
  ++ (match text_input i with
      | [] => []
      | _ :: _ =>
          [Show [Column 3 0]
             (Metric (PyStr.lit "Символов")
                (MInt (PyStr.len (text_input i))));
           Show [Column 3 1]
             (Metric (PyStr.lit "Слов")
                (MInt (Z.of_nat (count_words false (text_input i)))));
           Show [Column 3 2]
             (Metric (PyStr.lit "Предложений")
                (MInt (Z.of_nat (count_char 46 (text_input i))
                       + Z.of_nat (count_char 33 (text_input i))
                       + Z.of_nat (count_char 63 (text_input i)))))]
      end)
  ++ [Show [] (Button (PyStr.lit "Суммаризировать"))]
  ++ (if summarize_clicked i then
        match text_input i with
        | [] =>
            [Show [] (Warning (PyStr.lit
               "Пожалуйста, введите текст длиной не менее 50 символов"))]
        | _ :: _ =>
            if PyStr.len (text_input i) <? 50 then
              [Show [] (Warning (PyStr.lit
                 "Пожалуйста, введите текст длиной не менее 50 символов"))]
            else
              perform_summarization net (api_url i) (text_input i)
                (slider_value i)
        end
      else []).

(** The positions of the slider: from 50 to 300 in steps of 10. *)
Definition slider_position (v : Z) : Prop :=
  50 <= v <= 300 /\ (v - 50) mod 10 = 0.

(** The answer of the server as [requests] presents it; [render] is the
    text of the body. *)
Definition status_of (r : Response) : Z :=
  match r with
  | Resp200 _ => 200
  | Resp422 _ => 422
  | RespError st _ => st
  end.

Definition health_response (render : Response -> pystr) (r : Response)
  : HttpResponse HealthJson :=
  {| http_status := status_of r;
     http_json :=
       match r with
       | Resp200 (HealthOf h) =>
           Ok {| model_loaded := Some (health_model_loaded h) |}
       | _ => Raise (PyStr.lit "not a health body")
       end;
     http_text := render r |}.

Definition summary_response (render : Response -> pystr) (r : Response)
  : HttpResponse SummarizeResponse :=
  {| http_status := status_of r;
     http_json :=
       match r with
       | Resp200 (SummaryOf s) => Ok s
       | _ => Raise (PyStr.lit "not a summary body")
       end;
     http_text := render r |}.

(** The network when the URL reaches a server in state [w]. *)
Definition served_by (env : Env) (render : Response -> pystr) (w : World)
  : Net :=
  {| requests_get := fun url timeout =>
       Ok (health_response render (fst (handle env GET_health w)));
     requests_post := fun url payload timeout =>
       Ok (summary_response render
             (fst (handle env (POST_summarize payload) w))) |}.

(** The HTTP requests among the effects of a run, in order. *)
Definition sent (l : list Effect) : list Effect :=
  List.filter
    (fun eff => match eff with Show _ _ => false | _ => true end) l.

(** What [perform_summarization] draws of a 200 answer before it computes
    the reduction in percent. *)
Definition result_head (result : SummarizeResponse) : list Effect :=
  [Show [] (Markdown (PyStr.lit "<div class=" ++ quote
                        ++ PyStr.lit "result-box" ++ quote
                        ++ PyStr.lit ">"));
   Show [] (Subheader (PyStr.lit "Результат суммаризации"));
   Show [] (Write (summary result));
   Show [] (Markdown (PyStr.lit "</div>"));
   Show [Column 4 0]
     (Metric (PyStr.lit "Коэффициент сжатия")
        (MStr (format_f (compression_ratio result) 1 ++ PyStr.lit "x")));
   Show [Column 4 1]
     (Metric (PyStr.lit "Время обработки")
        (MStr (format_f (processing_time result) 2 ++ PyStr.lit "с")))].

(** The number of sentence marks that [main] counts. *)
Definition count_marks (s : pystr) : nat :=
  count_char 46 s + count_char 33 s + count_char 63 s.

(** The payload that [perform_summarization] builds. *)
Definition payload_of (text : pystr) (max_length : Z) : Body :=
  {| body_text := Some text; body_max_length := IntValue max_length |}.

End Client.

Module Demo.

(** A model that repeats the text 201 times. *)
Definition verbose : Pipeline :=
  {| pipeline_call := fun h t mx mn ds =>
       (Ok [ {[ PyStr.lit "summary_text" := concat (replicate 201 t) ]} ],
        S h) |}.

(** The text of an error body. *)
Definition render (r : Response) : pystr :=
  match r with
  | Resp200 _ => PyStr.lit "{}"
  | Resp422 errs => PyStr.lit "{detail: [" ++ concat errs ++ PyStr.lit "]}"
  | RespError _ d => PyStr.lit "{detail: " ++ d ++ PyStr.lit "}"
  end.

Definition url : pystr := PyStr.lit "http://localhost:8000".

(** A text of 50 characters. *)
Definition news50 : pystr :=
  PyStr.lit "Россия запустила новую ракету в космос. Это успех.".

(** A text of 5001 characters. *)
Definition long_text : pystr := replicate (Z.to_nat 5001) 1072%N.

Definition spinner : Client.Container :=
  Client.Spinner (PyStr.lit "Выполняется суммаризация текста...").

Definition blank : SummarizeResponse :=
  {| summary := []; original_length := 0; summary_length := 0;
     compression_ratio := S754_zero false;
     processing_time := S754_zero false;
     model_used := []; timestamp := [] |}.

(** The response of the server to the 50-character text when the verbose
    model is loaded. *)
Definition verbose_result : SummarizeResponse :=
  match fst (summarize Sample.env (Sample.request news50 120)
               (Sample.loaded verbose)) with
  | Ok r => r
  | Raise _ => blank
  end.

(** An environment whose clock is set back by 1.5 s between two
    readings. *)
Definition backwards : Env :=
  {| time_time := fun n => PyFloat.quot (6800000001 - 6 * Z.of_nat n) 4;
     datetime_now := Sample.calendar;
     torch_cuda_is_available := false;
     transformers_pipeline := fun _ _ _ _ => Ok Sample.truncating |}.

End Demo.

(* --------------------------------------------------------------------- *)
(*  Ranges of floating-point results                                      *)
(* --------------------------------------------------------------------- *)

(** [x] is a zero or a finite double of sign [sx] and of magnitude below
    [2 ^ B]. *)
Definition rounded_to (sx : bool) (B : Z) (x : spec_float) : Prop :=
  match x with
  | S754_zero s => s = sx
  | S754_finite s m e => s = sx /\ e <= 971 /\ e < B /\ Z.pos m < 2 ^ (B - e)
  | _ => False
  end.

(** [x] is neither NaN nor infinite nor negative (nor the negative
    zero). *)
Definition finite_nonneg (x : pyfloat) : bool :=
  match x with
  | S754_zero false | S754_finite false _ _ => true
  | _ => false
  end.

(** A reading of [time.time()]: a canonical double that is [+0.0] or
    positive, and below [2 ^ 1000]. *)
Definition clock_reading (t : pyfloat) : Prop :=
  valid_binary PyFloat.prec PyFloat.emax t = true /\ rounded_to false 1000 t.

#[global] Instance spec_float_eq_dec : EqDecision spec_float.
Proof. solve_decision. Defined.

(* --------------------------------------------------------------------- *)
(*  Proof automation                                                      *)
(* --------------------------------------------------------------------- *)

(** Runs the monadic operations of a handler, leaving the calls of the
    model and the Python primitives in place. *)
Ltac run_monad :=
  cbv beta iota delta
    [mbind mret M_bind M_ret try_except lift raise get_summarizer
     set_summarizer print call invoke time_now now tick
     fst snd summarizer hidden ticks events].

(** Closes goals about the components of a state. *)
Ltac store_done :=
  cbv beta iota delta [same_store fst snd summarizer hidden ticks events];
  auto.

(* ===================================================================== *)
(*  Floating-point facts                                                  *)
(* ===================================================================== *)

Lemma digits2_pos_size p : digits2_pos p = Pos.size p.
Proof. induction p; simpl; congruence. Qed.

Lemma Zdigits2_bound m k : 0 <= m < 2 ^ k -> 0 <= k -> 0 <= Zdigits2 m <= k.
Proof.
  intros [H0 Hk] Hk0. destruct m as [|p|p]; simpl; [lia| |lia].
  rewrite digits2_pos_size. split; [lia|].
  destruct (Z.le_gt_cases (Z.pos (Pos.size p)) k) as [|Hgt]; [assumption|].
  exfalso.
  pose proof (Pos.size_le p) as Hle.
  assert (H2 : 2 ^ Z.pos (Pos.size p) <= 2 * Z.pos p).
  { rewrite <- Pos2Z.inj_pow. change (2 * Z.pos p) with (Z.pos p~0). lia. }
  assert (H3 : 2 ^ (k + 1) <= 2 ^ Z.pos (Pos.size p))
    by (apply Z.pow_le_mono_r; lia).
  rewrite Z.pow_add_r in H3 by lia. lia.
Qed.

Lemma shr_1_bound mrs :
  0 <= shr_m mrs -> 0 <= shr_m (shr_1 mrs) /\ 2 * shr_m (shr_1 mrs) <= shr_m mrs.
Proof.
  destruct mrs as [m r s]. simpl. intros Hm.
  destruct m as [|[p|p|]|p]; simpl; lia.
Qed.

Lemma iter_shr_1_bound p : forall mrs,
  0 <= shr_m mrs ->
  0 <= shr_m (SpecFloat.iter_pos shr_1 p mrs)
  /\ 2 ^ Z.pos p * shr_m (SpecFloat.iter_pos shr_1 p mrs) <= shr_m mrs.
Proof.
  induction p as [p IH|p IH|]; intros mrs Hm; simpl SpecFloat.iter_pos.
  - destruct (shr_1_bound mrs Hm) as [H1 H2].
    destruct (IH _ H1) as [H3 H4]. destruct (IH _ H3) as [H5 H6].
    split; [assumption|].
    replace (Z.pos p~1) with (Z.pos p + Z.pos p + 1) by lia.
    rewrite !Z.pow_add_r by lia. change (2 ^ 1) with 2.
    assert (0 < 2 ^ Z.pos p) by (apply Z.pow_pos_nonneg; lia).
    nia.
  - destruct (IH _ Hm) as [H3 H4]. destruct (IH _ H3) as [H5 H6].
    split; [assumption|].
    replace (Z.pos p~0) with (Z.pos p + Z.pos p) by lia.
    rewrite !Z.pow_add_r by lia.
    assert (0 < 2 ^ Z.pos p) by (apply Z.pow_pos_nonneg; lia).
    nia.
  - destruct (shr_1_bound mrs Hm). change (2 ^ 1) with 2. lia.
Qed.

Lemma round_nearest_even_bound m l :
  0 <= m -> 0 <= round_nearest_even m l <= m + 1.
Proof.
  intros Hm. unfold round_nearest_even.
  destruct l as [|[| |]]; try destruct (Z.even m); lia.
Qed.

Lemma fexp_le e : e <= 1024 -> fexp 53 1024 e <= 971.
Proof. unfold fexp, emin. lia. Qed.

(** Rounding a value below [2 ^ (k + e)] never overflows. *)
Lemma binary_round_aux_in_range sx mx ex lx k :
  0 <= mx < 2 ^ k -> 0 <= k -> ex <= 0 -> k + ex <= 1000 ->
  forall s, binary_round_aux 53 1024 sx mx ex lx <> S754_infinity s.
Proof.
  intros [Hm0 Hmk] Hk Hex Hke s.
  unfold binary_round_aux.
  destruct (shr_fexp 53 1024 mx ex lx) as [mrs1 e1] eqn:H1.
  set (m1 := round_nearest_even (shr_m mrs1) (loc_of_shr_record mrs1)).
  destruct (shr_fexp 53 1024 m1 e1 loc_Exact) as [mrs2 e2] eqn:H2.
  assert (Hd : 0 <= Zdigits2 mx <= k) by (apply Zdigits2_bound; lia).
  (* first shift *)
  assert (Hs1 : ex <= e1 <= 947 /\ 0 <= shr_m mrs1
                /\ 2 ^ (e1 - ex) * shr_m mrs1 <= mx).
  { unfold shr_fexp, shr in H1.
    assert (Hf : fexp 53 1024 (Zdigits2 mx + ex) <= 947)
      by (unfold fexp, emin; lia).
    destruct (fexp 53 1024 (Zdigits2 mx + ex) - ex) as [|p|p] eqn:Hn;
      inversion H1; subst; clear H1.
    - replace (e1 - e1) with 0 by lia. destruct lx as [|[| |]]; simpl; lia.
    - pose proof (iter_shr_1_bound p (shr_record_of_loc mx lx)) as Hb.
      assert (Hr : shr_m (shr_record_of_loc mx lx) = mx)
        by (destruct lx as [|[| |]]; reflexivity).
      rewrite Hr in Hb. destruct (Hb Hm0) as [Hb1 Hb2].
      replace (ex + Z.pos p - ex) with (Z.pos p) by lia. lia.
    - replace (e1 - e1) with 0 by lia. destruct lx as [|[| |]]; simpl; lia. }
  destruct Hs1 as (He1 & Hr0 & Hr1).
  assert (Hm1 : 0 <= m1 <= shr_m mrs1 + 1)
    by (apply round_nearest_even_bound; assumption).
  assert (Hd1 : Zdigits2 m1 + e1 <= 1024).
  { set (j := e1 - ex) in *. assert (0 <= j) by (unfold j; lia).
    assert (Hp : 0 < 2 ^ j) by (apply Z.pow_pos_nonneg; lia).
    destruct (Z.le_gt_cases j k) as [Hjk|Hjk].
    - assert (Hk2 : 2 ^ k = 2 ^ j * 2 ^ (k - j))
        by (rewrite <- Z.pow_add_r by lia; f_equal; lia).
      assert (shr_m mrs1 < 2 ^ (k - j)) by nia.
      assert (Hlt : m1 < 2 ^ (k - j + 1)).
      { rewrite Z.pow_add_r by lia. change (2 ^ 1) with 2.
        assert (0 < 2 ^ (k - j)) by (apply Z.pow_pos_nonneg; lia). lia. }
      assert (0 <= Zdigits2 m1 <= k - j + 1) by (apply Zdigits2_bound; lia).
      unfold j in *. lia.
    - assert (2 ^ k < 2 ^ j) by (apply Z.pow_lt_mono_r; lia).
      assert (shr_m mrs1 = 0) by nia.
      assert (0 <= Zdigits2 m1 <= 1).
      { apply Zdigits2_bound; [|lia]. change (2 ^ 1) with 2. lia. }
      lia. }
  assert (He2 : e2 <= 971).
  { unfold shr_fexp, shr in H2.
    pose proof (fexp_le _ Hd1) as Hf.
    destruct (fexp 53 1024 (Zdigits2 m1 + e1) - e1) as [|p|p] eqn:Hn;
      inversion H2; subst; lia. }
  destruct (shr_m mrs2); try discriminate.
  replace (e2 <=? 1024 - 53) with true by (symmetry; apply Z.leb_le; lia).
  discriminate.
Qed.

(** The quotient of a length by a positive integer is in range. *)
Lemma quot_in_range a b :
  0 <= a < 2 ^ 64 -> 1 <= b ->
  forall s, PyFloat.quot a b <> S754_infinity s.
Proof.
  intros [Ha0 Ha] Hb s. unfold PyFloat.quot, PyFloat.exact.
  destruct b as [|pb|pb]; try lia.
  destruct a as [|pa|pa]; try lia; [discriminate|].
  unfold SFdiv, PyFloat.prec, PyFloat.emax.
  destruct (SFdiv_core_binary 53 1024 (Z.pos pa) 0 (Z.pos pb) 0)
    as [[mz ez] lz] eqn:Hc.
  unfold SFdiv_core_binary in Hc.
  set (e' := Z.min (fexp 53 1024 (Zdigits2 (Z.pos pa) + 0 - (Zdigits2 (Z.pos pb) + 0))) (0 - 0)) in *.
  assert (He : e' <= 0) by (unfold e'; lia).
  set (m' := match 0 - 0 - e' with
             | 0 => Z.pos pa | Z.pos _ => Z.shiftl (Z.pos pa) (0 - 0 - e')
             | Z.neg _ => 0 end) in *.
  assert (Hm' : 0 <= m' < 2 ^ (64 - e')).
  { unfold m'. destruct (0 - 0 - e') as [|p|p] eqn:Hs; try lia.
    - replace e' with 0 by lia. simpl (64 - 0). lia.
    - rewrite Z.shiftl_mul_pow2 by lia. rewrite <- Hs.
      replace (64 - e') with (64 + (0 - 0 - e')) by lia.
      rewrite Z.pow_add_r by lia.
      assert (0 < 2 ^ (0 - 0 - e')) by (apply Z.pow_pos_nonneg; lia). nia. }
  destruct (Z.div_eucl m' (Z.pos pb)) as [q r] eqn:Hqr.
  inversion Hc; subst mz ez lz; clear Hc.
  assert (Hq : q = m' / Z.pos pb) by (unfold Z.div; rewrite Hqr; reflexivity).
  assert (0 <= q <= m').
  { subst q. split; [apply Z.div_pos; lia|].
    apply Z.div_le_upper_bound; nia. }
  apply (binary_round_aux_in_range _ _ _ _ (64 - e')); lia.
Qed.

Lemma truediv_ok a b :
  0 <= a < 2 ^ 64 -> 1 <= b -> truediv a b = Ok (PyFloat.quot a b).
Proof.
  intros Ha Hb. unfold truediv.
  destruct (Z.eqb_spec b 0) as [->|_]; [lia|].
  pose proof (quot_in_range a b Ha Hb) as Hq.
  destruct (PyFloat.quot a b); try reflexivity.
  exfalso. eapply Hq. reflexivity.
Qed.

(** Whenever the division returns, it returns the rounded quotient. *)
Lemma truediv_inv a b q : truediv a b = Ok q -> q = PyFloat.quot a b.
Proof.
  unfold truediv. destruct (b =? 0); [discriminate|].
  destruct (PyFloat.quot a b); congruence.
Qed.

Lemma len_nonneg (s : pystr) : 0 <= PyStr.len s.
Proof. unfold PyStr.len. lia. Qed.

(* ===================================================================== *)
(*  The handlers                                                          *)
(* ===================================================================== *)



Section Handlers.

Variable env : Env.

(** With no model loaded, [summarize] raises 503 and changes nothing. *)
Lemma summarize_unloaded request w :
  summarizer w = None ->
  summarize env request w = (Raise unavailable, w).
Proof.
  intros Hs. destruct w as [sm hd tk ev]. cbn in Hs. subst sm.
  unfold summarize. run_monad. reflexivity.
Qed.

(** A [None] budget fails before the model is reached. *)
Lemma summarize_no_budget request w p :
  summarizer w = Some p ->
  max_length request = None ->
  summarize env request w
  = (Raise (processing_error (PyStr.lit
       "unsupported operand type(s) for //: 'NoneType' and 'int'")),
     tick w).
Proof.
  intros Hs Hm. destruct w as [sm hd tk ev]. cbn in Hs. subst sm.
  unfold summarize. run_monad. rewrite Hm. reflexivity.
Qed.

(** The outcome of [summarize] when the model raises. *)
Lemma summarize_model_raises request w p m e h :
  summarizer w = Some p ->
  max_length request = Some m ->
  pipeline_call p (hidden w) (text request) (generation_ceiling m) 20 false
  = (Raise e, h) ->
  summarize env request w
  = (Raise (processing_error e), invoked w h (text request) m).
Proof.
  intros Hs Hm Hp. destruct w as [sm hd tk ev]. cbn in Hs, Hp. subst sm.
  unfold summarize. run_monad. rewrite Hm.
  cbn [floordiv]. unfold generation_ceiling in Hp. rewrite Hp.
  reflexivity.
Qed.

(** The outcome of [summarize] when the model returns a summary. *)
Lemma summarize_model_returns request w p m res h first s :
  summarizer w = Some p ->
  max_length request = Some m ->
  PyStr.len (text request) < 2 ^ 64 ->
  pipeline_call p (hidden w) (text request) (generation_ceiling m) 20 false
  = (Ok res, h) ->
  res !! O = Some first ->
  first !! PyStr.lit "summary_text" = Some s ->
  summarize env request w
  = (Ok {| summary := s;
           original_length := PyStr.len (text request);
           summary_length := PyStr.len s;
           compression_ratio :=
             PyFloat.round
               (PyFloat.quot (PyStr.len (text request))
                  (Z.max (PyStr.len s) 1)) 2;
           processing_time :=
             PyFloat.round
               (PyFloat.sub (time_time env (S (ticks w)))
                  (time_time env (ticks w))) 3;
           model_used := PyStr.lit "rut5_base_sum_gazeta";
           timestamp :=
             strftime_Ymd_HMS (datetime_now env (S (S (ticks w)))) |},
     tick (tick (invoked w h (text request) m))).
Proof.
  intros Hs Hm Hlen Hp H0 Hk. destruct w as [sm hd tk ev].
  cbn in Hs, Hp. subst sm. unfold summarize. run_monad.
  rewrite Hm. cbn [floordiv]. unfold generation_ceiling in Hp.
  rewrite Hp. unfold getitem_list. rewrite H0.
  unfold getitem_dict. rewrite Hk.
  rewrite truediv_ok by (pose proof (len_nonneg (text request)); lia).
  reflexivity.
Qed.

(** Every successful outcome of [summarize] comes from a loaded model
    that returned a summary, and carries the metrics of that summary. *)
Lemma summarize_ok_inv request w resp w' :
  summarize env request w = (Ok resp, w') ->
  exists p m res h first,
    summarizer w = Some p
    /\ max_length request = Some m
    /\ pipeline_call p (hidden w) (text request) (generation_ceiling m)
         20 false = (Ok res, h)
    /\ res !! O = Some first
    /\ first !! PyStr.lit "summary_text" = Some (summary resp)
    /\ metrics_of (text request) (summary resp)
         (time_time env (ticks w)) (time_time env (S (ticks w))) resp
    /\ w' = tick (tick (invoked w h (text request) m)).
Proof.
  destruct w as [sm hd tk ev]. unfold summarize. run_monad.
  destruct sm as [p|]; [|discriminate].
  destruct (max_length request) as [m|] eqn:Hm; [|discriminate].
  cbn [floordiv].
  destruct (pipeline_call p hd (text request) (Z.min 100 (m / 3))
              20 false) as [[res|e] h] eqn:Hp;
    cbv beta iota; [|discriminate].
  unfold getitem_list.
  destruct (res !! O) as [first|] eqn:H0; cbv beta iota; [|discriminate].
  unfold getitem_dict.
  destruct (first !! PyStr.lit "summary_text") as [s|] eqn:Hk;
    cbv beta iota; [|discriminate].
  destruct (truediv (PyStr.len (text request)) (Z.max (PyStr.len s) 1))
    as [q|e] eqn:Hq; cbv beta iota; [|discriminate].
  apply truediv_inv in Hq. subst q.
  intros H. inversion H; subst resp w'; clear H.
  exists p, m, res, h, first. cbn [summary].
  unfold metrics_of.
  cbn [summary original_length summary_length compression_ratio
       processing_time summarizer hidden ticks events].
  repeat split; try reflexivity; assumption.
Qed.

(** Handlers never rebind the global [summarizer]. *)
Lemma summarize_summarizer request w :
  summarizer (snd (summarize env request w)) = summarizer w.
Proof.
  destruct w as [sm hd tk ev]. unfold summarize. run_monad.
  destruct sm as [p|]; [|reflexivity].
  destruct (floordiv (max_length request) 3) as [words|e];
    cbv beta iota; [|reflexivity].
  destruct (pipeline_call p hd (text request) (Z.min 100 words) 20 false)
    as [[res|e] h]; cbv beta iota; [|reflexivity].
  destruct (getitem_list res 0); cbv beta iota; [|reflexivity].
  destruct (getitem_dict _ _) as [s|e]; cbv beta iota; [|reflexivity].
  destruct (truediv _ _); reflexivity.
Qed.

Lemma health_check_eq w :
  health_check env w
  = (Ok {| health_status :=
             if bool_decide (is_Some (summarizer w))
             then PyStr.lit "healthy" else PyStr.lit "unhealthy";
           health_model_loaded := bool_decide (is_Some (summarizer w));
           health_timestamp := isoformat (datetime_now env (ticks w)) |},
     tick w).
Proof. destruct w. reflexivity. Qed.

Lemma root_eq w : snd (root w) = w.
Proof. reflexivity. Qed.

Lemma handle_summarizer r w :
  summarizer (snd (handle env r w)) = summarizer w.
Proof.
  destruct r as [| |b]; unfold handle, serve.
  - reflexivity.
  - rewrite health_check_eq. reflexivity.
  - destruct (validate b) as [request|errs]; [|reflexivity].
    pose proof (summarize_summarizer request w) as H.
    destruct (summarize env request w) as [[resp|e] w']; exact H.
Qed.

(** Handlers read the state only through the global, the hidden state
    of the model and the clock position. *)
Lemma summarize_same_store request w1 w2 :
  same_store w1 w2 ->
  fst (summarize env request w1) = fst (summarize env request w2)
  /\ same_store (snd (summarize env request w1))
                (snd (summarize env request w2)).
Proof.
  destruct w1 as [sm hd tk ev1], w2 as [sm2 hd2 tk2 ev2].
  unfold same_store. run_monad. intros (<- & <- & <-).
  unfold summarize. run_monad.
  destruct sm as [p|]; [|store_done].
  destruct (floordiv (max_length request) 3) as [words|e];
    cbv beta iota; [|store_done].
  destruct (pipeline_call p hd (text request) (Z.min 100 words) 20 false)
    as [[res|e] h]; cbv beta iota; [|store_done].
  destruct (getitem_list res 0); cbv beta iota; [|store_done].
  destruct (getitem_dict _ _) as [s|e]; cbv beta iota; [|store_done].
  destruct (truediv _ _); store_done.
Qed.

Lemma handle_same_store r w1 w2 :
  same_store w1 w2 ->
  fst (handle env r w1) = fst (handle env r w2)
  /\ same_store (snd (handle env r w1)) (snd (handle env r w2)).
Proof.
  intros Hw. destruct r as [| |b]; unfold handle, serve.
  - unfold root. run_monad. auto.
  - rewrite !health_check_eq. destruct Hw as (Hs & Hh & Ht).
    rewrite Hs, Ht. unfold same_store. run_monad.
    destruct w1, w2. run_monad. revert Hs Hh Ht. run_monad.
    intros -> -> ->. auto.
  - destruct (validate b) as [request|errs]; [|auto].
    destruct (summarize_same_store request w1 w2 Hw) as [Hf Hs].
    destruct (summarize env request w1) as [[resp1|e1] w1'],
             (summarize env request w2) as [[resp2|e2] w2'];
      revert Hf Hs; cbv beta iota delta [fst snd]; intros Hf Hs;
      try discriminate; inversion Hf; subst; auto.
Qed.

Lemma answers_same_store rs : forall w1 w2,
  same_store w1 w2 -> answers env rs w1 = answers env rs w2.
Proof.
  induction rs as [|r rs IH]; intros w1 w2 Hw; [reflexivity|].
  destruct (handle_same_store r w1 w2 Hw) as [Hf Hs].
  cbn [answers]. rewrite Hf. f_equal. apply IH. exact Hs.
Qed.

(** The two outcomes of [startup_event]. *)
Lemma startup_event_loads w p :
  load_outcome env = Ok p ->
  summarizer (snd (startup_event env w)) = Some p
  /\ same_store (snd (startup_event env w))
       {| summarizer := Some p; hidden := hidden w; ticks := ticks w;
          events := [] |}.
Proof.
  unfold load_outcome. intros Hl. destruct w as [sm hd tk ev].
  unfold startup_event. run_monad. rewrite Hl. store_done.
Qed.

Lemma startup_event_fails w e :
  load_outcome env = Raise e ->
  summarizer (snd (startup_event env w)) = summarizer w
  /\ same_store (snd (startup_event env w)) w.
Proof.
  unfold load_outcome. intros Hl. destruct w as [sm hd tk ev].
  unfold startup_event. run_monad. rewrite Hl. store_done.
Qed.

End Handlers.

Section HandlerFacts.

Variable env : Env.

(** With a model loaded and an integer budget, [summarize] invokes the
    model exactly once, whatever the model answers. *)
Lemma summarize_events request w p m :
  summarizer w = Some p ->
  max_length request = Some m ->
  events (snd (summarize env request w))
  = events w ++ [EvInvoke (text request) (generation_ceiling m) 20 false].
Proof.
  intros Hs Hm. destruct w as [sm hd tk ev]. revert Hs. run_monad.
  intros ->. unfold summarize. run_monad. rewrite Hm.
  cbv beta iota delta [floordiv]. fold (generation_ceiling m).
  destruct (pipeline_call p hd (text request) (generation_ceiling m)
              20 false) as [[res|e] h]; cbv beta iota; [|reflexivity].
  destruct (getitem_list res 0); cbv beta iota; [|reflexivity].
  destruct (getitem_dict _ _) as [s|e]; cbv beta iota; [|reflexivity].
  destruct (truediv _ _); reflexivity.
Qed.

(** With a model loaded, [summarize] fails only with status 500. *)
Lemma summarize_ready_status request w p err :
  summarizer w = Some p ->
  fst (summarize env request w) = Raise err ->
  status_code err = 500.
Proof.
  intros Hs. destruct w as [sm hd tk ev]. revert Hs. run_monad.
  intros ->. unfold summarize. run_monad.
  destruct (floordiv (max_length request) 3) as [words|e];
    cbv beta iota; [|intros [= <-]; reflexivity].
  destruct (pipeline_call p hd (text request) (Z.min 100 words) 20 false)
    as [[res|e] h]; cbv beta iota; [|intros [= <-]; reflexivity].
  destruct (getitem_list res 0); cbv beta iota;
    [|intros [= <-]; reflexivity].
  destruct (getitem_dict _ _) as [s|e]; cbv beta iota;
    [|intros [= <-]; reflexivity].
  destruct (truediv _ _); cbv beta iota;
    [discriminate|intros [= <-]; reflexivity].
Qed.

Lemma validate_text_ok t s :
  validate_text t = Ok s -> t = Some s /\ 50 <= PyStr.len s <= 5000.
Proof.
  unfold validate_text. destruct t as [u|]; [|discriminate].
  destruct (Z.leb_spec 50 (PyStr.len u)), (Z.leb_spec (PyStr.len u) 5000);
    cbv beta iota delta [andb]; try discriminate.
  intros [= ->]. auto.
Qed.

Lemma validate_ok b request :
  validate b = Ok request ->
  body_text b = Some (text request)
  /\ 50 <= PyStr.len (text request) <= 5000
  /\ validate_max_length (body_max_length b) = Ok (max_length request).
Proof.
  unfold validate.
  destruct (validate_text (body_text b)) as [t|e1] eqn:Ht,
           (validate_max_length (body_max_length b)) as [m|e2];
    try discriminate.
  intros [= <-]. apply validate_text_ok in Ht as [Ht Hl].
  cbv beta iota delta [text max_length]. auto.
Qed.

(** The process invariant: before the startup hook has run, no model
    is loaded. *)
Lemma step_invariant s a s' :
  step env s a s' ->
  (started s = false -> summarizer (world s) = None) ->
  (started s' = false -> summarizer (world s') = None).
Proof.
  intros Hstep Hinv. destruct Hstep as [s Hst|s r].
  - discriminate.
  - cbv beta iota delta [started world]. intros Hst.
    rewrite handle_summarizer. auto.
Qed.

Lemma steps_invariant s l s' :
  steps env s l s' ->
  (started s = false -> summarizer (world s) = None) ->
  (started s' = false -> summarizer (world s') = None).
Proof.
  induction 1 as [s|s a s1 l s2 Hstep _ IH]; [auto|].
  intros Hinv. apply IH. eapply step_invariant; eauto.
Qed.

Lemma reachable_invariant s :
  reachable env s -> started s = false -> summarizer (world s) = None.
Proof.
  intros (h & l & Hs). eapply steps_invariant; eauto.
Qed.

(** Once the startup hook has run, no step rebinds the global. *)
Lemma step_started s a s' :
  step env s a s' -> started s = true ->
  started s' = true /\ summarizer (world s') = summarizer (world s).
Proof.
  intros Hstep Hst. destruct Hstep as [s Hf|s r].
  - congruence.
  - cbv beta iota delta [started world]. rewrite handle_summarizer. auto.
Qed.

Lemma steps_started s l s' :
  steps env s l s' -> started s = true ->
  started s' = true /\ summarizer (world s') = summarizer (world s).
Proof.
  induction 1 as [s|s a s1 l s2 Hstep _ IH]; [auto|].
  intros Hst. destruct (step_started _ _ _ Hstep Hst) as [H1 H2].
  destruct (IH H1) as [H3 H4]. split; congruence.
Qed.

Lemma engine_state_of s s' :
  started s' = started s -> summarizer (world s') = summarizer (world s) ->
  engine_state s' = engine_state s.
Proof. unfold engine_state. intros -> ->. reflexivity. Qed.

End HandlerFacts.

(* ===================================================================== *)
(*  The serving contract                                                  *)
(* ===================================================================== *)

(** C1. For a request whose [max_length] lies in [30, 300], handled while
    a model is loaded, [summarize] invokes the model exactly once, with
    generation ceiling [min(100, max_length // 3)] (hence between 10 and
    the hard cap 100), minimum generation length 20 and sampling
    disabled. *)
Theorem summarize_generation_parameters env request w p m :
  summarizer w = Some p ->
  max_length request = Some m ->
  30 <= m <= 300 ->
  events (snd (summarize env request w))
  = events w ++ [EvInvoke (text request) (Z.min 100 (m / 3)) 20 false]
  /\ 10 <= Z.min 100 (m / 3) <= 100.
Proof.
  intros Hs Hm Hr. split.
  - apply (summarize_events env request w p m Hs Hm).
  - assert (10 <= m / 3) by (apply Z.div_le_lower_bound; lia). lia.
Qed.

Lemma summarize_generation_parameters_witness :
  events (snd (summarize Sample.env (Sample.request Sample.news 300)
                 (Sample.loaded Sample.truncating)))
  = events (Sample.loaded Sample.truncating)
      ++ [EvInvoke (text (Sample.request Sample.news 300))
            (Z.min 100 (300 / 3)) 20 false]
  /\ 10 <= Z.min 100 (300 / 3) <= 100.
Proof.
  apply (summarize_generation_parameters Sample.env
           (Sample.request Sample.news 300)
           (Sample.loaded Sample.truncating) Sample.truncating 300);
    [reflexivity | reflexivity | lia].
Defined.

(** C9. For every [max_length] in the accepted range [30, 59], the body
    passes validation and the generation ceiling handed to the model,
    [min(100, max_length // 3)], is strictly below the fixed minimum
    generation length 20. *)
Theorem ceiling_below_minimum env t w p m :
  50 <= PyStr.len t <= 5000 ->
  summarizer w = Some p ->
  30 <= m <= 59 ->
  exists request mx mn,
    validate {| body_text := Some t; body_max_length := IntValue m |}
    = Ok request
    /\ events (snd (summarize env request w))
       = events w ++ [EvInvoke t mx mn false]
    /\ mx = Z.min 100 (m / 3) /\ mn = 20 /\ mx < mn.
Proof.
  intros Ht Hs Hm.
  exists {| text := t; max_length := Some m |}, (Z.min 100 (m / 3)), 20.
  split; [|split; [|split; [reflexivity|split; [reflexivity|]]]].
  - unfold validate, validate_text, validate_max_length.
    cbv beta iota delta [body_text body_max_length].
    destruct (Z.leb_spec 50 (PyStr.len t)); [|lia].
    destruct (Z.leb_spec (PyStr.len t) 5000); [|lia].
    destruct (Z.leb_spec 30 m); [|lia].
    destruct (Z.leb_spec m 300); [|lia].
    reflexivity.
  - apply (summarize_events env {| text := t; max_length := Some m |} w p m
             Hs eq_refl).
  - assert (m / 3 < 20) by (apply Z.div_lt_upper_bound; lia). lia.
Qed.

Lemma ceiling_below_minimum_witness :
  exists request mx mn,
    validate {| body_text := Some Sample.news; body_max_length := IntValue 59 |}
    = Ok request
    /\ events (snd (summarize Sample.env request
                      (Sample.loaded Sample.truncating)))
       = events (Sample.loaded Sample.truncating)
           ++ [EvInvoke Sample.news mx mn false]
    /\ mx = Z.min 100 (59 / 3) /\ mn = 20 /\ mx < mn.
Proof.
  apply (ceiling_below_minimum Sample.env Sample.news
           (Sample.loaded Sample.truncating) Sample.truncating 59);
    [vm_compute; split; discriminate | reflexivity | lia].
Defined.

(** C3. While the engine is not Ready (Loading or Failed), every call of
    [summarize] raises the 503 exception and leaves the state as it is, so
    the model is not invoked; a body that passes validation is answered
    503; and [health_check] reports "unhealthy" with [model_loaded]
    false. *)
Theorem not_ready_unavailable env s :
  engine_state s = Loading \/ engine_state s = Failed ->
  (forall request,
      summarize env request (world s) = (Raise unavailable, world s))
  /\ status_code unavailable = 503
  /\ (forall b request,
        validate b = Ok request ->
        handle env (POST_summarize b) (world s)
        = (RespError 503 (detail unavailable), world s))
  /\ fst (health_check env (world s))
     = Ok {| health_status := PyStr.lit "unhealthy";
             health_model_loaded := false;
             health_timestamp :=
               isoformat (datetime_now env (ticks (world s))) |}.
Proof.
  intros Hst.
  assert (Hs : summarizer (world s) = None).
  { unfold engine_state in Hst.
    destruct (summarizer (world s)); [|reflexivity].
    destruct Hst; discriminate. }
  split; [|split; [reflexivity|split]].
  - intros request. apply summarize_unloaded. exact Hs.
  - intros b request Hv. unfold handle, serve. rewrite Hv.
    rewrite (summarize_unloaded env request (world s) Hs). reflexivity.
  - rewrite health_check_eq. rewrite Hs. reflexivity.
Qed.

Lemma not_ready_unavailable_witness :
  (forall request,
      summarize Sample.env_offline request (world (boot 7))
      = (Raise unavailable, world (boot 7)))
  /\ status_code unavailable = 503
  /\ (forall b request,
        validate b = Ok request ->
        handle Sample.env_offline (POST_summarize b) (world (boot 7))
        = (RespError 503 (detail unavailable), world (boot 7)))
  /\ fst (health_check Sample.env_offline (world (boot 7)))
     = Ok {| health_status := PyStr.lit "unhealthy";
             health_model_loaded := false;
             health_timestamp :=
               isoformat (datetime_now Sample.env_offline
                            (ticks (world (boot 7)))) |}.
Proof.
  apply (not_ready_unavailable Sample.env_offline (boot 7)).
  left. reflexivity.
Defined.

(** C4. A body whose text has fewer than 50 or more than 5000 characters,
    or whose [max_length] is an integer outside [30, 300], is answered 422
    by validation, in every state of the engine, and the state is left as
    it is: the handler is not entered and the model is not invoked. *)
Theorem invalid_body_rejected env t j w :
  PyStr.len t < 50 \/ 5000 < PyStr.len t
  \/ (exists z, j = IntValue z /\ (z < 30 \/ 300 < z)) ->
  exists errs,
    errs <> []
    /\ handle env (POST_summarize {| body_text := Some t;
                                     body_max_length := j |}) w
       = (Resp422 errs, w).
Proof.
  intros H. unfold handle, validate.
  cbv beta iota delta [body_text body_max_length].
  assert (Hcase :
    validate_text (Some t) = Raise (PyStr.lit "text")
    \/ validate_max_length j = Raise (PyStr.lit "max_length")).
  { destruct H as [H|[H|(z & -> & H)]].
    - left. unfold validate_text.
      destruct (Z.leb_spec 50 (PyStr.len t)); [lia|reflexivity].
    - left. unfold validate_text.
      destruct (Z.leb_spec (PyStr.len t) 5000); [lia|].
      rewrite andb_false_r. reflexivity.
    - right. unfold validate_max_length.
      destruct (Z.leb_spec 30 z), (Z.leb_spec z 300);
        try reflexivity; lia. }
  destruct (validate_text (Some t)) as [t'|e1],
           (validate_max_length j) as [m|e2];
    destruct Hcase as [Hc|Hc]; try discriminate;
    eexists; (split; [|reflexivity]); discriminate.
Qed.

Lemma invalid_body_rejected_witness :
  exists errs,
    errs <> []
    /\ handle Sample.env
         (POST_summarize {| body_text := Some (PyStr.lit "Коротко.");
                            body_max_length := IntValue 100 |})
         Sample.unloaded
       = (Resp422 errs, Sample.unloaded).
Proof.
  apply (invalid_body_rejected Sample.env (PyStr.lit "Коротко.")
           (IntValue 100) Sample.unloaded).
  left. vm_compute. reflexivity.
Defined.

(** C2. For a body that passes validation (text of 50 to 5000 characters,
    [max_length] in [30, 300]) handled while the engine is Ready, a
    successful response has [original_length] the length of the text,
    [summary_length] the length of the returned summary,
    [compression_ratio] the quotient
    [original_length / max(summary_length, 1)] rounded to 2 decimals (the
    division does not raise), and [processing_time] the difference of the
    clock readings taken after and before the inference, rounded to 3
    decimals. *)
Theorem response_metrics env b request s resp :
  validate b = Ok request ->
  engine_state s = Ready ->
  fst (summarize env request (world s)) = Ok resp ->
  original_length resp = PyStr.len (text request)
  /\ summary_length resp = PyStr.len (summary resp)
  /\ truediv (original_length resp) (Z.max (summary_length resp) 1)
     = Ok (PyFloat.quot (original_length resp)
             (Z.max (summary_length resp) 1))
  /\ compression_ratio resp
     = PyFloat.round
         (PyFloat.quot (original_length resp)
            (Z.max (summary_length resp) 1)) 2
  /\ processing_time resp
     = PyFloat.round
         (PyFloat.sub (time_time env (S (ticks (world s))))
            (time_time env (ticks (world s)))) 3.
Proof.
  intros Hv _ Hok.
  destruct (validate_ok b request Hv) as (_ & Hlen & _).
  destruct (summarize env request (world s)) as [r w'] eqn:Hrun.
  cbv beta iota delta [fst] in Hok. subst r.
  destruct (summarize_ok_inv env request (world s) resp w' Hrun)
    as (p & m & res & h & first & _ & _ & _ & _ & _ & Hmet & _).
  destruct Hmet as (_ & Ho & Hl & Hc & Ht).
  rewrite Ho, Hl. repeat split; try assumption.
  apply truediv_ok.
  - assert (5000 < 2 ^ 64) by reflexivity. lia.
  - lia.
Qed.

Lemma response_metrics_witness :
  exists resp,
    fst (summarize Sample.env (Sample.request Sample.news 100)
           (Sample.loaded Sample.truncating)) = Ok resp
    /\ original_length resp = 62
    /\ summary_length resp = 33
    /\ compression_ratio resp = PyFloat.dec 188 2
    /\ processing_time resp = PyFloat.dec 15 1.
Proof.
  eexists. split; [vm_compute; reflexivity|].
  match goal with
  | |- original_length ?r = _ /\ _ =>
      assert (Hok : fst (summarize Sample.env
                           (Sample.request Sample.news 100)
                           (world (Sample.serving Sample.truncating)))
                    = Ok r) by (vm_compute; reflexivity);
      assert (Hv : validate (Sample.body Sample.news (IntValue 100))
                   = Ok (Sample.request Sample.news 100))
        by (vm_compute; reflexivity);
      destruct (response_metrics Sample.env _ _
                  (Sample.serving Sample.truncating) r Hv eq_refl Hok)
        as (H1 & H2 & _ & H4 & H5)
  end.
  split; [|split; [|split]];
    [rewrite H1 | rewrite H2 | rewrite H4 | rewrite H5];
    vm_compute; reflexivity.
Defined.

(** C5. For a body that passes validation, handled while the engine is
    Ready, if the model call raises an exception with message [e], the
    answer is the 500 error whose detail ends with [e]; the global is not
    rebound, so the engine is still Ready after the call, and no later
    request is answered 503. *)
Theorem inference_failure_isolated env b request s p m e h :
  validate b = Ok request ->
  max_length request = Some m ->
  summarizer (world s) = Some p ->
  pipeline_call p (hidden (world s)) (text request) (generation_ceiling m)
    20 false = (Raise e, h) ->
  forall s', step env s (Call (POST_summarize b)) s' ->
    fst (handle env (POST_summarize b) (world s))
    = RespError 500 (PyStr.lit "Ошибка при обработке текста: " ++ e)
    /\ engine_state s = Ready
    /\ engine_state s' = Ready
    /\ summarizer (world s') = Some p
    /\ forall r status d,
         fst (handle env r (world s')) = RespError status d ->
         status = 500.
Proof.
  intros Hv Hm Hs Hp s' Hstep.
  assert (Hs' : summarizer (world s') = Some p).
  { inversion Hstep; subst. cbv beta iota delta [world].
    rewrite handle_summarizer. exact Hs. }
  split; [|split; [|split; [|split]]].
  - unfold handle, serve. rewrite Hv.
    rewrite (summarize_model_raises env request (world s) p m e h Hs Hm Hp).
    reflexivity.
  - unfold engine_state. rewrite Hs. reflexivity.
  - unfold engine_state. rewrite Hs'. reflexivity.
  - exact Hs'.
  - intros r status d. destruct r as [| |b2]; unfold handle, serve.
    + discriminate.
    + rewrite health_check_eq. discriminate.
    + destruct (validate b2) as [request2|errs]; [|discriminate].
      pose proof (summarize_ready_status env request2 (world s') p) as Hst.
      destruct (summarize env request2 (world s')) as [[resp|err] w2];
        cbv beta iota delta [fst]; [discriminate|].
      intros [= <- _]. apply Hst; [exact Hs'|reflexivity].
Qed.

Lemma inference_failure_isolated_witness :
  fst (handle Sample.env
         (POST_summarize (Sample.body Sample.news (IntValue 100)))
         (world (Sample.serving Sample.broken)))
  = RespError 500
      (PyStr.lit "Ошибка при обработке текста: "
         ++ PyStr.lit "CUDA out of memory")
  /\ engine_state (Sample.serving Sample.broken) = Ready
  /\ engine_state Sample.after_failure = Ready
  /\ summarizer (world Sample.after_failure) = Some Sample.broken
  /\ forall r status d,
       fst (handle Sample.env r (world Sample.after_failure))
       = RespError status d ->
       status = 500.
Proof.
  assert (Hv : validate (Sample.body Sample.news (IntValue 100))
               = Ok (Sample.request Sample.news 100))
    by (vm_compute; reflexivity).
  assert (Hp : pipeline_call Sample.broken
                 (hidden (world (Sample.serving Sample.broken)))
                 (text (Sample.request Sample.news 100))
                 (generation_ceiling 100) 20 false
               = (Raise (PyStr.lit "CUDA out of memory"), 7%nat))
    by (vm_compute; reflexivity).
  exact (inference_failure_isolated Sample.env
           (Sample.body Sample.news (IntValue 100))
           (Sample.request Sample.news 100)
           (Sample.serving Sample.broken)
           Sample.broken 100 (PyStr.lit "CUDA out of memory") 7%nat
           Hv eq_refl eq_refl Hp Sample.after_failure
           (step_call Sample.env (Sample.serving Sample.broken)
              (POST_summarize (Sample.body Sample.news (IntValue 100))))).
Defined.

(** C7. Two calls of [summarize] with the same text and the same
    [max_length], answered by the same deterministic model, give the same
    summary text (or the same error): the model is called with sampling
    disabled and the same generation parameters, whatever the clocks, the
    hidden state of the model and the trace are.  In particular the second
    of two consecutive calls repeats the summary of the first. *)
Theorem summarize_reproducible env1 env2 p request w1 w2 :
  deterministic p ->
  summarizer w1 = Some p ->
  summarizer w2 = Some p ->
  summary_of (fst (summarize env1 request w1))
  = summary_of (fst (summarize env2 request w2))
  /\ summary_of (fst (summarize env1 request
                        (snd (summarize env1 request w1))))
     = summary_of (fst (summarize env1 request w1)).
Proof.
  intros Hdet.
  assert (Hgen : forall e1 e2 u1 u2,
    summarizer u1 = Some p -> summarizer u2 = Some p ->
    summary_of (fst (summarize e1 request u1))
    = summary_of (fst (summarize e2 request u2))).
  { intros e1 e2 [sm1 hd1 tk1 ev1] [sm2 hd2 tk2 ev2].
    run_monad. intros -> ->. unfold summarize. run_monad.
    destruct (floordiv (max_length request) 3) as [words|e];
      cbv beta iota; [|reflexivity].
    pose proof (Hdet hd1 hd2 (text request) (Z.min 100 words) 20) as Hd.
    destruct (pipeline_call p hd1 (text request) (Z.min 100 words) 20 false)
      as [r1 h1],
      (pipeline_call p hd2 (text request) (Z.min 100 words) 20 false)
      as [r2 h2].
    cbv beta iota delta [fst] in Hd. subst r2.
    destruct r1 as [res|e]; cbv beta iota; [|reflexivity].
    destruct (getitem_list res 0); cbv beta iota; [|reflexivity].
    destruct (getitem_dict _ _) as [sum|e]; cbv beta iota; [|reflexivity].
    destruct (truediv _ _); reflexivity. }
  intros H1 H2. split.
  - apply Hgen; assumption.
  - apply Hgen; [|assumption].
    rewrite summarize_summarizer. assumption.
Qed.

Lemma truncating_deterministic : deterministic Sample.truncating.
Proof. intros h1 h2 t mx mn. reflexivity. Qed.

Lemma summarize_reproducible_witness :
  summary_of (fst (summarize Sample.env (Sample.request Sample.news 100)
                     (Sample.loaded Sample.truncating)))
  = summary_of (fst (summarize Sample.env_offline
                       (Sample.request Sample.news 100)
                       (snd (health_check Sample.env
                               (Sample.loaded Sample.truncating)))))
  /\ summary_of (fst (summarize Sample.env (Sample.request Sample.news 100)
                        (snd (summarize Sample.env
                                (Sample.request Sample.news 100)
                                (Sample.loaded Sample.truncating)))))
     = summary_of (fst (summarize Sample.env
                          (Sample.request Sample.news 100)
                          (Sample.loaded Sample.truncating))).
Proof.
  apply (summarize_reproducible Sample.env Sample.env_offline
           Sample.truncating (Sample.request Sample.news 100)
           (Sample.loaded Sample.truncating)
           (snd (health_check Sample.env
                   (Sample.loaded Sample.truncating))));
    [exact truncating_deterministic | reflexivity | reflexivity].
Defined.

Lemma steps_no_startup env s l s' :
  steps env s l s' -> started s = true -> Forall (fun a => a <> Startup) l.
Proof.
  induction 1 as [s|s a s1 l s2 Hstep _ IH]; intros Hst; [constructor|].
  destruct (step_started env _ _ _ Hstep Hst) as [H1 _].
  constructor; [|auto].
  inversion Hstep; subst; [congruence|discriminate].
Qed.

(** C6. The engine state changes only in the startup transition, which
    leads from Loading to Ready when the load succeeds and to Failed when
    it raises.  No request handler ([root], [health_check], [summarize],
    or the rejection of a body) rebinds the global.  From a reachable
    state that is Ready or Failed, every run keeps the engine state and
    the global as they are and contains no further startup transition. *)
Theorem engine_state_written_once env :
  (forall h, engine_state (boot h) = Loading)
  /\ (forall s s',
        engine_state s = Loading -> step env s Startup s' ->
        match load_outcome env with
        | Ok p => engine_state s' = Ready /\ summarizer (world s') = Some p
        | Raise _ => engine_state s' = Failed
        end)
  /\ (forall r w, summarizer (snd (handle env r w)) = summarizer w)
  /\ (forall s l s',
        reachable env s -> engine_state s <> Loading -> steps env s l s' ->
        engine_state s' = engine_state s
        /\ summarizer (world s') = summarizer (world s)
        /\ Forall (fun a => a <> Startup) l).
Proof.
  split; [reflexivity|split; [|split]].
  - intros s s' Hl Hstep. inversion Hstep as [s0 Hst|]; subst.
    assert (Hs : summarizer (world s) = None).
    { unfold engine_state in Hl.
      destruct (summarizer (world s)); [discriminate|reflexivity]. }
    destruct (load_outcome env) as [p|e] eqn:Hload.
    + destruct (startup_event_loads env (world s) p Hload) as [Hp _].
      unfold engine_state. cbn [world started].
      rewrite Hp. auto.
    + destruct (startup_event_fails env (world s) e Hload) as [Hp _].
      unfold engine_state. cbn [world started].
      rewrite Hp, Hs. reflexivity.
  - apply handle_summarizer.
  - intros s l s' Hreach Hnl Hsteps.
    assert (Hst : started s = true).
    { destruct (started s) eqn:Hb; [reflexivity|].
      exfalso. apply Hnl. unfold engine_state.
      rewrite (reachable_invariant env s Hreach Hb), Hb. reflexivity. }
    destruct (steps_started env s l s' Hsteps Hst) as [H1 H2].
    split; [|split].
    + apply engine_state_of; congruence.
    + exact H2.
    + eapply steps_no_startup; eauto.
Qed.

Lemma engine_state_written_once_witness :
  engine_state (boot 7) = Loading
  /\ engine_state (Sample.started_up Sample.env) = Ready
  /\ engine_state (Sample.started_up Sample.env_offline) = Failed
  /\ engine_state (Sample.after_health Sample.env)
     = engine_state (Sample.started_up Sample.env).
Proof.
  split; [|split; [|split]].
  - apply (proj1 (engine_state_written_once Sample.env)).
  - apply (proj1 (proj2 (engine_state_written_once Sample.env))
             (boot 7) _ eq_refl (step_startup Sample.env (boot 7) eq_refl)).
  - apply (proj1 (proj2 (engine_state_written_once Sample.env_offline))
             (boot 7) _ eq_refl
             (step_startup Sample.env_offline (boot 7) eq_refl)).
  - apply (proj2 (proj2 (proj2 (engine_state_written_once Sample.env)))
             (Sample.started_up Sample.env) [Call GET_health]).
    + exists 7%nat, [Startup].
      eapply steps_cons; [|apply steps_nil].
      apply (step_startup Sample.env (boot 7) eq_refl).
    + discriminate.
    + eapply steps_cons; [|apply steps_nil].
      apply (step_call Sample.env (Sample.started_up Sample.env)
               GET_health).
Defined.

(** C10. A load that raises leaves the global unset, and the state after
    it (Failed) answers every sequence of requests exactly as the state
    before it (Loading) does; in particular [health_check] and [summarize]
    give the same outcome in both. *)
Theorem failed_load_indistinguishable env s s' e :
  engine_state s = Loading ->
  load_outcome env = Raise e ->
  step env s Startup s' ->
  engine_state s' = Failed
  /\ summarizer (world s') = None
  /\ (forall rs, answers env rs (world s') = answers env rs (world s))
  /\ fst (health_check env (world s')) = fst (health_check env (world s))
  /\ (forall request,
        fst (summarize env request (world s'))
        = fst (summarize env request (world s))).
Proof.
  intros Hl Hload Hstep. inversion Hstep as [s0 Hst|]; subst.
  assert (Hs : summarizer (world s) = None).
  { unfold engine_state in Hl.
    destruct (summarizer (world s)); [discriminate|reflexivity]. }
  destruct (startup_event_fails env (world s) e Hload) as [Hp Hsame].
  cbn [world started].
  split; [|split; [|split; [|split]]].
  - unfold engine_state. cbn [world started].
    rewrite Hp, Hs. reflexivity.
  - congruence.
  - intros rs. apply answers_same_store. exact Hsame.
  - rewrite !health_check_eq. destruct Hsame as (Ha & _ & Hc).
    cbv beta iota delta [fst]. rewrite Ha, Hc. reflexivity.
  - intros request.
    apply (summarize_same_store env request _ _ Hsame).
Qed.

Lemma failed_load_indistinguishable_witness :
  engine_state
    {| started := true;
       world := snd (startup_event Sample.env_offline (world (boot 7))) |}
  = Failed
  /\ answers Sample.env_offline
       [GET_health; POST_summarize (Sample.body Sample.news (IntValue 100));
        GET_root]
       (snd (startup_event Sample.env_offline (world (boot 7))))
     = answers Sample.env_offline
         [GET_health; POST_summarize (Sample.body Sample.news (IntValue 100));
          GET_root]
         (world (boot 7)).
Proof.
  pose proof
    (failed_load_indistinguishable Sample.env_offline (boot 7) _
       (PyStr.lit "Connection error") eq_refl eq_refl
       (step_startup Sample.env_offline (boot 7) eq_refl))
    as (H1 & _ & H3 & _).
  split; [exact H1 | apply H3].
Defined.

(** The ratio of a 60-character text to a summary of 1 to 60 characters,
    rounded to 2 decimals, is at least 1.0. *)
Lemma ratio_60_at_least_one n :
  1 <= n <= 60 ->
  PyFloat.leb (PyFloat.of_int 1)
    (PyFloat.round (PyFloat.quot 60 (Z.max n 1)) 2) = true.
Proof.
  intros Hn.
  assert (Hall :
    forallb (fun k => PyFloat.leb (PyFloat.of_int 1)
                        (PyFloat.round (PyFloat.quot 60 (Z.max k 1)) 2))
            (seqZ 1 60) = true) by (vm_compute; reflexivity).
  rewrite forallb_forall in Hall. apply Hall.
  apply list_elem_of_In, elem_of_seqZ. lia.
Qed.

(** C8, as stated, fails: for a text of 60 characters with
    [max_length = 100] and a loaded model whose call succeeds, a model
    that answers with 120 characters gives [compression_ratio] 0.5, which
    is below 1.0, and a model that answers with the empty string gives
    [summary_length] 0. *)
Lemma short_text_ratio_counterexample :
  PyStr.len Sample.news60 = 60
  /\ (exists resp,
        fst (summarize Sample.env (Sample.request Sample.news60 100)
               (Sample.loaded Sample.doubling)) = Ok resp
        /\ original_length resp = 60
        /\ summary_length resp = 120
        /\ compression_ratio resp = PyFloat.dec 5 1
        /\ PyFloat.leb (PyFloat.of_int 1) (compression_ratio resp) = false)
  /\ (exists resp,
        fst (summarize Sample.env (Sample.request Sample.news60 100)
               (Sample.loaded Sample.silent)) = Ok resp
        /\ original_length resp = 60
        /\ summary_length resp = 0
        /\ ~ 1 <= summary_length resp).
Proof.
  split; [vm_compute; reflexivity|split].
  - eexists. split; [vm_compute; reflexivity|].
    repeat split; vm_compute; reflexivity.
  - eexists. split; [vm_compute; reflexivity|].
    repeat split; try (vm_compute; reflexivity).
    vm_compute. intros H. apply H. reflexivity.
Qed.

(** C8, amended. For a text of exactly 60 characters with
    [max_length = 100], handled while a model is loaded, when the model
    call returns a summary [s] the response is a success with
    [original_length = 60], [summary_length = len(s)] and
    [compression_ratio = round(60 / max(len(s), 1), 2)]; when [s] has
    between 1 and 60 characters, [summary_length >= 1] and
    [compression_ratio >= 1.0]. *)
Theorem short_text_response env request w p res h first s :
  PyStr.len (text request) = 60 ->
  max_length request = Some 100 ->
  summarizer w = Some p ->
  pipeline_call p (hidden w) (text request) 33 20 false = (Ok res, h) ->
  res !! O = Some first ->
  first !! PyStr.lit "summary_text" = Some s ->
  exists resp,
    fst (summarize env request w) = Ok resp
    /\ summary resp = s
    /\ original_length resp = 60
    /\ summary_length resp = PyStr.len s
    /\ compression_ratio resp
       = PyFloat.round (PyFloat.quot 60 (Z.max (PyStr.len s) 1)) 2
    /\ (1 <= PyStr.len s <= 60 ->
        1 <= summary_length resp
        /\ PyFloat.leb (PyFloat.of_int 1) (compression_ratio resp) = true).
Proof.
  intros Hlen Hm Hs Hp H0 Hk.
  assert (Hlt : PyStr.len (text request) < 2 ^ 64)
    by (rewrite Hlen; reflexivity).
  rewrite (summarize_model_returns env request w p 100 res h first s
             Hs Hm Hlt Hp H0 Hk).
  eexists. split; [reflexivity|].
  cbv beta iota delta
    [summary original_length summary_length compression_ratio].
  rewrite Hlen. repeat split; try reflexivity; try lia.
  apply ratio_60_at_least_one. assumption.
Qed.

Lemma short_text_response_witness :
  exists resp,
    fst (summarize Sample.env (Sample.request Sample.news60 100)
           (Sample.loaded Sample.truncating)) = Ok resp
    /\ summary resp = take 33 Sample.news60
    /\ original_length resp = 60
    /\ summary_length resp = 33
    /\ compression_ratio resp = PyFloat.dec 182 2
    /\ 1 <= summary_length resp
    /\ PyFloat.leb (PyFloat.of_int 1) (compression_ratio resp) = true.
Proof.
  destruct
    (short_text_response Sample.env (Sample.request Sample.news60 100)
       (Sample.loaded Sample.truncating) Sample.truncating
       [ {[ PyStr.lit "summary_text" := take 33 Sample.news60 ]} ]
       8%nat
       {[ PyStr.lit "summary_text" := take 33 Sample.news60 ]}
       (take 33 Sample.news60))
    as (resp & H1 & H2 & H3 & H4 & H5 & H6);
    try (vm_compute; reflexivity).
  destruct H6 as [H6 H7]; [vm_compute; split; discriminate|].
  exists resp.
  split; [exact H1|split; [exact H2|split; [exact H3|]]].
  split; [rewrite H4; vm_compute; reflexivity|].
  split; [rewrite H5; vm_compute; reflexivity|].
  split; assumption.
Defined.

(* ===================================================================== *)
(*  Further properties of the handlers                                    *)
(* ===================================================================== *)

(** X1. A body whose [max_length] is [null] passes validation; with a
    model loaded it is answered 500 with the message of the [TypeError]
    raised by [None // 3], after one clock reading and without the model
    being invoked. *)
Theorem null_budget_processing_error env t w p :
  50 <= PyStr.len t <= 5000 ->
  summarizer w = Some p ->
  handle env (POST_summarize {| body_text := Some t;
                                body_max_length := Null |}) w
  = (RespError 500
       (PyStr.lit "Ошибка при обработке текста: "
          ++ PyStr.lit
               "unsupported operand type(s) for //: 'NoneType' and 'int'"),
     tick w)
  /\ events (tick w) = events w.
Proof.
  intros Ht Hs. split; [|destruct w; reflexivity].
  unfold handle, validate, validate_text, validate_max_length.
  cbv beta iota delta [body_text body_max_length].
  destruct (Z.leb_spec 50 (PyStr.len t)); [|lia].
  destruct (Z.leb_spec (PyStr.len t) 5000); [|lia].
  cbv beta iota delta [andb]. unfold serve.
  rewrite (summarize_no_budget env {| text := t; max_length := None |} w p
             Hs eq_refl).
  reflexivity.
Qed.

Lemma null_budget_processing_error_witness :
  handle Sample.env
    (POST_summarize {| body_text := Some Sample.news;
                       body_max_length := Null |})
    (Sample.loaded Sample.truncating)
  = (RespError 500
       (PyStr.lit "Ошибка при обработке текста: "
          ++ PyStr.lit
               "unsupported operand type(s) for //: 'NoneType' and 'int'"),
     tick (Sample.loaded Sample.truncating))
  /\ events (tick (Sample.loaded Sample.truncating))
     = events (Sample.loaded Sample.truncating).
Proof.
  apply (null_budget_processing_error Sample.env Sample.news
           (Sample.loaded Sample.truncating) Sample.truncating);
    [vm_compute; split; discriminate | reflexivity].
Defined.

(** X2. When the model returns without raising but its result has no
    first element, or its first element has no key ["summary_text"],
    [summarize] raises the 500 error with the message of the [IndexError]
    ("list index out of range") or of the [KeyError] (the key in quotes);
    the model has been invoked once and the global is untouched. *)
Theorem malformed_model_output env request w p m res h :
  summarizer w = Some p ->
  max_length request = Some m ->
  pipeline_call p (hidden w) (text request) (generation_ceiling m) 20 false
  = (Ok res, h) ->
  (res = [] ->
   summarize env request w
   = (Raise (processing_error (PyStr.lit "list index out of range")),
      invoked w h (text request) m))
  /\ (forall first rest,
        res = first :: rest ->
        first !! PyStr.lit "summary_text" = None ->
        summarize env request w
        = (Raise (processing_error (PyStr.lit "'summary_text'")),
           invoked w h (text request) m)).
Proof.
  intros Hs Hm Hp. destruct w as [sm hd tk ev]. revert Hs Hp. run_monad.
  intros -> Hp. unfold generation_ceiling in Hp.
  split.
  - intros ->. unfold summarize, invoked. run_monad. rewrite Hm.
    cbv beta iota delta [floordiv]. rewrite Hp. reflexivity.
  - intros first rest -> Hk. unfold summarize, invoked. run_monad.
    rewrite Hm. cbv beta iota delta [floordiv]. rewrite Hp.
    cbv beta iota delta [getitem_list]. cbn [lookup list_lookup].
    unfold getitem_dict. rewrite Hk. reflexivity.
Qed.

Lemma malformed_model_output_witness :
  summarize Sample.env (Sample.request Sample.news 100)
    (Sample.loaded Cases.empty_result)
  = (Raise (processing_error (PyStr.lit "list index out of range")),
     invoked (Sample.loaded Cases.empty_result) 8%nat
       (text (Sample.request Sample.news 100)) 100)
  /\ summarize Sample.env (Sample.request Sample.news 100)
       (Sample.loaded Cases.unlabelled)
     = (Raise (processing_error (PyStr.lit "'summary_text'")),
        invoked (Sample.loaded Cases.unlabelled) 8%nat
          (text (Sample.request Sample.news 100)) 100).
Proof.
  assert (H1 : pipeline_call Cases.empty_result
                 (hidden (Sample.loaded Cases.empty_result))
                 (text (Sample.request Sample.news 100))
                 (generation_ceiling 100) 20 false
               = (Ok [], 8%nat)) by (vm_compute; reflexivity).
  assert (H2 : pipeline_call Cases.unlabelled
                 (hidden (Sample.loaded Cases.unlabelled))
                 (text (Sample.request Sample.news 100))
                 (generation_ceiling 100) 20 false
               = (Ok [ {[ PyStr.lit "text" := take 33 Sample.news ]} ],
                  8%nat)) by (vm_compute; reflexivity).
  assert (H3 : ({[ PyStr.lit "text" := take 33 Sample.news ]}
                  : gmap pystr pystr) !! PyStr.lit "summary_text" = None)
    by (vm_compute; reflexivity).
  pose proof (malformed_model_output Sample.env
                (Sample.request Sample.news 100)
                (Sample.loaded Cases.empty_result)
                Cases.empty_result 100 [] 8%nat
                eq_refl eq_refl H1) as [Ha _].
  pose proof (malformed_model_output Sample.env
                (Sample.request Sample.news 100)
                (Sample.loaded Cases.unlabelled)
                Cases.unlabelled 100
                [ {[ PyStr.lit "text" := take 33 Sample.news ]} ]
                8%nat eq_refl eq_refl H2) as [_ Hb].
  split.
  - exact (Ha eq_refl).
  - exact (Hb _ [] eq_refl H3).
Defined.

(** X3. For a request that passed validation with an integer
    [max_length], the hard cap never changes the budget: the generation
    ceiling is exactly [max_length // 3], it lies between 10 and 100, and
    it equals the cap 100 only for [max_length = 300]. *)
Theorem cap_never_binds b request m :
  validate b = Ok request ->
  max_length request = Some m ->
  generation_ceiling m = m / 3
  /\ 10 <= generation_ceiling m <= 100
  /\ (generation_ceiling m = 100 <-> m = 300).
Proof.
  intros Hv Hm. apply validate_ok in Hv as (_ & _ & Hml).
  rewrite Hm in Hml. unfold validate_max_length in Hml.
  assert (Hr : 30 <= m <= 300).
  { destruct (body_max_length b) as [| |z]; try discriminate.
    - injection Hml as <-. lia.
    - destruct (Z.leb_spec 30 z), (Z.leb_spec z 300);
        cbv beta iota delta [andb] in Hml; try discriminate.
      injection Hml as <-. lia. }
  unfold generation_ceiling.
  assert (10 <= m / 3) by (apply Z.div_le_lower_bound; lia).
  assert (m / 3 <= 100) by (apply Z.div_le_upper_bound; lia).
  split; [lia|split; [lia|]].
  split.
  - intros Hc. assert (Hd : m / 3 = 100) by lia.
    assert (100 * 3 <= m).
    { rewrite <- Hd. rewrite Z.mul_comm. apply Z.mul_div_le. lia. }
    lia.
  - intros ->. reflexivity.
Qed.

Lemma cap_never_binds_witness :
  generation_ceiling 299 = 299 / 3
  /\ 10 <= generation_ceiling 299 <= 100
  /\ (generation_ceiling 299 = 100 <-> 299 = 300).
Proof.
  apply (cap_never_binds (Sample.body Sample.news (IntValue 299))
           (Sample.request Sample.news 299) 299);
    [vm_compute; reflexivity | reflexivity].
Defined.

(** X4. The answer to [POST /summarize] is determined by the body and the
    global as follows: 422 exactly for a body that fails validation; for a
    body that passes, 503 with the fixed detail exactly when no model is
    loaded, and otherwise either 200 with a response or 500 with a detail
    that starts with the fixed prefix.  No other status is produced. *)
Theorem summarize_status_codes env b w :
  match fst (handle env (POST_summarize b) w) with
  | Resp422 errs => validate b = Raise errs
  | RespError st d =>
      (exists request, validate b = Ok request)
      /\ ((st = 503 /\ summarizer w = None /\ d = detail unavailable)
          \/ (st = 500 /\ summarizer w <> None
              /\ exists cause,
                   d = PyStr.lit "Ошибка при обработке текста: " ++ cause))
  | Resp200 body =>
      (exists request, validate b = Ok request)
      /\ summarizer w <> None
      /\ exists resp, body = SummaryOf resp
  end.
Proof.
  unfold handle, serve.
  destruct (validate b) as [request|errs]; [|reflexivity].
  destruct (summarizer w) as [p|] eqn:Hs.
  - pose proof (summarize_ready_status env request w p) as Hst.
    destruct (summarize env request w) as [[resp|err] w'] eqn:Hrun;
      cbv beta iota delta [fst].
    + split; [eauto|]. split; [discriminate|eauto].
    + split; [eauto|]. right.
      specialize (Hst err Hs eq_refl).
      split; [exact Hst|]. split; [discriminate|].
      revert Hrun. destruct w as [sm hd tk ev]. revert Hs. run_monad.
      intros ->. unfold summarize. run_monad.
      destruct (floordiv (max_length request) 3) as [words|e];
        cbv beta iota; [|intros [= <- _]; eexists; reflexivity].
      destruct (pipeline_call p hd (text request) (Z.min 100 words) 20
                  false) as [[res|e] h]; cbv beta iota;
        [|intros [= <- _]; eexists; reflexivity].
      destruct (getitem_list res 0); cbv beta iota;
        [|intros [= <- _]; eexists; reflexivity].
      destruct (getitem_dict _ _) as [sum|e]; cbv beta iota;
        [|intros [= <- _]; eexists; reflexivity].
      destruct (truediv _ _); cbv beta iota;
        [discriminate|intros [= <- _]; eexists; reflexivity].
  - rewrite (summarize_unloaded env request w Hs).
    cbv beta iota delta [fst]. split; [eauto|]. left. auto.
Qed.

(** X5. For a request that passed validation with an integer [max_length],
    handled with a model loaded, [summarize] returns a response with
    summary [s] exactly when the model call returns a list whose first
    element maps ["summary_text"] to [s]; further elements of the list and
    further keys of the first element play no part. *)
Theorem summarize_succeeds_iff env b request w p m s :
  validate b = Ok request ->
  summarizer w = Some p ->
  max_length request = Some m ->
  (exists resp, fst (summarize env request w) = Ok resp /\ summary resp = s)
  <-> (exists res h first,
         pipeline_call p (hidden w) (text request) (generation_ceiling m)
           20 false = (Ok res, h)
         /\ res !! O = Some first
         /\ first !! PyStr.lit "summary_text" = Some s).
Proof.
  intros Hv Hs Hm. destruct (validate_ok b request Hv) as (_ & Hlen & _).
  split.
  - intros (resp & Hok & Hsum).
    destruct (summarize env request w) as [r w'] eqn:Hrun.
    cbv beta iota delta [fst] in Hok. subst r.
    destruct (summarize_ok_inv env request w resp w' Hrun)
      as (p' & m' & res & h & first & Hs' & Hm' & Hp & H0 & Hk & _).
    assert (p' = p) by congruence. assert (m' = m) by congruence.
    subst p' m' s. exists res, h, first. auto.
  - intros (res & h & first & Hp & H0 & Hk).
    assert (Hlt : PyStr.len (text request) < 2 ^ 64).
    { assert (5000 < 2 ^ 64) by reflexivity. lia. }
    rewrite (summarize_model_returns env request w p m res h first s
               Hs Hm Hlt Hp H0 Hk).
    eexists. split; reflexivity.
Qed.

Lemma summarize_succeeds_iff_witness :
  (exists resp,
      fst (summarize Sample.env (Sample.request Sample.news 100)
             (Sample.loaded Cases.two_candidates)) = Ok resp
      /\ summary resp = take 33 Sample.news)
  <-> (exists res h first,
         pipeline_call Cases.two_candidates
           (hidden (Sample.loaded Cases.two_candidates))
           (text (Sample.request Sample.news 100))
           (generation_ceiling 100) 20 false = (Ok res, h)
         /\ res !! O = Some first
         /\ first !! PyStr.lit "summary_text" = Some (take 33 Sample.news)).
Proof.
  assert (Hv : validate (Sample.body Sample.news (IntValue 100))
               = Ok (Sample.request Sample.news 100))
    by (vm_compute; reflexivity).
  exact (summarize_succeeds_iff Sample.env
           (Sample.body Sample.news (IntValue 100))
           (Sample.request Sample.news 100)
           (Sample.loaded Cases.two_candidates) Cases.two_candidates 100
           (take 33 Sample.news) Hv eq_refl eq_refl).
Defined.

(** X6. [health_check] returns in every state, takes one clock reading,
    and changes neither the global nor the trace; it reports
    [model_loaded] true, and status "healthy", exactly when the engine is
    Ready, and status "unhealthy" otherwise. *)
Theorem health_reports_engine_state env s :
  exists body,
    health_check env (world s) = (Ok body, tick (world s))
    /\ summarizer (tick (world s)) = summarizer (world s)
    /\ events (tick (world s)) = events (world s)
    /\ (health_model_loaded body = true <-> engine_state s = Ready)
    /\ (health_status body = PyStr.lit "healthy" <-> engine_state s = Ready)
    /\ (health_status body = PyStr.lit "unhealthy"
        <-> engine_state s <> Ready).
Proof.
  eexists. split; [apply health_check_eq|].
  split; [destruct (world s); reflexivity|].
  split; [destruct (world s); reflexivity|].
  cbv beta iota delta [health_model_loaded health_status].
  assert (Hne : PyStr.lit "healthy" <> PyStr.lit "unhealthy")
    by (vm_compute; discriminate).
  unfold engine_state.
  destruct (summarizer (world s)) as [p|].
  - rewrite bool_decide_eq_true_2 by eauto.
    split; [tauto|]. split; [tauto|].
    split; [intros H; exfalso; auto|intros H; exfalso; auto].
  - rewrite bool_decide_eq_false_2 by (intros [? ?]; discriminate).
    assert (Hnr : (if started s then Failed else Loading) <> Ready)
      by (destruct (started s); discriminate).
    split; [split; [discriminate|intros H; exfalso; auto]|].
    split; [split; [intros H; exfalso; auto|intros H; exfalso; auto]|].
    tauto.
Qed.

(* ===================================================================== *)
(*  The range of the compression ratio                                    *)
(* ===================================================================== *)

Lemma Zdigits2_gt m : 0 <= m -> m < 2 ^ Zdigits2 m.
Proof.
  intros Hm. destruct m as [|p|p]; [reflexivity| |lia].
  cbn [Zdigits2]. rewrite digits2_pos_size.
  pose proof (Pos.size_gt p) as H.
  rewrite <- Pos2Z.inj_pow. lia.
Qed.

Lemma binary_round_aux_bound sx mx ex lx k B :
  0 <= mx < 2 ^ k -> 0 <= k -> ex <= 971 -> k + ex + 1 <= B ->
  -1073 <= B <= 1024 ->
  rounded_to sx B (binary_round_aux 53 1024 sx mx ex lx).
Proof.
  intros [Hm0 Hmk] Hk Hex HB HB2.
  unfold binary_round_aux.
  destruct (shr_fexp 53 1024 mx ex lx) as [mrs1 e1] eqn:H1.
  set (m1 := round_nearest_even (shr_m mrs1) (loc_of_shr_record mrs1)).
  destruct (shr_fexp 53 1024 m1 e1 loc_Exact) as [mrs2 e2] eqn:H2.
  assert (Hd : 0 <= Zdigits2 mx <= k) by (apply Zdigits2_bound; lia).
  assert (Hs1 : ex <= e1 /\ e1 + 1 <= B /\ e1 <= 971 /\ 0 <= shr_m mrs1
                /\ 2 ^ (e1 - ex) * shr_m mrs1 <= mx).
  { unfold shr_fexp, shr in H1.
    assert (Hf : fexp 53 1024 (Zdigits2 mx + ex) + 1 <= B
                 /\ fexp 53 1024 (Zdigits2 mx + ex) <= 971)
      by (unfold fexp, emin; lia).
    destruct (fexp 53 1024 (Zdigits2 mx + ex) - ex) as [|p|p] eqn:Hn;
      inversion H1; subst; clear H1.
    - replace (e1 - e1) with 0 by lia. destruct lx as [|[| |]]; simpl; lia.
    - pose proof (iter_shr_1_bound p (shr_record_of_loc mx lx)) as Hb.
      assert (Hr : shr_m (shr_record_of_loc mx lx) = mx)
        by (destruct lx as [|[| |]]; reflexivity).
      rewrite Hr in Hb. destruct (Hb Hm0) as [Hb1 Hb2].
      replace (ex + Z.pos p - ex) with (Z.pos p) by lia. lia.
    - replace (e1 - e1) with 0 by lia. destruct lx as [|[| |]]; simpl; lia. }
  destruct Hs1 as (He1 & He1B & He1m & Hr0 & Hr1).
  assert (Hm1 : 0 <= m1 <= shr_m mrs1 + 1)
    by (apply round_nearest_even_bound; assumption).
  assert (Hd1 : 0 <= Zdigits2 m1 /\ Zdigits2 m1 + e1 <= B).
  { set (j := e1 - ex) in *. assert (0 <= j) by (unfold j; lia).
    assert (Hp : 0 < 2 ^ j) by (apply Z.pow_pos_nonneg; lia).
    destruct (Z.le_gt_cases j k) as [Hjk|Hjk].
    - assert (Hk2 : 2 ^ k = 2 ^ j * 2 ^ (k - j))
        by (rewrite <- Z.pow_add_r by lia; f_equal; lia).
      assert (shr_m mrs1 < 2 ^ (k - j)) by nia.
      assert (Hlt : m1 < 2 ^ (k - j + 1)).
      { rewrite Z.pow_add_r by lia. change (2 ^ 1) with 2.
        assert (0 < 2 ^ (k - j)) by (apply Z.pow_pos_nonneg; lia). lia. }
      assert (0 <= Zdigits2 m1 <= k - j + 1) by (apply Zdigits2_bound; lia).
      unfold j in *. lia.
    - assert (2 ^ k < 2 ^ j) by (apply Z.pow_lt_mono_r; lia).
      assert (shr_m mrs1 = 0) by nia.
      assert (0 <= Zdigits2 m1 <= 1).
      { apply Zdigits2_bound; [|lia]. change (2 ^ 1) with 2. lia. }
      lia. }
  destruct Hd1 as [Hd0 Hd1].
  pose proof (Zdigits2_gt m1 (proj1 Hm1)) as Hm1d.
  assert (Hm1B : m1 < 2 ^ (B - e1)).
  { eapply Z.lt_le_trans; [exact Hm1d|]. apply Z.pow_le_mono_r; lia. }
  assert (Hs2 : e2 <= 971 /\ e1 <= e2 /\ 0 <= shr_m mrs2
                /\ 2 ^ (e2 - e1) * shr_m mrs2 <= m1).
  { unfold shr_fexp, shr in H2.
    assert (Hf : fexp 53 1024 (Zdigits2 m1 + e1) <= 971)
      by (unfold fexp, emin; lia).
    destruct (fexp 53 1024 (Zdigits2 m1 + e1) - e1) as [|p|p] eqn:Hn;
      inversion H2; subst; clear H2.
    - replace (e2 - e2) with 0 by lia. simpl. lia.
    - pose proof (iter_shr_1_bound p (Build_shr_record m1 false false)
                    (proj1 Hm1)) as [Hb1 Hb2].
      change (shr_m (Build_shr_record m1 false false)) with m1 in Hb2.
      replace (e1 + Z.pos p - e1) with (Z.pos p) by lia. lia.
    - replace (e2 - e2) with 0 by lia. simpl. lia. }
  destruct Hs2 as (He2 & He12 & Hm2 & Hm2b).
  destruct (shr_m mrs2) as [|m2|m2] eqn:Hmm; [reflexivity| |lia].
  replace (e2 <=? 1024 - 53) with true by (symmetry; apply Z.leb_le; lia).
  cbn [rounded_to]. split; [reflexivity|]. split; [assumption|].
  set (n := e2 - e1) in *.
  assert (Hpn : 0 < 2 ^ n) by (apply Z.pow_pos_nonneg; lia).
  assert (Hlt : 2 ^ n * Z.pos m2 < 2 ^ (B - e1)) by lia.
  assert (Hn : n < B - e1).
  { destruct (Z.lt_ge_cases n (B - e1)) as [|Hge]; [assumption|exfalso].
    assert (2 ^ (B - e1) <= 2 ^ n) by (apply Z.pow_le_mono_r; lia).
    nia. }
  split; [unfold n in Hn; lia|].
  assert (He : 2 ^ (B - e1) = 2 ^ n * 2 ^ (B - e2)).
  { rewrite <- Z.pow_add_r by (unfold n in *; lia). f_equal. unfold n. lia. }
  rewrite He in Hlt. nia.
Qed.

Lemma quot_rounded a b N :
  0 <= a < 2 ^ N -> 0 <= N <= 1023 -> 1 <= b ->
  rounded_to false (N + 1) (PyFloat.quot a b).
Proof.
  intros [Ha0 Ha] HN Hb. unfold PyFloat.quot, PyFloat.exact.
  destruct b as [|pb|pb]; try lia.
  destruct a as [|pa|pa]; try lia; [reflexivity|].
  unfold SFdiv, PyFloat.prec, PyFloat.emax.
  destruct (SFdiv_core_binary 53 1024 (Z.pos pa) 0 (Z.pos pb) 0)
    as [[mz ez] lz] eqn:Hc.
  unfold SFdiv_core_binary in Hc.
  set (e' := Z.min (fexp 53 1024 (Zdigits2 (Z.pos pa) + 0
                                   - (Zdigits2 (Z.pos pb) + 0))) (0 - 0))
    in *.
  assert (He : e' <= 0) by (unfold e'; lia).
  set (m' := match 0 - 0 - e' with
             | 0 => Z.pos pa | Z.pos _ => Z.shiftl (Z.pos pa) (0 - 0 - e')
             | Z.neg _ => 0 end) in *.
  assert (Hm' : 0 <= m' < 2 ^ (N - e')).
  { unfold m'. destruct (0 - 0 - e') as [|p|p] eqn:Hs; try lia.
    - replace e' with 0 by lia. replace (N - 0) with N by lia. lia.
    - rewrite Z.shiftl_mul_pow2 by lia. rewrite <- Hs.
      replace (N - e') with (N + (0 - 0 - e')) by lia.
      rewrite Z.pow_add_r by lia.
      assert (0 < 2 ^ (0 - 0 - e')) by (apply Z.pow_pos_nonneg; lia). nia. }
  destruct (Z.div_eucl m' (Z.pos pb)) as [q r] eqn:Hqr.
  inversion Hc; subst mz ez lz; clear Hc.
  assert (Hq : q = m' / Z.pos pb) by (unfold Z.div; rewrite Hqr; reflexivity).
  assert (0 <= q <= m').
  { subst q. split; [apply Z.div_pos; lia|].
    apply Z.div_le_upper_bound; nia. }
  apply (binary_round_aux_bound _ _ _ _ (N - e')); lia.
Qed.

Lemma round_half_even_bound n d :
  0 <= n -> 0 < d -> 0 <= PyFloat.round_half_even n d <= n / d + 1.
Proof.
  intros Hn Hd. unfold PyFloat.round_half_even.
  assert (0 <= n / d) by (apply Z.div_pos; lia).
  destruct (2 * (n mod d) ?= d); try destruct (Z.even (n / d)); lia.
Qed.

Lemma round_rounded x nd P B :
  rounded_to false B x -> 0 <= nd -> 10 ^ nd <= 2 ^ P -> 0 <= P ->
  0 <= B -> B + P + 2 <= 1024 ->
  rounded_to false (B + P + 2) (PyFloat.round x nd).
Proof.
  intros Hx Hnd HP HP0 HB0 HB.
  destruct x as [s|s| |s m e]; cbn [rounded_to] in Hx; try contradiction.
  - subst s. reflexivity.
  - destruct Hx as (-> & He & HeB & Hm).
    unfold PyFloat.round.
    set (p10 := 10 ^ nd) in *.
    assert (Hp10 : 0 < p10) by (apply Z.pow_pos_nonneg; lia).
    set (r := if 0 <=? e then Z.pos m * 2 ^ e * p10
              else PyFloat.round_half_even (Z.pos m * p10) (2 ^ (- e))).
    assert (Hr : 0 <= r < 2 ^ (B + P + 1)).
    { assert (H2P : 0 < 2 ^ P) by (apply Z.pow_pos_nonneg; lia).
      assert (HBP : 2 ^ (B + P + 1) = 2 ^ (B + P) * 2)
        by (rewrite Z.pow_add_r by lia; reflexivity).
      assert (HBP2 : 2 ^ (B + P) = 2 ^ B * 2 ^ P)
        by (rewrite Z.pow_add_r by lia; reflexivity).
      assert (0 < 2 ^ B) by (apply Z.pow_pos_nonneg; lia).
      unfold r. destruct (Z.leb_spec 0 e).
      - assert (He2 : 2 ^ B = 2 ^ (B - e) * 2 ^ e)
          by (rewrite <- Z.pow_add_r by lia; f_equal; lia).
        assert (0 < 2 ^ e) by (apply Z.pow_pos_nonneg; lia).
        assert (Z.pos m * 2 ^ e < 2 ^ B) by nia.
        split; [nia|]. nia.
      - assert (Hd : 0 < 2 ^ (- e)) by (apply Z.pow_pos_nonneg; lia).
        pose proof (round_half_even_bound (Z.pos m * p10) (2 ^ (- e))
                      ltac:(nia) Hd) as [Hr0 Hr1].
        split; [assumption|].
        assert (He2 : 2 ^ (B - e) = 2 ^ B * 2 ^ (- e))
          by (rewrite <- Z.pow_add_r by lia; f_equal; lia).
        assert (Hq : Z.pos m * p10 / 2 ^ (- e) < 2 ^ (B + P)).
        { apply Z.div_lt_upper_bound; [assumption|]. nia. }
        lia. }
    destruct r as [|pr|pr] eqn:Hreq; [reflexivity| |lia].
    replace (B + P + 2) with ((B + P + 1) + 1) by lia.
    apply (quot_rounded (Z.pos pr) p10 (B + P + 1)); lia.
Qed.

Lemma rounded_to_finite_nonneg B x :
  rounded_to false B x -> finite_nonneg x = true.
Proof.
  destruct x as [s|s| |s m e]; cbn [rounded_to finite_nonneg];
    try contradiction.
  - intros ->. reflexivity.
  - intros (-> & _). reflexivity.
Qed.

(** X7. In every successful response to a body that passed validation,
    [compression_ratio] is a finite double that is not negative: it is
    never NaN, never infinite, and [0.0 <= compression_ratio] holds,
    however long the summary returned by the model is. *)
Theorem compression_ratio_in_range env b request w resp :
  validate b = Ok request ->
  fst (summarize env request w) = Ok resp ->
  finite_nonneg (compression_ratio resp) = true
  /\ PyFloat.leb (PyFloat.of_int 0) (compression_ratio resp) = true.
Proof.
  intros Hv Hok.
  destruct (validate_ok b request Hv) as (_ & Hlen & _).
  destruct (summarize env request w) as [r w'] eqn:Hrun.
  cbv beta iota delta [fst] in Hok. subst r.
  destruct (summarize_ok_inv env request w resp w' Hrun)
    as (p & m & res & h & first & _ & _ & _ & _ & _ & Hmet & _).
  destruct Hmet as (_ & _ & _ & Hc & _). rewrite Hc.
  assert (Hq : rounded_to false 14
                 (PyFloat.quot (PyStr.len (text request))
                    (Z.max (PyStr.len (summary resp)) 1))).
  { apply (quot_rounded _ _ 13); [|lia|lia].
    assert (5000 < 2 ^ 13) by reflexivity. lia. }
  assert (Hr : rounded_to false (14 + 7 + 2)
                 (PyFloat.round
                    (PyFloat.quot (PyStr.len (text request))
                       (Z.max (PyStr.len (summary resp)) 1)) 2)).
  { apply round_rounded; try lia. exact Hq. }
  pose proof (rounded_to_finite_nonneg _ _ Hr) as Hf.
  split; [exact Hf|].
  destruct (PyFloat.round _ 2) as [[|]|[|]| |[|] mm ee];
    try discriminate; reflexivity.
Qed.

Lemma compression_ratio_in_range_witness :
  exists resp,
    fst (summarize Sample.env (Sample.request Sample.news 100)
           (Sample.loaded Sample.doubling)) = Ok resp
    /\ finite_nonneg (compression_ratio resp) = true
    /\ PyFloat.leb (PyFloat.of_int 0) (compression_ratio resp) = true.
Proof.
  eexists. split; [vm_compute; reflexivity|].
  match goal with
  | |- finite_nonneg (compression_ratio ?r) = _ /\ _ =>
      assert (Hok : fst (summarize Sample.env
                           (Sample.request Sample.news 100)
                           (Sample.loaded Sample.doubling)) = Ok r)
        by (vm_compute; reflexivity);
      assert (Hv : validate (Sample.body Sample.news (IntValue 100))
                   = Ok (Sample.request Sample.news 100))
        by (vm_compute; reflexivity);
      exact (compression_ratio_in_range Sample.env _ _ _ r Hv Hok)
  end.
Defined.

Lemma ratio_of_valid_length n :
  50 <= n <= 5000 ->
  PyFloat.round (PyFloat.quot n 1) 2 = PyFloat.of_int n
  /\ PyFloat.round (PyFloat.quot n n) 2 = PyFloat.of_int 1.
Proof.
  intros Hn.
  assert (Hall :
    forallb (fun k =>
               bool_decide (PyFloat.round (PyFloat.quot k 1) 2
                            = PyFloat.of_int k)
               && bool_decide (PyFloat.round (PyFloat.quot k k) 2
                               = PyFloat.of_int 1))
            (seqZ 50 4951) = true) by (vm_compute; reflexivity).
  rewrite forallb_forall in Hall.
  assert (Hin : In n (seqZ 50 4951))
    by (apply list_elem_of_In, elem_of_seqZ; lia).
  apply Hall in Hin. apply andb_true_iff in Hin as [H1 H2].
  apply bool_decide_eq_true in H1. apply bool_decide_eq_true in H2.
  auto.
Qed.

(** X8. In a successful response to a body that passed validation, a
    summary that is empty or has one character gives
    [compression_ratio = float(original_length)] (the divisor is floored
    at 1, so the empty summary divides by 1), and a summary as long as the
    text gives exactly 1.0. *)
Theorem short_summary_ratio env b request w resp :
  validate b = Ok request ->
  fst (summarize env request w) = Ok resp ->
  (summary_length resp <= 1 ->
   compression_ratio resp = PyFloat.of_int (original_length resp))
  /\ (summary_length resp = original_length resp ->
      compression_ratio resp = PyFloat.of_int 1).
Proof.
  intros Hv Hok.
  destruct (validate_ok b request Hv) as (_ & Hlen & _).
  destruct (summarize env request w) as [r w'] eqn:Hrun.
  cbv beta iota delta [fst] in Hok. subst r.
  destruct (summarize_ok_inv env request w resp w' Hrun)
    as (p & m & res & h & first & _ & _ & _ & _ & _ & Hmet & _).
  destruct Hmet as (_ & Ho & Hl & Hc & _). rewrite Hc, Ho, Hl.
  destruct (ratio_of_valid_length (PyStr.len (text request)) Hlen)
    as [H1 H2].
  split; intros Hs.
  - pose proof (len_nonneg (summary resp)).
    replace (Z.max (PyStr.len (summary resp)) 1) with 1 by lia.
    exact H1.
  - rewrite Hs.
    replace (Z.max (PyStr.len (text request)) 1)
      with (PyStr.len (text request)) by lia.
    exact H2.
Qed.

Lemma short_summary_ratio_witness :
  exists resp,
    fst (summarize Sample.env (Sample.request Sample.news 100)
           (Sample.loaded Sample.silent)) = Ok resp
    /\ (summary_length resp <= 1 ->
        compression_ratio resp = PyFloat.of_int (original_length resp))
    /\ (summary_length resp = original_length resp ->
        compression_ratio resp = PyFloat.of_int 1)
    /\ summary_length resp = 0
    /\ compression_ratio resp = PyFloat.of_int 62.
Proof.
  eexists. split; [vm_compute; reflexivity|].
  match goal with
  | |- (summary_length ?r <= 1 -> _) /\ _ =>
      assert (Hok : fst (summarize Sample.env
                           (Sample.request Sample.news 100)
                           (Sample.loaded Sample.silent)) = Ok r)
        by (vm_compute; reflexivity);
      assert (Hv : validate (Sample.body Sample.news (IntValue 100))
                   = Ok (Sample.request Sample.news 100))
        by (vm_compute; reflexivity);
      destruct (short_summary_ratio Sample.env _ _ _ r Hv Hok) as [H1 H2]
  end.
  split; [exact H1|]. split; [exact H2|].
  split; [vm_compute; reflexivity|].
  rewrite H1; vm_compute; [reflexivity|discriminate].
Defined.

(* ===================================================================== *)
(*  The OpenAPI schema                                                    *)
(* ===================================================================== *)

Lemma dict_truthy_insert (k : pystr) (v : Json) (d : gmap pystr Json) :
  dict_truthy (<[k := v]> d) = true.
Proof.
  unfold dict_truthy.
  destruct (map_to_list (<[k := v]> d)) as [|x l] eqn:Hl; [|reflexivity].
  apply map_to_list_empty_iff in Hl.
  exfalso. exact (insert_non_empty d k v Hl).
Qed.

Lemma dict_truthy_empty : dict_truthy ∅ = false.
Proof. unfold dict_truthy. rewrite map_to_list_empty. reflexivity. Qed.

Lemma info_keys_differ :
  PyStr.lit "contact" <> PyStr.lit "license".
Proof. vm_compute. discriminate. Qed.

Section OpenAPIFacts.

Variable get_openapi :
  pystr -> pystr -> pystr -> list pystr -> result PyExc (gmap pystr Json).

(** The outcome of [custom_openapi] when the schema has to be built and
    the generator returns a schema with an ["info"] dict. *)
Lemma custom_openapi_builds app base info :
  (forall d, openapi_schema app = Some d -> dict_truthy d = false) ->
  get_openapi app_title app_version app_description (routes app) = Ok base ->
  base !! PyStr.lit "info" = Some (JObj info) ->
  let schema :=
    <[PyStr.lit "info" :=
        JObj (<[PyStr.lit "license" := license]>
              (<[PyStr.lit "contact" := contact]> info))]>
      (<[PyStr.lit "info" := JObj (<[PyStr.lit "contact" := contact]> info)]>
         base) in
  custom_openapi get_openapi app
  = (Ok schema,
     {| routes := routes app; openapi_schema := Some schema;
        generated := S (generated app) |}).
Proof.
  intros Hc Hg Hi schema. unfold custom_openapi.
  assert (Hcached :
    match openapi_schema app with
    | Some d => if dict_truthy d then Some d else None
    | None => None
    end = None).
  { destruct (openapi_schema app) as [d|]; [|reflexivity].
    rewrite (Hc d eq_refl). reflexivity. }
  rewrite Hcached, Hg. unfold setitem2. rewrite Hi.
  cbv beta iota delta [setitem]. rewrite lookup_insert_eq.
  reflexivity.
Qed.

End OpenAPIFacts.

(** X9. When no schema is cached and the generator returns a schema whose
    ["info"] entry is a dict, [custom_openapi] returns and caches that
    schema with ["info"]["contact"] and ["info"]["license"] set to the
    fixed contact and licence (replacing what the generator put there);
    every other entry of ["info"] and every other top-level entry is the
    generator's. *)
Theorem custom_openapi_adds_contact_and_license get_openapi app base info :
  (forall d, openapi_schema app = Some d -> dict_truthy d = false) ->
  get_openapi app_title app_version app_description (routes app) = Ok base ->
  base !! PyStr.lit "info" = Some (JObj info) ->
  exists schema info',
    custom_openapi get_openapi app
    = (Ok schema,
       {| routes := routes app; openapi_schema := Some schema;
          generated := S (generated app) |})
    /\ (forall k, k <> PyStr.lit "info" -> schema !! k = base !! k)
    /\ schema !! PyStr.lit "info" = Some (JObj info')
    /\ info' !! PyStr.lit "contact" = Some contact
    /\ info' !! PyStr.lit "license" = Some license
    /\ (forall k, k <> PyStr.lit "contact" -> k <> PyStr.lit "license" ->
        info' !! k = info !! k).
Proof.
  intros Hc Hg Hi.
  eexists. eexists.
  split; [apply (custom_openapi_builds get_openapi app base info Hc Hg Hi)|].
  split; [|split; [|split; [|split]]].
  - intros k Hk. rewrite !lookup_insert_ne by congruence. reflexivity.
  - rewrite lookup_insert_eq. reflexivity.
  - rewrite lookup_insert_ne by (apply not_eq_sym, info_keys_differ).
    apply lookup_insert_eq.
  - apply lookup_insert_eq.
  - intros k H1 H2. rewrite !lookup_insert_ne by congruence. reflexivity.
Qed.

(** X10. After a call of [custom_openapi] that returned a schema, that
    schema is cached and is not empty, and every later call returns it
    without calling the generator and without changing the application,
    whatever the routes and whatever the generator would return then. *)
Theorem custom_openapi_cached get_openapi get_openapi' app schema app1 :
  custom_openapi get_openapi app = (Ok schema, app1) ->
  openapi_schema app1 = Some schema
  /\ dict_truthy schema = true
  /\ forall app2,
       openapi_schema app2 = Some schema ->
       custom_openapi get_openapi' app2 = (Ok schema, app2).
Proof.
  intros Hrun.
  assert (H : openapi_schema app1 = Some schema
              /\ dict_truthy schema = true).
  { revert Hrun. unfold custom_openapi.
    destruct (openapi_schema app) as [d|] eqn:Hd.
    - destruct (dict_truthy d) eqn:Ht.
      + intros [= <- <-]. auto.
      + destruct (get_openapi _ _ _ _) as [s0|e]; [|discriminate].
        destruct (setitem2 s0 _ _ _) as [s1|e]; [|discriminate].
        unfold setitem2.
        destruct (s1 !! PyStr.lit "info") as [inner|]; [|discriminate].
        destruct (setitem inner _ _) as [inner'|e]; [|discriminate].
        intros [= <- <-]. split; [reflexivity|apply dict_truthy_insert].
    - destruct (get_openapi _ _ _ _) as [s0|e]; [|discriminate].
      destruct (setitem2 s0 _ _ _) as [s1|e]; [|discriminate].
      unfold setitem2.
      destruct (s1 !! PyStr.lit "info") as [inner|]; [|discriminate].
      destruct (setitem inner _ _) as [inner'|e]; [|discriminate].
      intros [= <- <-]. split; [reflexivity|apply dict_truthy_insert]. }
  destruct H as [H1 H2]. split; [exact H1|split; [exact H2|]].
  intros app2 H3. unfold custom_openapi. rewrite H3, H2. reflexivity.
Qed.

(** X11. A call of [custom_openapi] that raises leaves the cached schema
    and the routes as they were, after exactly one call of the generator,
    so the next call builds the schema again; this is what happens when
    the generator raises, and when its schema has no ["info"] entry (the
    [KeyError] of that key). *)
Theorem custom_openapi_failure_not_cached get_openapi app :
  (forall e app1,
      custom_openapi get_openapi app = (Raise e, app1) ->
      openapi_schema app1 = openapi_schema app
      /\ routes app1 = routes app
      /\ generated app1 = S (generated app))
  /\ ((forall d, openapi_schema app = Some d -> dict_truthy d = false) ->
      (forall e,
          get_openapi app_title app_version app_description (routes app)
          = Raise e ->
          fst (custom_openapi get_openapi app) = Raise e)
      /\ (forall base,
            get_openapi app_title app_version app_description (routes app)
            = Ok base ->
            base !! PyStr.lit "info" = None ->
            fst (custom_openapi get_openapi app)
            = Raise (PyStr.lit "'info'"))).
Proof.
  split.
  - intros e app1. unfold custom_openapi.
    destruct (match openapi_schema app with
              | Some d => if dict_truthy d then Some d else None
              | None => None
              end) as [d|]; [discriminate|].
    destruct (get_openapi _ _ _ _) as [s0|e0];
      [|intros [= _ <-]; auto].
    destruct (setitem2 s0 _ _ _) as [s1|e1]; [|intros [= _ <-]; auto].
    destruct (setitem2 s1 _ _ _) as [s2|e2];
      [discriminate|intros [= _ <-]; auto].
  - intros Hc.
    assert (Hcached :
      match openapi_schema app with
      | Some d => if dict_truthy d then Some d else None
      | None => None
      end = None).
    { destruct (openapi_schema app) as [d|]; [|reflexivity].
      rewrite (Hc d eq_refl). reflexivity. }
    split.
    + intros e Hg. unfold custom_openapi. rewrite Hcached, Hg. reflexivity.
    + intros base Hg Hi. unfold custom_openapi. rewrite Hcached, Hg.
      unfold setitem2. rewrite Hi. reflexivity.
Qed.

Lemma fresh_not_cached :
  forall d, openapi_schema Docs.fresh = Some d -> dict_truthy d = false.
Proof. intros d H. discriminate H. Qed.

Lemma custom_openapi_adds_contact_and_license_witness :
  exists schema info',
    custom_openapi Docs.generator Docs.fresh
    = (Ok schema,
       {| routes := routes Docs.fresh; openapi_schema := Some schema;
          generated := S (generated Docs.fresh) |})
    /\ (forall k, k <> PyStr.lit "info" -> schema !! k = Docs.base !! k)
    /\ schema !! PyStr.lit "info" = Some (JObj info')
    /\ info' !! PyStr.lit "contact" = Some contact
    /\ info' !! PyStr.lit "license" = Some license
    /\ (forall k, k <> PyStr.lit "contact" -> k <> PyStr.lit "license" ->
        info' !! k
        = Docs.info app_title app_version app_description !! k).
Proof.
  assert (Hi : Docs.base !! PyStr.lit "info"
               = Some (JObj (Docs.info app_title app_version
                               app_description)))
    by (vm_compute; reflexivity).
  exact (custom_openapi_adds_contact_and_license Docs.generator Docs.fresh
           Docs.base (Docs.info app_title app_version app_description)
           fresh_not_cached eq_refl Hi).
Defined.

Lemma custom_openapi_cached_witness :
  openapi_schema Docs.served = Some Docs.schema
  /\ dict_truthy Docs.schema = true
  /\ forall app2,
       openapi_schema app2 = Some Docs.schema ->
       custom_openapi Docs.failing app2 = (Ok Docs.schema, app2).
Proof.
  assert (Hi : Docs.base !! PyStr.lit "info"
               = Some (JObj (Docs.info app_title app_version
                               app_description)))
    by (vm_compute; reflexivity).
  exact (custom_openapi_cached Docs.generator Docs.failing Docs.fresh
           Docs.schema Docs.served
           (custom_openapi_builds Docs.generator Docs.fresh Docs.base
              (Docs.info app_title app_version app_description)
              fresh_not_cached eq_refl Hi)).
Defined.

Lemma custom_openapi_failure_not_cached_witness :
  fst (custom_openapi Docs.failing Docs.fresh)
  = Raise (PyStr.lit "Invalid args for response field")
  /\ fst (custom_openapi Docs.bare Docs.fresh) = Raise (PyStr.lit "'info'")
  /\ openapi_schema (snd (custom_openapi Docs.bare Docs.fresh))
     = openapi_schema Docs.fresh.
Proof.
  split; [|split].
  - exact (proj1 (proj2 (custom_openapi_failure_not_cached Docs.failing
                           Docs.fresh) fresh_not_cached)
             (PyStr.lit "Invalid args for response field") eq_refl).
  - assert (Hi : (<[PyStr.lit "openapi" := JStr (PyStr.lit "3.1.0")]> ∅
                    : gmap pystr Json) !! PyStr.lit "info" = None)
      by (vm_compute; reflexivity).
    exact (proj2 (proj2 (custom_openapi_failure_not_cached Docs.bare
                           Docs.fresh) fresh_not_cached)
             _ eq_refl Hi).
  - assert (Hrun : custom_openapi Docs.bare Docs.fresh
                   = (Raise (PyStr.lit "'info'"),
                      snd (custom_openapi Docs.bare Docs.fresh)))
      by (vm_compute; reflexivity).
    exact (proj1 (proj1 (custom_openapi_failure_not_cached Docs.bare
                           Docs.fresh) _ _ Hrun)).
Defined.

(* ===================================================================== *)
(*  The client                                                            *)
(* ===================================================================== *)

Section ClientFacts.

Import Client.

Lemma sent_app l1 l2 : sent (l1 ++ l2) = sent l1 ++ sent l2.
Proof. unfold sent. apply List.filter_app. Qed.

Lemma sent_within c l : sent (within c l) = sent l.
Proof.
  unfold sent, within. induction l as [|eff l IH]; [reflexivity|].
  rewrite fmap_cons. cbn [List.filter]. rewrite IH.
  destruct eff; reflexivity.
Qed.

Lemma sent_show_result result : sent (show_result result) = [].
Proof.
  unfold show_result. rewrite sent_app.
  destruct (int_truediv_float 100 (compression_ratio result));
    reflexivity.
Qed.

Lemma sent_check_connection net url :
  sent (check_connection net url) = [HttpGet (url ++ PyStr.lit "/health") 5].
Proof.
  unfold check_connection.
  destruct (requests_get net (url ++ PyStr.lit "/health") 5)
    as [response|e].
  - destruct (http_status response =? 200).
    + destruct (http_json response); reflexivity.
    + reflexivity.
  - destruct (is_connection_error e); reflexivity.
Qed.

Lemma sent_perform_summarization net url text m :
  sent (perform_summarization net url text m)
  = [HttpPost (url ++ PyStr.lit "/summarize") (payload_of text m) 30].
Proof.
  unfold perform_summarization. cbv zeta. fold (payload_of text m).
  change (sent (?x :: ?l)) with (x :: sent l).
  rewrite sent_within. f_equal.
  destruct (requests_post net (url ++ PyStr.lit "/summarize")
              (payload_of text m) 30) as [response|e].
  - destruct (http_status response =? 200).
    + destruct (http_json response); [apply sent_show_result|reflexivity].
    + destruct (http_status response =? 503); reflexivity.
  - destruct (is_timeout e); reflexivity.
Qed.

End ClientFacts.

(** X12. The HTTP requests of one run of [main] are: a GET of
    [api_url/health] with timeout 5 exactly when the check button was
    clicked, followed by a POST of [api_url/summarize] with timeout 30,
    carrying the text and the slider value, exactly when the summarize
    button was clicked and the text has at least 50 characters.  A shorter
    or empty text sends no POST. *)
Theorem main_requests net i :
  Client.sent (Client.main net i)
  = (if Client.check_clicked i
     then [Client.HttpGet (Client.api_url i ++ PyStr.lit "/health") 5]
     else [])
    ++ (if Client.summarize_clicked i && (50 <=? PyStr.len (Client.text_input i))
        then [Client.HttpPost (Client.api_url i ++ PyStr.lit "/summarize")
                (Client.payload_of (Client.text_input i)
                   (Client.slider_value i)) 30]
        else []).
Proof.
  unfold Client.main. rewrite !sent_app, sent_within, sent_app.
  change (Client.sent [?a; ?b; ?c; ?d]) with (@nil Client.Effect).
  change (Client.sent [?a; ?b]) with (@nil Client.Effect).
  change (Client.sent [?a]) with (@nil Client.Effect).
  assert (Hstats :
    Client.sent
      match Client.text_input i with
      | [] => []
      | _ :: _ =>
          [Client.Show [Client.Column 3 0]
             (Client.Metric (PyStr.lit "Символов")
                (Client.MInt (PyStr.len (Client.text_input i))));
           Client.Show [Client.Column 3 1]
             (Client.Metric (PyStr.lit "Слов")
                (Client.MInt
                   (Z.of_nat
                      (Client.count_words false (Client.text_input i)))));
           Client.Show [Client.Column 3 2]
             (Client.Metric (PyStr.lit "Предложений")
                (Client.MInt
                   (Z.of_nat (Client.count_char 46 (Client.text_input i))
                    + Z.of_nat (Client.count_char 33 (Client.text_input i))
                    + Z.of_nat
                        (Client.count_char 63 (Client.text_input i)))))]
      end = []) by (destruct (Client.text_input i); reflexivity).
  rewrite Hstats. rewrite !app_nil_l.
  f_equal.
  - destruct (Client.check_clicked i);
      [apply sent_check_connection|reflexivity].
  - destruct (Client.summarize_clicked i); [|reflexivity].
    cbn [andb].
    destruct (Client.text_input i) as [|c r] eqn:Ht; [reflexivity|].
    destruct (Z.ltb_spec (PyStr.len (c :: r)) 50),
             (Z.leb_spec 50 (PyStr.len (c :: r))); try lia.
    + reflexivity.
    + apply sent_perform_summarization.
Qed.

(** X13. For every position of the client's slider and every text of at
    least 50 characters (the texts the client sends), the server's
    validation accepts the payload when the text has at most 5000
    characters and rejects it, for the text only, when it is longer: the
    client cannot send a [max_length] that the server refuses.  The
    generation ceiling that results is [max_length // 3], and it is below
    the minimum generation length 20 exactly at the lowest position,
    50. *)
Theorem client_payload_validation t v :
  Client.slider_position v ->
  50 <= PyStr.len t ->
  (PyStr.len t <= 5000 ->
   validate (Client.payload_of t v) = Ok {| text := t; max_length := Some v |})
  /\ (5000 < PyStr.len t ->
      validate (Client.payload_of t v) = Raise [PyStr.lit "text"])
  /\ generation_ceiling v = v / 3
  /\ (generation_ceiling v < 20 <-> v = 50).
Proof.
  intros [Hv Hstep] Ht.
  unfold validate, Client.payload_of, validate_text, validate_max_length.
  cbv beta iota delta [body_text body_max_length].
  destruct (Z.leb_spec 30 v); [|lia].
  destruct (Z.leb_spec v 300); [|lia].
  destruct (Z.leb_spec 50 (PyStr.len t)); [|lia].
  cbv beta iota delta [andb].
  split; [|split; [|split]].
  - intros Hle. destruct (Z.leb_spec (PyStr.len t) 5000); [|lia].
    reflexivity.
  - intros Hgt. destruct (Z.leb_spec (PyStr.len t) 5000); [lia|].
    reflexivity.
  - unfold generation_ceiling.
    assert (v / 3 <= 100) by (apply Z.div_le_upper_bound; lia). lia.
  - unfold generation_ceiling.
    assert (v / 3 <= 100) by (apply Z.div_le_upper_bound; lia).
    split.
    + intros Hc. assert (Hq : v / 3 < 20) by lia.
      assert (v < 60).
      { destruct (Z.lt_ge_cases v 60) as [|Hge]; [assumption|exfalso].
        assert (20 <= v / 3) by (apply Z.div_le_lower_bound; lia). lia. }
      assert (Hm : v - 50 = 10 * ((v - 50) / 10) + (v - 50) mod 10)
        by (apply Z.div_mod; lia).
      assert ((v - 50) / 10 = 0) by (apply Z.div_small; lia).
      lia.
    + intros ->. reflexivity.
Qed.

Lemma client_payload_validation_witness :
  (PyStr.len Sample.news <= 5000 ->
   validate (Client.payload_of Sample.news 120)
   = Ok {| text := Sample.news; max_length := Some 120 |})
  /\ (5000 < PyStr.len Sample.news ->
      validate (Client.payload_of Sample.news 120)
      = Raise [PyStr.lit "text"])
  /\ generation_ceiling 120 = 120 / 3
  /\ (generation_ceiling 120 < 20 <-> 120 = 50).
Proof.
  assert (Hs : Client.slider_position 120) by (split; [lia|reflexivity]).
  assert (Ht : 50 <= PyStr.len Sample.news) by (vm_compute; discriminate).
  exact (client_payload_validation Sample.news 120 Hs Ht).
Defined.

Lemma api_error_422 :
  PyStr.lit "Ошибка API: " ++ Client.str_int 422 = PyStr.lit "Ошибка API: 422".
Proof. vm_compute. reflexivity. Qed.

Lemma api_error_500 :
  PyStr.lit "Ошибка API: " ++ Client.str_int 500 = PyStr.lit "Ошибка API: 500".
Proof. vm_compute. reflexivity. Qed.

(** X14. What [perform_summarization] draws when its request reaches the
    server in state [w]: for a payload that fails validation, the error
    "Ошибка API: 422" and the first 200 characters of the body; for a valid
    payload with no model loaded, only the model-not-loaded error; with a
    model loaded, the result block of the response when [summarize]
    returns, and the error "Ошибка API: 500" with the first 200 characters
    of the body when it raises. *)
Theorem perform_summarization_against_server env render w url t m :
  let net := Client.served_by env render w in
  let payload := Client.payload_of t m in
  let answer := fst (handle env (POST_summarize payload) w) in
  let spinner :=
    Client.Spinner (PyStr.lit "Выполняется суммаризация текста...") in
  let post := Client.HttpPost (url ++ PyStr.lit "/summarize") payload 30 in
  (forall errs,
      validate payload = Raise errs ->
      Client.perform_summarization net url t m
      = [post;
         Client.Show [spinner] (Client.Error (PyStr.lit "Ошибка API: 422"));
         Client.Show [spinner] (Client.Code (take 200 (render answer)))])
  /\ (forall request,
        validate payload = Ok request ->
        summarizer w = None ->
        Client.perform_summarization net url t m
        = [post;
           Client.Show [spinner]
             (Client.Error (PyStr.lit
                "Модель не загружена. Дождитесь завершения загрузки или проверьте сервер."))])
  /\ (forall request p resp,
        validate payload = Ok request ->
        summarizer w = Some p ->
        fst (summarize env request w) = Ok resp ->
        Client.perform_summarization net url t m
        = post :: Client.within spinner (Client.show_result resp))
  /\ (forall request p e,
        validate payload = Ok request ->
        summarizer w = Some p ->
        fst (summarize env request w) = Raise e ->
        Client.perform_summarization net url t m
        = [post;
           Client.Show [spinner] (Client.Error (PyStr.lit "Ошибка API: 500"));
           Client.Show [spinner] (Client.Code (take 200 (render answer)))]).
Proof.
  intros net payload answer spinner post.
  unfold Client.perform_summarization. cbv zeta.
  fold (Client.payload_of t m). fold payload. fold post. fold spinner.
  unfold net, Client.served_by.
  cbv beta iota delta [Client.requests_post]. fold answer.
  unfold Client.summary_response.
  cbv beta iota delta [Client.http_status Client.http_text
                       Client.http_json].
  split; [|split; [|split]].
  - intros errs Hv.
    assert (Hans : answer = Resp422 errs)
      by (unfold answer, handle; rewrite Hv; reflexivity).
    clearbody answer. subst answer.
    cbv beta iota delta [Client.status_of].
    change (422 =? 200) with false. change (422 =? 503) with false.
    cbv beta iota. rewrite api_error_422. reflexivity.
  - intros request Hv Hs.
    assert (Hans : answer = RespError 503 (detail unavailable)).
    { unfold answer, handle, serve. rewrite Hv.
      rewrite (summarize_unloaded env request w Hs). reflexivity. }
    clearbody answer. subst answer.
    cbv beta iota delta [Client.status_of].
    change (503 =? 200) with false. change (503 =? 503) with true.
    reflexivity.
  - intros request p resp Hv Hs Hok.
    assert (Hans : answer = Resp200 (SummaryOf resp)).
    { unfold answer, handle, serve. rewrite Hv.
      destruct (summarize env request w) as [r w'].
      cbv beta iota delta [fst] in Hok. subst r. reflexivity. }
    clearbody answer. subst answer.
    cbv beta iota delta [Client.status_of].
    change (200 =? 200) with true. reflexivity.
  - intros request p e Hv Hs Hraise.
    pose proof (summarize_ready_status env request w p e Hs Hraise) as Hst.
    assert (Hans : answer = RespError 500 (detail e)).
    { unfold answer, handle, serve. rewrite Hv.
      destruct (summarize env request w) as [r w'].
      cbv beta iota delta [fst] in Hraise. subst r.
      cbv beta iota delta [fst]. rewrite Hst. try reflexivity. }
    clearbody answer. subst answer.
    cbv beta iota delta [Client.status_of].
    change (500 =? 200) with false. change (500 =? 503) with false.
    cbv beta iota. rewrite api_error_500. reflexivity.
Qed.

(** X15. When its request reaches the server, [check_connection] draws
    "API доступен" in every state of the engine, Loading and Failed
    included, followed by "Модель загружена: True" when a model is loaded
    and "Модель загружена: False" when none is. *)
Theorem check_connection_against_server env render w url :
  Client.check_connection (Client.served_by env render w) url
  = [Client.HttpGet (url ++ PyStr.lit "/health") 5;
     Client.Show [] (Client.Success (PyStr.lit "API доступен"));
     Client.Show []
       (Client.Info
          (match summarizer w with
           | Some _ => PyStr.lit "Модель загружена: True"
           | None => PyStr.lit "Модель загружена: False"
           end))].
Proof.
  unfold Client.check_connection, Client.served_by.
  cbv beta iota delta [Client.requests_get].
  unfold handle, serve. rewrite health_check_eq.
  cbv beta iota delta [fst Client.health_response Client.http_status
                       Client.status_of Client.http_json
                       health_model_loaded].
  change (200 =? 200) with true. cbv beta iota.
  cbv beta iota delta [Client.model_loaded default from_option id].
  destruct (summarizer w) as [p|].
  - rewrite bool_decide_eq_true_2 by eauto.
    do 3 f_equal.
  - rewrite bool_decide_eq_false_2 by (intros [? ?]; discriminate).
    do 3 f_equal.
Qed.

Lemma perform_summarization_against_server_witness :
  Client.perform_summarization
    (Client.served_by Sample.env Demo.render Sample.unloaded)
    Demo.url Sample.news 120
  = [Client.HttpPost (Demo.url ++ PyStr.lit "/summarize")
       (Client.payload_of Sample.news 120) 30;
     Client.Show [Demo.spinner]
       (Client.Error (PyStr.lit
          "Модель не загружена. Дождитесь завершения загрузки или проверьте сервер."))]
  /\ Client.perform_summarization
       (Client.served_by Sample.env Demo.render
          (Sample.loaded Sample.truncating))
       Demo.url Demo.long_text 120
     = [Client.HttpPost (Demo.url ++ PyStr.lit "/summarize")
          (Client.payload_of Demo.long_text 120) 30;
        Client.Show [Demo.spinner]
          (Client.Error (PyStr.lit "Ошибка API: 422"));
        Client.Show [Demo.spinner]
          (Client.Code
             (take 200
                (Demo.render
                   (fst (handle Sample.env
                           (POST_summarize
                              (Client.payload_of Demo.long_text 120))
                           (Sample.loaded Sample.truncating))))))].
Proof.
  assert (Hv : validate (Client.payload_of Sample.news 120)
               = Ok (Sample.request Sample.news 120))
    by (vm_compute; reflexivity).
  assert (Hl : validate (Client.payload_of Demo.long_text 120)
               = Raise [PyStr.lit "text"])
    by (vm_compute; reflexivity).
  pose proof (perform_summarization_against_server Sample.env Demo.render
                Sample.unloaded Demo.url Sample.news 120) as H1.
  pose proof (perform_summarization_against_server Sample.env Demo.render
                (Sample.loaded Sample.truncating) Demo.url Demo.long_text
                120) as H2.
  cbv zeta in H1, H2.
  destruct H1 as (_ & H1 & _). destruct H2 as (H2 & _).
  split.
  - exact (H1 _ Hv eq_refl).
  - exact (H2 _ Hl).
Defined.

Section Pieces.

Import Client.

Lemma split_on_not_nil sep s : split_on sep s <> [].
Proof.
  destruct s as [|c r]; cbn [split_on]; [discriminate|].
  destruct (c =? sep)%N; [discriminate|].
  destruct (split_on sep r); discriminate.
Qed.

(** The pieces of [s.split(sep)] are free of [sep], and joined with [sep]
    they give [s] back. *)
Lemma split_on_join sep s : forall pieces piece,
  split_on sep s = pieces ++ [piece] ->
  s = concat ((fun p => p ++ [sep]) <$> pieces) ++ piece
  /\ (sep ∉ piece).
Proof.
  induction s as [|c r IH]; intros pieces piece Hs; cbn [split_on] in Hs.
  - destruct pieces as [|p [|q pieces]]; try discriminate.
    injection Hs as <-. split; [reflexivity|]. apply not_elem_of_nil.
  - destruct (N.eqb_spec c sep) as [->|Hne].
    + destruct pieces as [|p pieces].
      { exfalso. injection Hs as _ Hs. exact (split_on_not_nil _ _ Hs). }
      injection Hs as <- Hs. destruct (IH _ _ Hs) as [-> Hn].
      split; [reflexivity|assumption].
    + destruct (split_on sep r) as [|first rest] eqn:Hr.
      { exfalso. exact (split_on_not_nil _ _ Hr). }
      destruct pieces as [|p pieces].
      * injection Hs as <- ->.
        destruct (IH [] first eq_refl) as [-> Hn].
        split; [reflexivity|].
        intros Hin. apply elem_of_cons in Hin as [Hin|Hin]; auto.
      * injection Hs as <- ->.
        destruct (IH (first :: pieces) piece eq_refl) as [-> Hn].
        split; [|assumption].
        rewrite !fmap_cons. cbn [concat]. rewrite <- !app_assoc.
        reflexivity.
Qed.

Lemma last_piece_spec sep s :
  exists pre,
    s = pre ++ last_piece (split_on sep s)
    /\ (sep ∉ last_piece (split_on sep s))
    /\ (pre = [] \/ exists pre', pre = pre' ++ [sep]).
Proof.
  destruct (exists_last (split_on_not_nil sep s)) as (pieces & piece & Hs).
  destruct (split_on_join sep s pieces piece Hs) as [Heq Hn].
  unfold last_piece. rewrite Hs, List.last_last.
  exists (concat ((fun p => p ++ [sep]) <$> pieces)).
  split; [exact Heq|split; [exact Hn|]].
  clear Hs Heq. induction pieces as [|p pieces IH] using rev_ind.
  - left. reflexivity.
  - right. rewrite fmap_app, concat_app. cbn [fmap list_fmap concat].
    rewrite app_nil_r, app_assoc. eauto.
Qed.

End Pieces.

(** X16. The model label that the client draws,
    [model_used.split('/')[-1][:10]], is the first 10 characters of what
    follows the last ['/'] of [model_used] (of the whole string when it has
    none): it has at most 10 characters and no ['/'].  For every response
    of the server it is "rut5_base_", the model name cut after 10
    characters. *)
Theorem model_label_is_truncated_tail s :
  let label :=
    take 10 (Client.last_piece (Client.split_on 47 s)) in
  (length label <= 10)%nat
  /\ (47%N ∉ label)
  /\ (exists pre piece,
        s = pre ++ piece /\ (47%N ∉ piece)
        /\ (pre = [] \/ exists pre', pre = pre' ++ [47%N])
        /\ label = take 10 piece)
  /\ (forall env request w resp,
        fst (summarize env request w) = Ok resp ->
        take 10 (Client.last_piece (Client.split_on 47 (model_used resp)))
        = PyStr.lit "rut5_base_").
Proof.
  intros label.
  destruct (last_piece_spec 47 s) as (pre & Heq & Hn & Hpre).
  split; [|split; [|split]].
  - unfold label. rewrite length_take. lia.
  - unfold label. intros Hin. apply Hn.
    rewrite <- (take_drop 10 (Client.last_piece (Client.split_on 47 s))).
    apply elem_of_app. left. exact Hin.
  - exists pre, (Client.last_piece (Client.split_on 47 s)). auto.
  - intros env request w resp Hok.
    destruct (summarize env request w) as [r w'] eqn:Hrun.
    cbv beta iota delta [fst] in Hok. subst r.
    assert (Hm : model_used resp = PyStr.lit "rut5_base_sum_gazeta").
    { revert Hrun. destruct w as [sm hd tk ev]. unfold summarize.
      run_monad.
      destruct sm as [p|]; [|discriminate].
      destruct (floordiv (max_length request) 3) as [words|e];
        cbv beta iota; [|discriminate].
      destruct (pipeline_call p hd (text request) (Z.min 100 words) 20
                  false) as [[res|e] h]; cbv beta iota; [|discriminate].
      destruct (getitem_list res 0); cbv beta iota; [|discriminate].
      destruct (getitem_dict _ _) as [sum|e]; cbv beta iota;
        [|discriminate].
      destruct (truediv _ _); cbv beta iota; [|discriminate].
      intros [= <- _]. reflexivity. }
    rewrite Hm. vm_compute. reflexivity.
Qed.

Lemma show_result_head result :
  Client.show_result result
  = Client.result_head result
    ++ match Client.int_truediv_float 100 (compression_ratio result) with
       | Raise e =>
           [Client.Show []
              (Client.Error (PyStr.lit "Произошла ошибка: " ++ take 100 e))]
       | Ok q =>
           [Client.Show [Client.Column 4 2]
              (Client.Metric (PyStr.lit "Сокращение текста")
                 (Client.MStr
                    (Client.format_f (Client.int_sub_float 100 q) 0
                       ++ PyStr.lit "%")));
            Client.Show [Client.Column 4 3]
              (Client.Metric (PyStr.lit "Использованная модель")
                 (Client.MStr
                    (take 10
                       (Client.last_piece
                          (Client.split_on 47 (model_used result))))));
            Client.Show [Client.Expander (PyStr.lit "Детальная информация")]
              (Client.JsonView result)]
       end.
Proof. reflexivity. Qed.

Lemma division_message_short :
  take 100 Client.float_division_by_zero = Client.float_division_by_zero.
Proof. vm_compute. reflexivity. Qed.

(** X17. When the answer to the POST is 200 and its [compression_ratio]
    is zero, [perform_summarization] draws the summary and the first two
    metrics, then the division [100 / compression_ratio] raises and the run
    ends with the error "Произошла ошибка: " followed by the message of
    the [ZeroDivisionError]; the reduction in percent, the model label and
    the details are not drawn.  When the ratio is not a zero, the result
    block has all nine elements and ends with the details. *)
Theorem zero_ratio_stops_result net url t m response result :
  Client.requests_post net (url ++ PyStr.lit "/summarize")
    (Client.payload_of t m) 30 = Ok response ->
  Client.http_status response = 200 ->
  Client.http_json response = Ok result ->
  ((exists s, compression_ratio result = S754_zero s) ->
   Client.perform_summarization net url t m
   = Client.HttpPost (url ++ PyStr.lit "/summarize")
       (Client.payload_of t m) 30
     :: Client.within
          (Client.Spinner (PyStr.lit "Выполняется суммаризация текста..."))
          (Client.result_head result
             ++ [Client.Show []
                   (Client.Error
                      (PyStr.lit "Произошла ошибка: "
                         ++ Client.float_division_by_zero))]))
  /\ ((forall s, compression_ratio result <> S754_zero s) ->
      length (Client.show_result result) = 9%nat
      /\ List.last (Client.show_result result) (Client.HttpGet [] 0)
         = Client.Show [Client.Expander (PyStr.lit "Детальная информация")]
             (Client.JsonView result)).
Proof.
  intros Hpost Hst Hjson. split.
  - intros [s Hz]. unfold Client.perform_summarization. cbv zeta.
    fold (Client.payload_of t m). rewrite Hpost, Hst, Hjson.
    change (200 =? 200) with true. cbv beta iota.
    rewrite show_result_head, Hz.
    cbv beta iota delta [Client.int_truediv_float].
    rewrite division_message_short. reflexivity.
  - intros Hnz. rewrite show_result_head.
    unfold Client.int_truediv_float.
    destruct (compression_ratio result) as [s|s| |s mm ee] eqn:Hc;
      [exfalso; exact (Hnz s eq_refl)| | |]; split; reflexivity.
Qed.

Lemma zero_ratio_stops_result_witness :
  (Client.perform_summarization
     (Client.served_by Sample.env Demo.render (Sample.loaded Demo.verbose))
     Demo.url Demo.news50 120
   = Client.HttpPost (Demo.url ++ PyStr.lit "/summarize")
       (Client.payload_of Demo.news50 120) 30
     :: Client.within
          (Client.Spinner (PyStr.lit "Выполняется суммаризация текста..."))
          (Client.result_head Demo.verbose_result
             ++ [Client.Show []
                   (Client.Error
                      (PyStr.lit "Произошла ошибка: "
                         ++ Client.float_division_by_zero))]))
  /\ original_length Demo.verbose_result = 50
  /\ summary_length Demo.verbose_result = 10050
  /\ compression_ratio Demo.verbose_result = S754_zero false.
Proof.
  assert (H1 : Client.requests_post
                 (Client.served_by Sample.env Demo.render
                    (Sample.loaded Demo.verbose))
                 (Demo.url ++ PyStr.lit "/summarize")
                 (Client.payload_of Demo.news50 120) 30
               = Ok (Client.summary_response Demo.render
                       (fst (handle Sample.env
                               (POST_summarize
                                  (Client.payload_of Demo.news50 120))
                               (Sample.loaded Demo.verbose)))))
    by reflexivity.
  assert (H2 : Client.http_status
                 (Client.summary_response Demo.render
                    (fst (handle Sample.env
                            (POST_summarize
                               (Client.payload_of Demo.news50 120))
                            (Sample.loaded Demo.verbose)))) = 200)
    by (vm_compute; reflexivity).
  assert (H3 : Client.http_json
                 (Client.summary_response Demo.render
                    (fst (handle Sample.env
                            (POST_summarize
                               (Client.payload_of Demo.news50 120))
                            (Sample.loaded Demo.verbose))))
               = Ok Demo.verbose_result)
    by (vm_compute; reflexivity).
  destruct (zero_ratio_stops_result _ Demo.url Demo.news50 120 _ _
              H1 H2 H3) as [Ha Hb].
  assert (Hz : compression_ratio Demo.verbose_result = S754_zero false)
    by (vm_compute; reflexivity).
  split; [exact (Ha (ex_intro _ false Hz))|].
  split; [vm_compute; reflexivity|].
  split; [vm_compute; reflexivity|exact Hz].
Defined.

Section Statistics.

Import Client.

Lemma count_words_bound s : forall inside,
  (2 * count_words inside s <= length s + (if inside then 0 else 1))%nat.
Proof.
  induction s as [|c r IH]; intros inside; cbn [count_words length].
  - destruct inside; lia.
  - destruct (isspace c).
    + specialize (IH false). cbv beta iota in IH. destruct inside; lia.
    + specialize (IH true). cbv beta iota in IH. destruct inside; lia.
Qed.

Lemma count_words_zero s :
  count_words false s = O <-> forallb isspace s = true.
Proof.
  induction s as [|c r IH]; cbn [count_words forallb]; [tauto|].
  destruct (isspace c); cbn [andb]; [exact IH|].
  split; discriminate.
Qed.

Lemma count_marks_bound s : (count_marks s <= length s)%nat.
Proof.
  unfold count_marks, count_char.
  induction s as [|c r IH]; [reflexivity|].
  rewrite !(filter_cons _ c r).
  unfold PyStr.t, PyStr.codepoint in *.
  repeat case_decide; subst; try discriminate; cbn [length]; lia.
Qed.

End Statistics.

(** X18. The statistics that [main] draws for a text that is not empty:
    the number of words is at most half the number of characters, rounded
    up, and it is zero exactly when every character is white space; the
    number of sentences (the marks [.], [!] and [?]) is at most the number
    of characters.  For an empty text no statistics are drawn. *)
Theorem text_statistics net i :
  let t := Client.text_input i in
  let words := Client.count_words false t in
  let sentences := Client.count_marks t in
  (2 * words <= length t + 1)%nat
  /\ (words = O <-> forallb Client.isspace t = true)
  /\ (sentences <= length t)%nat
  /\ (t <> [] ->
      Client.Show [Client.Column 3 0]
        (Client.Metric (PyStr.lit "Символов") (Client.MInt (PyStr.len t)))
        ∈ Client.main net i
      /\ Client.Show [Client.Column 3 1]
           (Client.Metric (PyStr.lit "Слов")
              (Client.MInt (Z.of_nat words)))
           ∈ Client.main net i
      /\ Client.Show [Client.Column 3 2]
           (Client.Metric (PyStr.lit "Предложений")
              (Client.MInt (Z.of_nat sentences)))
           ∈ Client.main net i)
  /\ (t = [] ->
      forall label value path,
        Client.Show path (Client.Metric label value) ∉ Client.main net i).
Proof.
  intros t words sentences.
  split; [exact (count_words_bound t false)|].
  split; [exact (count_words_zero t)|].
  split; [exact (count_marks_bound t)|].
  split.
  - intros Hne. unfold Client.main. fold t.
    destruct t as [|c r] eqn:Ht; [congruence|]. rewrite <- Ht.
    assert (Hs : Z.of_nat sentences
                 = Z.of_nat (Client.count_char 46 t)
                   + Z.of_nat (Client.count_char 33 t)
                   + Z.of_nat (Client.count_char 63 t)).
    { unfold sentences, Client.count_marks. rewrite Ht. lia. }
    rewrite Hs. unfold words. rewrite Ht.
    split; [|split];
      apply elem_of_app; right; apply elem_of_app; right;
      apply elem_of_app; right; apply elem_of_app; left.
    + apply elem_of_cons. left. reflexivity.
    + apply elem_of_cons. right. apply elem_of_cons. left. reflexivity.
    + apply elem_of_cons. right. apply elem_of_cons. right.
      apply elem_of_cons. left. reflexivity.
  - intros Ht label value path Hin. unfold Client.main in Hin.
    fold t in Hin. rewrite Ht in Hin.
    repeat (apply elem_of_app in Hin as [Hin|Hin]).
    + apply list_elem_of_singleton in Hin. discriminate.
    + unfold Client.within in Hin. apply list_elem_of_fmap in Hin
        as (eff & Heq & Hin).
      apply elem_of_app in Hin as [Hin|Hin].
      * repeat (apply elem_of_cons in Hin as [->|Hin]); try discriminate.
        apply elem_of_nil in Hin. exact Hin.
      * destruct (Client.check_clicked i);
          [|apply elem_of_nil in Hin; exact Hin].
        unfold Client.check_connection in Hin.
        apply elem_of_cons in Hin as [->|Hin]; [discriminate|].
        destruct (Client.requests_get _ _ _) as [response|e].
        -- destruct (Client.http_status response =? 200).
           ++ destruct (Client.http_json response);
                repeat (apply elem_of_cons in Hin as [->|Hin]);
                try discriminate; apply elem_of_nil in Hin; exact Hin.
           ++ repeat (apply elem_of_cons in Hin as [->|Hin]);
                try discriminate; apply elem_of_nil in Hin; exact Hin.
        -- destruct (Client.is_connection_error e);
             repeat (apply elem_of_cons in Hin as [->|Hin]);
             try discriminate; apply elem_of_nil in Hin; exact Hin.
    + repeat (apply elem_of_cons in Hin as [Hin|Hin]); try discriminate.
      apply elem_of_nil in Hin. exact Hin.
    + apply elem_of_nil in Hin. exact Hin.
    + apply list_elem_of_singleton in Hin. discriminate.
    + destruct (Client.summarize_clicked i).
      * apply list_elem_of_singleton in Hin. discriminate.
      * apply elem_of_nil in Hin. exact Hin.
Qed.

(* ===================================================================== *)
(*  The sign of the processing time                                       *)
(* ===================================================================== *)

Lemma Zdigits2_lower p : 2 ^ (Z.pos (digits2_pos p) - 1) <= Z.pos p.
Proof.
  rewrite digits2_pos_size.
  pose proof (Pos.size_le p) as Hle.
  assert (H2 : 2 ^ Z.pos (Pos.size p) <= 2 * Z.pos p).
  { rewrite <- Pos2Z.inj_pow. change (2 * Z.pos p) with (Z.pos p~0). lia. }
  replace (Z.pos (Pos.size p)) with ((Z.pos (Pos.size p) - 1) + 1) in H2
    by lia.
  rewrite Z.pow_add_r in H2 by lia. change (2 ^ 1) with 2 in H2. lia.
Qed.

Lemma iter_xO_value d m : Z.pos (Pos.iter xO m d) = Z.pos m * 2 ^ Z.pos d.
Proof.
  revert m. induction d as [|d IH] using Pos.peano_ind; intros m.
  - change (Z.pos (Pos.iter xO m 1)) with (2 * Z.pos m).
    change (2 ^ 1) with 2. lia.
  - rewrite Pos.iter_succ. rewrite Pos2Z.inj_succ, Z.pow_succ_r by lia.
    change (Z.pos (Pos.iter xO m d)~0) with (2 * Z.pos (Pos.iter xO m d)).
    rewrite IH. lia.
Qed.

Lemma shl_align_value mx ex ez :
  ez <= ex ->
  Z.pos (fst (shl_align mx ex ez)) = Z.pos mx * 2 ^ (ex - ez)
  /\ snd (shl_align mx ex ez) = ez.
Proof.
  intros H. unfold shl_align.
  destruct (ez - ex) as [|p|p] eqn:Hd; cbn [fst snd]; try lia.
  - replace (ex - ez) with 0 by lia. lia.
  - rewrite iter_xO_value. replace (ex - ez) with (Z.pos p) by lia. lia.
Qed.

Lemma canonical_exponent m e :
  canonical_mantissa 53 1024 m e = true ->
  -1074 <= e /\ Z.pos (digits2_pos m) <= 53
  /\ (-1074 < e -> Z.pos (digits2_pos m) = 53).
Proof.
  unfold canonical_mantissa, fexp, emin. intros H%Z.eqb_eq. lia.
Qed.

Lemma canonical_lt m1 e1 m2 e2 :
  canonical_mantissa 53 1024 m1 e1 = true ->
  canonical_mantissa 53 1024 m2 e2 = true ->
  e1 < e2 -> Z.pos m1 < Z.pos m2 * 2 ^ (e2 - e1).
Proof.
  intros (H1a & H1b & _)%canonical_exponent (_ & _ & H2)%canonical_exponent
    Hlt.
  pose proof (Zdigits2_gt (Z.pos m1) ltac:(lia)) as Hu.
  cbn [Zdigits2] in Hu.
  pose proof (Zdigits2_lower m2) as Hl. rewrite H2 in Hl by lia.
  assert (H53 : 2 ^ Z.pos (digits2_pos m1) <= 2 ^ 53)
    by (apply Z.pow_le_mono_r; lia).
  assert (He : 2 ^ 1 <= 2 ^ (e2 - e1)) by (apply Z.pow_le_mono_r; lia).
  change (2 ^ 1) with 2 in He. change (2 ^ (53 - 1)) with (2 ^ 52) in Hl.
  change (2 ^ 53) with (2 * 2 ^ 52) in H53.
  assert (0 < 2 ^ 52) by reflexivity. nia.
Qed.

Lemma compare_canonical m1 e1 m2 e2 :
  canonical_mantissa 53 1024 m1 e1 = true ->
  canonical_mantissa 53 1024 m2 e2 = true ->
  (Z.pos m1 * 2 ^ (e1 - Z.min e1 e2) ?= Z.pos m2 * 2 ^ (e2 - Z.min e1 e2))
  = match e1 ?= e2 with
    | Lt => Lt
    | Gt => Gt
    | Eq => Pos.compare_cont Eq m1 m2
    end.
Proof.
  intros H1 H2. destruct (Z.compare_spec e1 e2) as [->|Hlt|Hgt].
  - rewrite Z.min_id, Z.sub_diag, !Z.mul_1_r. reflexivity.
  - rewrite Z.min_l, Z.sub_diag, Z.mul_1_r by lia.
    apply Z.compare_lt_iff. apply canonical_lt; assumption.
  - rewrite Z.min_r, Z.sub_diag, Z.mul_1_r by lia.
    apply Z.compare_gt_iff. apply canonical_lt; assumption.
Qed.

Lemma binary_round_bound sx mx ex K B :
  Z.pos mx < 2 ^ K -> 0 <= K -> ex <= 971 -> K + ex + 1 <= B ->
  -1073 <= B <= 1024 ->
  rounded_to sx B (binary_round 53 1024 sx mx ex).
Proof.
  intros Hm HK Hex HB HB2. unfold binary_round.
  set (e' := fexp 53 1024 (Z.pos (digits2_pos mx) + ex)).
  destruct (Z.le_gt_cases e' ex) as [Hle|Hgt].
  - destruct (shl_align_value mx ex e' Hle) as [Hv He].
    destruct (shl_align mx ex e') as [mz ez]. cbn [fst snd] in Hv, He.
    subst ez.
    apply (binary_round_aux_bound _ _ _ _ (K + (ex - e'))); try lia.
    rewrite Hv, Z.pow_add_r by lia.
    assert (0 < 2 ^ (ex - e')) by (apply Z.pow_pos_nonneg; lia).
    split; [lia|nia].
  - unfold shl_align. destruct (e' - ex) as [|p|p] eqn:Hd; try lia.
    apply (binary_round_aux_bound _ _ _ _ K); lia.
Qed.

(** The sign of a difference of two clock readings. *)
Lemma sub_rounded t1 t0 B :
  valid_binary 53 1024 t0 = true -> valid_binary 53 1024 t1 = true ->
  rounded_to false B t0 -> rounded_to false B t1 ->
  -1074 <= B <= 1023 ->
  rounded_to (negb (PyFloat.leb t0 t1)) (B + 1) (PyFloat.sub t1 t0).
Proof.
  intros V0 V1 R0 R1 HB. unfold PyFloat.leb, PyFloat.sub, SFleb.
  destruct t0 as [s0|s0| |s0 m0 e0]; cbn [rounded_to] in R0;
    try contradiction;
    destruct t1 as [s1|s1| |s1 m1 e1]; cbn [rounded_to] in R1;
    try contradiction.
  - subst s0 s1. reflexivity.
  - subst s0. destruct R1 as (-> & He & HeB & Hm).
    cbn [SFcompare SFsub negb rounded_to].
    split; [reflexivity|]. split; [assumption|]. split; [lia|].
    replace (B + 1 - e1) with (B - e1 + 1) by lia.
    rewrite Z.pow_add_r by lia. lia.
  - subst s1. destruct R0 as (-> & He & HeB & Hm).
    cbn [SFcompare SFsub negb rounded_to].
    split; [reflexivity|]. split; [assumption|]. split; [lia|].
    replace (B + 1 - e0) with (B - e0 + 1) by lia.
    rewrite Z.pow_add_r by lia. lia.
  - destruct R0 as (-> & He0 & HeB0 & Hm0).
    destruct R1 as (-> & He1 & HeB1 & Hm1).
    cbn [valid_binary] in V0, V1. unfold bounded in V0, V1.
    apply andb_true_iff in V0 as [C0 _]. apply andb_true_iff in V1 as [C1 _].
    pose proof (compare_canonical m0 e0 m1 e1 C0 C1) as Hc.
    cbn [SFcompare SFsub cond_Zopp].
    rewrite (Z.min_comm e1 e0).
    set (ez := Z.min e0 e1) in *.
    destruct (shl_align_value m0 e0 ez ltac:(unfold ez; lia)) as [Hv0 _].
    destruct (shl_align_value m1 e1 ez ltac:(unfold ez; lia)) as [Hv1 _].
    rewrite Hv0, Hv1.
    set (Z0 := Z.pos m0 * 2 ^ (e0 - ez)) in *.
    set (Z1 := Z.pos m1 * 2 ^ (e1 - ez)) in *.
    assert (HZ0 : 0 < Z0 < 2 ^ (B - ez)).
    { unfold Z0. replace (B - ez) with ((B - e0) + (e0 - ez)) by lia.
      rewrite Z.pow_add_r by (unfold ez; lia).
      assert (0 < 2 ^ (e0 - ez)) by (apply Z.pow_pos_nonneg; unfold ez; lia).
      nia. }
    assert (HZ1 : 0 < Z1 < 2 ^ (B - ez)).
    { unfold Z1. replace (B - ez) with ((B - e1) + (e1 - ez)) by lia.
      rewrite Z.pow_add_r by (unfold ez; lia).
      assert (0 < 2 ^ (e1 - ez)) by (apply Z.pow_pos_nonneg; unfold ez; lia).
      nia. }
    assert (Hez : ez <= 971 /\ ez < B) by (unfold ez; lia).
    destruct (Z.compare_spec Z0 Z1) as [Heq|Hlt|Hgt]; rewrite <- Hc;
      cbn [negb].
    + replace (Z1 - Z0) with 0 by lia. reflexivity.
    + destruct (Z1 - Z0) as [|p|p] eqn:Hd; try lia.
      cbn [binary_normalize].
      apply (binary_round_bound _ _ _ (B - ez)); lia.
    + destruct (Z1 - Z0) as [|p|p] eqn:Hd; try lia.
      cbn [binary_normalize].
      apply (binary_round_bound _ _ _ (B - ez)); lia.
Qed.

Lemma div_rounded sx pa pb N :
  Z.pos pa < 2 ^ N -> 0 <= N <= 1023 ->
  rounded_to sx (N + 1)
    (SFdiv 53 1024 (S754_finite sx pa 0) (S754_finite false pb 0)).
Proof.
  intros Ha HN.
  unfold SFdiv.
  destruct (SFdiv_core_binary 53 1024 (Z.pos pa) 0 (Z.pos pb) 0)
    as [[mz ez] lz] eqn:Hc.
  unfold SFdiv_core_binary in Hc.
  set (e' := Z.min (fexp 53 1024 (Zdigits2 (Z.pos pa) + 0
                                   - (Zdigits2 (Z.pos pb) + 0))) (0 - 0))
    in *.
  assert (He : e' <= 0) by (unfold e'; lia).
  set (m' := match 0 - 0 - e' with
             | 0 => Z.pos pa | Z.pos _ => Z.shiftl (Z.pos pa) (0 - 0 - e')
             | Z.neg _ => 0 end) in *.
  assert (Hm' : 0 <= m' < 2 ^ (N - e')).
  { unfold m'. destruct (0 - 0 - e') as [|p|p] eqn:Hs; try lia.
    - replace e' with 0 by lia. replace (N - 0) with N by lia. lia.
    - rewrite Z.shiftl_mul_pow2 by lia. rewrite <- Hs.
      replace (N - e') with (N + (0 - 0 - e')) by lia.
      rewrite Z.pow_add_r by lia.
      assert (0 < 2 ^ (0 - 0 - e')) by (apply Z.pow_pos_nonneg; lia). nia. }
  destruct (Z.div_eucl m' (Z.pos pb)) as [q r] eqn:Hqr.
  inversion Hc; subst mz ez lz; clear Hc.
  assert (Hq : q = m' / Z.pos pb) by (unfold Z.div; rewrite Hqr; reflexivity).
  assert (0 <= q <= m').
  { subst q. split; [apply Z.div_pos; lia|].
    apply Z.div_le_upper_bound; nia. }
  replace (xorb sx false) with sx by (destruct sx; reflexivity).
  apply (binary_round_aux_bound _ _ _ _ (N - e')); lia.
Qed.

Lemma round_rounded_signed sx x nd P B :
  rounded_to sx B x -> 0 <= nd -> 10 ^ nd <= 2 ^ P -> 0 <= P ->
  0 <= B -> B + P + 2 <= 1024 ->
  rounded_to sx (B + P + 2) (PyFloat.round x nd).
Proof.
  intros Hx Hnd HP HP0 HB0 HB.
  destruct x as [s|s| |s m e]; cbn [rounded_to] in Hx; try contradiction.
  - subst s. reflexivity.
  - destruct Hx as (-> & He & HeB & Hm).
    unfold PyFloat.round.
    set (p10 := 10 ^ nd) in *.
    assert (Hp10 : 0 < p10) by (apply Z.pow_pos_nonneg; lia).
    set (r := if 0 <=? e then Z.pos m * 2 ^ e * p10
              else PyFloat.round_half_even (Z.pos m * p10) (2 ^ (- e))).
    assert (Hr : 0 <= r < 2 ^ (B + P + 1)).
    { assert (H2P : 0 < 2 ^ P) by (apply Z.pow_pos_nonneg; lia).
      assert (HBP : 2 ^ (B + P + 1) = 2 ^ (B + P) * 2)
        by (rewrite Z.pow_add_r by lia; reflexivity).
      assert (HBP2 : 2 ^ (B + P) = 2 ^ B * 2 ^ P)
        by (rewrite Z.pow_add_r by lia; reflexivity).
      assert (0 < 2 ^ B) by (apply Z.pow_pos_nonneg; lia).
      unfold r. destruct (Z.leb_spec 0 e).
      - assert (He2 : 2 ^ B = 2 ^ (B - e) * 2 ^ e)
          by (rewrite <- Z.pow_add_r by lia; f_equal; lia).
        assert (0 < 2 ^ e) by (apply Z.pow_pos_nonneg; lia).
        assert (Z.pos m * 2 ^ e < 2 ^ B) by nia.
        split; [nia|]. nia.
      - assert (Hd : 0 < 2 ^ (- e)) by (apply Z.pow_pos_nonneg; lia).
        pose proof (round_half_even_bound (Z.pos m * p10) (2 ^ (- e))
                      ltac:(nia) Hd) as [Hr0 Hr1].
        split; [assumption|].
        assert (He2 : 2 ^ (B - e) = 2 ^ B * 2 ^ (- e))
          by (rewrite <- Z.pow_add_r by lia; f_equal; lia).
        assert (Hq : Z.pos m * p10 / 2 ^ (- e) < 2 ^ (B + P)).
        { apply Z.div_lt_upper_bound; [assumption|]. nia. }
        lia. }
    destruct r as [|pr|pr] eqn:Hreq; [reflexivity| |lia].
    destruct p10 as [|pp|pp] eqn:Hpp; try lia.
    replace (B + P + 2) with ((B + P + 1) + 1) by lia.
    destruct sx; cbn [PyFloat.exact Z.opp];
      apply (div_rounded _ pr pp (B + P + 1)); lia.
Qed.

Lemma processing_time_rounded t0 t1 :
  clock_reading t0 -> clock_reading t1 ->
  rounded_to (negb (PyFloat.leb t0 t1)) 1013
    (PyFloat.round (PyFloat.sub t1 t0) 3).
Proof.
  intros [V0 R0] [V1 R1].
  change 1013 with (1001 + 10 + 2).
  apply round_rounded_signed; try lia.
  change 1001 with (1000 + 1). apply sub_rounded; try assumption. lia.
Qed.

(** X19. In a successful response, [processing_time] is never NaN and
    never infinite, and it is [+0.0] or positive exactly when the second
    reading of [time.time()] is not below the first; when the clock was set
    back between the two readings it is [-0.0] or negative.  The readings
    are canonical doubles that are not negative and are below [2 ^ 1000]. *)
Theorem processing_time_sign env request w resp :
  fst (summarize env request w) = Ok resp ->
  clock_reading (time_time env (ticks w)) ->
  clock_reading (time_time env (S (ticks w))) ->
  finite_nonneg (processing_time resp)
  = PyFloat.leb (time_time env (ticks w)) (time_time env (S (ticks w)))
  /\ processing_time resp <> S754_nan
  /\ (forall s, processing_time resp <> S754_infinity s).
Proof.
  intros Hok H0 H1.
  destruct (summarize env request w) as [r w'] eqn:Hrun.
  cbv beta iota delta [fst] in Hok. subst r.
  destruct (summarize_ok_inv env request w resp w' Hrun)
    as (p & m & res & h & first & _ & _ & _ & _ & _ & Hmet & _).
  destruct Hmet as (_ & _ & _ & _ & Ht). rewrite Ht.
  pose proof (processing_time_rounded _ _ H0 H1) as Hr.
  destruct (PyFloat.leb _ _);
    destruct (PyFloat.round _ 3) as [s|s| |s mm ee];
    cbn [rounded_to negb] in Hr; try contradiction.
  - subst s. split; [reflexivity|]. split; [discriminate|].
    intros s. discriminate.
  - destruct Hr as (-> & _). split; [reflexivity|]. split; [discriminate|].
    intros s. discriminate.
  - subst s. split; [reflexivity|]. split; [discriminate|].
    intros s. discriminate.
  - destruct Hr as (-> & _). split; [reflexivity|]. split; [discriminate|].
    intros s. discriminate.
Qed.

Lemma processing_time_sign_witness :
  (exists resp,
     fst (summarize Sample.env (Sample.request Sample.news 100)
            (Sample.loaded Sample.truncating)) = Ok resp
     /\ finite_nonneg (processing_time resp) = true)
  /\ (exists resp,
        fst (summarize Demo.backwards (Sample.request Sample.news 100)
               (Sample.loaded Sample.truncating)) = Ok resp
        /\ finite_nonneg (processing_time resp) = false
        /\ processing_time resp = SFopp (PyFloat.dec 15 1)).
Proof.
  assert (Hc : forall e : Env,
             (e = Sample.env \/ e = Demo.backwards) ->
             clock_reading (time_time e O)
             /\ clock_reading (time_time e 1%nat)).
  { intros e [->| ->]; split; (split; [vm_compute; reflexivity|]);
      vm_compute; repeat split; discriminate. }
  split.
  - eexists. split; [vm_compute; reflexivity|].
    match goal with
    | |- finite_nonneg (processing_time ?r) = _ =>
        assert (Hok : fst (summarize Sample.env
                             (Sample.request Sample.news 100)
                             (Sample.loaded Sample.truncating)) = Ok r)
          by (vm_compute; reflexivity);
        destruct (Hc Sample.env (or_introl eq_refl)) as [H0 H1];
        destruct (processing_time_sign Sample.env _ _ r Hok H0 H1)
          as (Hs & _);
        rewrite Hs; vm_compute; reflexivity
    end.
  - eexists. split; [vm_compute; reflexivity|].
    match goal with
    | |- finite_nonneg (processing_time ?r) = _ /\ _ =>
        assert (Hok : fst (summarize Demo.backwards
                             (Sample.request Sample.news 100)
                             (Sample.loaded Sample.truncating)) = Ok r)
          by (vm_compute; reflexivity);
        destruct (Hc Demo.backwards (or_intror eq_refl)) as [H0 H1];
        destruct (processing_time_sign Demo.backwards _ _ r Hok H0 H1)
          as (Hs & _);
        split; [rewrite Hs; vm_compute; reflexivity|vm_compute; reflexivity]
    end.
Defined.

(* ===================================================================== *)
(*  The trace of the process                                              *)
(* ===================================================================== *)

Section ProcessFacts.

Variable env : Env.

Lemma validated_budget b request m :
  validate b = Ok request -> max_length request = Some m -> 30 <= m <= 300.
Proof.
  intros Hv Hm. apply validate_ok in Hv as (_ & _ & Hml).
  rewrite Hm in Hml. unfold validate_max_length in Hml.
  destruct (body_max_length b) as [| |z]; try discriminate.
  - injection Hml as <-. lia.
  - destruct (Z.leb_spec 30 z), (Z.leb_spec z 300);
      cbv beta iota delta [andb] in Hml; try discriminate.
    injection Hml as <-. lia.
Qed.

Lemma invocations_app l1 l2 :
  invocations (l1 ++ l2) = (invocations l1 + invocations l2)%nat.
Proof.
  induction l1 as [|[line|t mx mn ds] r IH]; cbn [app invocations];
    [reflexivity|exact IH|rewrite IH; reflexivity].
Qed.

Lemma printed_app l1 l2 : printed (l1 ++ l2) = printed l1 ++ printed l2.
Proof.
  induction l1 as [|[line|t mx mn ds] r IH]; cbn [app printed];
    [reflexivity|rewrite IH; reflexivity|exact IH].
Qed.

(** The trace after a request: unchanged, or extended by one invocation,
    which happens for a validated body with an integer budget when a model
    is loaded. *)
Lemma handle_events r w :
  events (snd (handle env r w)) = events w
  \/ exists b request p m,
       r = POST_summarize b /\ validate b = Ok request
       /\ summarizer w = Some p /\ max_length request = Some m
       /\ events (snd (handle env r w))
          = events w
            ++ [EvInvoke (text request) (generation_ceiling m) 20 false].
Proof.
  destruct r as [| |b]; unfold handle, serve.
  - left. reflexivity.
  - left. rewrite health_check_eq. destruct w; reflexivity.
  - destruct (validate b) as [request|errs] eqn:Hv; [|left; reflexivity].
    destruct (summarizer w) as [p|] eqn:Hs.
    + destruct (max_length request) as [m|] eqn:Hm.
      * right. exists b, request, p, m.
        pose proof (summarize_events env request w p m Hs Hm) as He.
        destruct (summarize env request w) as [[resp|e] w'];
          cbv beta iota delta [snd] in He |- *; auto.
      * left. rewrite (summarize_no_budget env request w p Hs Hm).
        destruct w; reflexivity.
    + left. rewrite (summarize_unloaded env request w Hs). reflexivity.
Qed.

(** The trace after the startup hook: three printed lines are added. *)
Lemma startup_event_events w :
  exists last,
    events (snd (startup_event env w))
    = events w
      ++ [EvPrint (PyStr.lit "Начинаем загрузку модели...");
          EvPrint (PyStr.lit "Используемое устройство: "
                     ++ (if torch_cuda_is_available env
                         then PyStr.lit "GPU" else PyStr.lit "CPU"));
          EvPrint last]
    /\ match load_outcome env with
       | Ok p =>
           summarizer (snd (startup_event env w)) = Some p
           /\ last = PyStr.lit "Модель успешно загружена"
       | Raise e =>
           summarizer (snd (startup_event env w)) = summarizer w
           /\ last = PyStr.lit "Ошибка при загрузке модели: " ++ e
       end.
Proof.
  destruct w as [sm hd tk ev]. unfold startup_event, load_outcome.
  run_monad.
  destruct (torch_cuda_is_available env); cbv beta iota zeta.
  - change (0 =? 0) with true. cbv beta iota.
    destruct (transformers_pipeline env _ _ 0 _) as [p|e];
      cbv beta iota; eexists; rewrite <- !app_assoc;
      (split; [reflexivity|split; reflexivity]).
  - change (-1 =? 0) with false. cbv beta iota.
    destruct (transformers_pipeline env _ _ (-1) _) as [p|e];
      cbv beta iota; eexists; rewrite <- !app_assoc;
      (split; [reflexivity|split; reflexivity]).
Qed.

Lemma step_process_invariant s a s' :
  step env s a s' -> process_invariant s -> process_invariant s'.
Proof.
  intros Hstep [Hboot Hall]. destruct Hstep as [s Hst|s r].
  - split; [discriminate|]. cbn [world].
    destruct (startup_event_events (world s)) as (last & -> & _).
    apply Forall_app. split; [exact Hall|].
    repeat constructor.
  - split.
    + cbn [started world]. intros Hst.
      destruct (Hboot Hst) as [Hs He].
      rewrite handle_summarizer. split; [exact Hs|].
      destruct (handle_events r (world s))
        as [->|(b & request & p & m & _ & _ & Hp & _)];
        [exact He|congruence].
    + cbn [world].
      destruct (handle_events r (world s))
        as [->|(b & request & p & m & _ & Hv & _ & Hm & ->)];
        [exact Hall|].
      apply Forall_app. split; [exact Hall|].
      constructor; [|constructor].
      cbn [bounded_invocation].
      pose proof (validate_ok b request Hv) as (_ & Hlen & _).
      pose proof (validated_budget b request m Hv Hm) as Hr.
      unfold generation_ceiling.
      assert (10 <= m / 3) by (apply Z.div_le_lower_bound; lia).
      split; [exact Hlen|]. split; [lia|]. split; reflexivity.
Qed.

Lemma step_invocations s a s' :
  step env s a s' ->
  (invocations (events (world s'))
   <= invocations (events (world s)) + posts [a])%nat
  /\ (a <> Startup ->
      printed (events (world s')) = printed (events (world s))).
Proof.
  intros Hstep. destruct Hstep as [s Hst|s r].
  - split; [|congruence]. cbn [world].
    destruct (startup_event_events (world s)) as (last & -> & _).
    rewrite invocations_app. cbn [invocations posts]. lia.
  - cbn [world].
    destruct (handle_events r (world s))
      as [->|(b & request & p & m & -> & _ & _ & _ & ->)].
    + split; [lia|reflexivity].
    + rewrite invocations_app, printed_app. cbn [invocations posts printed].
      split; [lia|]. intros _. apply app_nil_r.
Qed.

End ProcessFacts.

Section ProcessTrace.

Variable env : Env.

(** Along any run the invariant is kept, and each invocation is paid for
    by a [POST /summarize]. *)
Lemma steps_process s l s' :
  steps env s l s' -> process_invariant s ->
  process_invariant s'
  /\ (invocations (events (world s'))
      <= invocations (events (world s)) + posts l)%nat.
Proof.
  induction 1 as [s|s a s1 l s2 Hstep _ IH]; intros Hinv.
  - split; [exact Hinv|lia].
  - destruct (IH (step_process_invariant env _ _ _ Hstep Hinv)) as [H1 H2].
    split; [exact H1|].
    destruct (step_invocations env _ _ _ Hstep) as [H3 _].
    assert (Hp : posts (a :: l) = (posts [a] + posts l)%nat).
    { destruct a as [|[| |b]]; reflexivity. }
    rewrite Hp. lia.
Qed.

Lemma step_console s a s' :
  step env s a s' -> console_invariant env s -> console_invariant env s'.
Proof.
  intros Hstep [Hboot Hrun]. destruct Hstep as [s Hst|s r].
  - split; [discriminate|]. intros _. cbn [world].
    destruct (Hboot Hst) as [Hs He].
    destruct (startup_event_events env (world s)) as (last & Hev & Hl).
    exists last. rewrite Hev, He. split; [reflexivity|].
    destruct (load_outcome env) as [p|e]; [exact Hl|].
    destruct Hl as [Hl1 Hl2]. split; [congruence|exact Hl2].
  - destruct (step_invocations env _ _ _ (step_call env s r)) as [_ Hp].
    specialize (Hp ltac:(discriminate)). cbn [world] in Hp.
    split; cbn [started world]; intros Hst.
    + destruct (Hboot Hst) as [Hs He].
      rewrite handle_summarizer. split; [exact Hs|].
      destruct (handle_events env r (world s))
        as [->|(b & request & p & m & _ & _ & Hsome & _)];
        [exact He|congruence].
    + rewrite handle_summarizer, Hp. exact (Hrun Hst).
Qed.

Lemma steps_console s l s' :
  steps env s l s' -> console_invariant env s -> console_invariant env s'.
Proof.
  induction 1 as [s|s a s1 l s2 Hstep _ IH]; [auto|].
  intros Hinv. apply IH. eapply step_console; eauto.
Qed.

End ProcessTrace.

(** X20. Over the life of the process, started from the module as imported
    and driven by any sequence of startup and requests: every invocation of
    the model has a text of 50 to 5000 characters, a generation ceiling
    between 10 and 100, minimum length 20 and sampling disabled; there are
    at most as many invocations as [POST /summarize] requests; and before
    the startup hook has run nothing has been printed or invoked. *)
Theorem model_invocations_bounded env h l s :
  steps env (boot h) l s ->
  Forall bounded_invocation (events (world s))
  /\ (invocations (events (world s)) <= posts l)%nat
  /\ (started s = false -> events (world s) = []).
Proof.
  intros Hsteps.
  assert (H0 : process_invariant (boot h)).
  { split; [intros _; split; reflexivity|constructor]. }
  destruct (steps_process env _ _ _ Hsteps H0) as [[Hb Hall] Hn].
  split; [exact Hall|]. split; [exact Hn|].
  intros Hst. exact (proj2 (Hb Hst)).
Qed.

Lemma model_invocations_bounded_witness :
  exists s,
    steps Sample.env (boot 7)
      [Call (POST_summarize (Sample.body Sample.news (IntValue 100)));
       Startup;
       Call (POST_summarize (Sample.body Sample.news (IntValue 100)));
       Call GET_health] s
    /\ Forall bounded_invocation (events (world s))
    /\ (invocations (events (world s)) <= 2)%nat
    /\ invocations (events (world s)) = 1%nat.
Proof.
  eexists. split.
  - eapply steps_cons; [apply step_call|].
    eapply steps_cons; [apply step_startup; reflexivity|].
    eapply steps_cons; [apply step_call|].
    eapply steps_cons; [apply step_call|apply steps_nil].
  - match goal with
    | |- Forall _ (events (world ?s)) /\ _ =>
        assert (Hs : steps Sample.env (boot 7)
                  [Call (POST_summarize
                           (Sample.body Sample.news (IntValue 100)));
                   Startup;
                   Call (POST_summarize
                           (Sample.body Sample.news (IntValue 100)));
                   Call GET_health] s)
    end.
    { eapply steps_cons; [apply step_call|].
      eapply steps_cons; [apply step_startup; reflexivity|].
      eapply steps_cons; [apply step_call|].
      eapply steps_cons; [apply step_call|apply steps_nil]. }
    destruct (model_invocations_bounded Sample.env 7 _ _ Hs)
      as (Ha & Hb & _).
    split; [exact Ha|]. split; [exact Hb|]. vm_compute. reflexivity.
Defined.

(** X21. At any time in the life of the process the console tells the
    state of the engine: while it is Loading nothing has been printed; once
    the startup hook has run the console holds exactly three lines, the
    start line, the device line (GPU exactly when the accelerator probe
    succeeded) and a last line that is the success line when the engine is
    Ready and the error line with the cause of the failed load when it is
    Failed.  No request prints anything. *)
Theorem console_reports_engine_state env h l s :
  steps env (boot h) l s ->
  match engine_state s with
  | Loading => events (world s) = []
  | Ready =>
      exists p,
        load_outcome env = Ok p /\ summarizer (world s) = Some p
        /\ printed (events (world s))
           = startup_lines env (PyStr.lit "Модель успешно загружена")
  | Failed =>
      exists e,
        load_outcome env = Raise e
        /\ printed (events (world s))
           = startup_lines env
               (PyStr.lit "Ошибка при загрузке модели: " ++ e)
  end.
Proof.
  intros Hsteps.
  assert (H0 : console_invariant env (boot h)).
  { split; [intros _; split; reflexivity|discriminate]. }
  destruct (steps_console env _ _ _ Hsteps H0) as [Hboot Hrun].
  unfold engine_state.
  destruct (started s) eqn:Hst.
  - destruct (Hrun eq_refl) as (last & Hp & Hl).
    destruct (load_outcome env) as [p|e]; destruct Hl as [Hs ->];
      rewrite Hs.
    + exists p. auto.
    + exists e. auto.
  - destruct (Hboot eq_refl) as [Hs He]. rewrite Hs. exact He.
Qed.

Lemma console_reports_engine_state_witness :
  (exists p,
     load_outcome Sample.env = Ok p
     /\ summarizer (world (Sample.started_up Sample.env)) = Some p
     /\ printed (events (world (Sample.started_up Sample.env)))
        = startup_lines Sample.env (PyStr.lit "Модель успешно загружена"))
  /\ (exists e,
        load_outcome Sample.env_offline = Raise e
        /\ printed (events (world (Sample.started_up Sample.env_offline)))
           = startup_lines Sample.env_offline
               (PyStr.lit "Ошибка при загрузке модели: " ++ e)).
Proof.
  assert (H1 : steps Sample.env (boot 7) [Startup]
                 (Sample.started_up Sample.env)).
  { eapply steps_cons; [|apply steps_nil].
    apply (step_startup Sample.env (boot 7) eq_refl). }
  assert (H2 : steps Sample.env_offline (boot 7) [Startup]
                 (Sample.started_up Sample.env_offline)).
  { eapply steps_cons; [|apply steps_nil].
    apply (step_startup Sample.env_offline (boot 7) eq_refl). }
  pose proof (console_reports_engine_state _ _ _ _ H1) as C1.
  pose proof (console_reports_engine_state _ _ _ _ H2) as C2.
  assert (E1 : engine_state (Sample.started_up Sample.env) = Ready)
    by (vm_compute; reflexivity).
  assert (E2 : engine_state (Sample.started_up Sample.env_offline) = Failed)
    by (vm_compute; reflexivity).
  rewrite E1 in C1. rewrite E2 in C2. split; [exact C1|exact C2].
Defined.
